(** * AzSql: token encoding, connection acquisition and query execution

    A shallow embedding of [azsql_package/azsql.py].  The class talks to
    three external collaborators: the identity provider (msal), the
    database driver (pyodbc) and the logger.  Their calls are primitives
    of a small state-and-exception monad: the state is the history of the
    calls made so far, and an environment says, for the k-th call of every
    primitive, whether it raises and what it returns. *)

From Stdlib Require Import List String Ascii ZArith NArith Lia Bool Arith.
From Stdlib.Strings Require Import Byte.
From Stdlib Require Import DecimalString.
Import ListNotations.

Set Implicit Arguments.
Set Warnings "-register-all".

(** ** Bytes *)

Module Bytes.
Local Open Scope Z_scope.

(** [bytes({i})]: the byte whose value is [i]; Python's iteration over a
    [bytes] object only yields values below 256. *)
Definition of_N (n : N) : byte :=
  match Byte.of_N (n mod 256)%N with
  | Some b => b
  | None => x00
  end.

Definition to_Z (b : byte) : Z := Z.of_N (Byte.to_N b).

(** Host byte order, [sys.byteorder]. *)
Inductive byteorder := LittleEndian | BigEndian.

(** The four bytes of a 32-bit two's complement integer, least significant
    byte first. *)
Definition le_bytes32 (z : Z) : list byte :=
  let u := Z.to_N (z mod 2 ^ 32) in
  [ of_N u; of_N (u / 256); of_N (u / 65536); of_N (u / 16777216) ]%N.

(** [int.from_bytes(bs, 'little')]. *)
Fixpoint le_decode (bs : list byte) : Z :=
  match bs with
  | [] => 0
  | b :: rest => to_Z b + 256 * le_decode rest
  end.

End Bytes.

(** ** Python values *)

Module Py.
Import Bytes.
Local Open Scope Z_scope.

(** A Python [str] is a sequence of Unicode code points. *)
Definition pystr := list N.

Definition is_ascii (s : pystr) : Prop := Forall (fun c => (c < 128)%N) s.

(** [bytes(s, 'UTF-8')] for one code point; surrogates cannot be encoded
    and raise [UnicodeEncodeError]. *)
Definition utf8_char (c : N) : option (list byte) :=
  (if c <? 0x80 then Some [of_N c]
   else if c <? 0x800 then
     Some [of_N (N.lor 0xC0 (N.shiftr c 6));
           of_N (N.lor 0x80 (N.land c 0x3F))]
   else if c <? 0x10000 then
     if (0xD800 <=? c) && (c <=? 0xDFFF) then None
     else
       Some [of_N (N.lor 0xE0 (N.shiftr c 12));
             of_N (N.lor 0x80 (N.land (N.shiftr c 6) 0x3F));
             of_N (N.lor 0x80 (N.land c 0x3F))]
   else if c <? 0x110000 then
     Some [of_N (N.lor 0xF0 (N.shiftr c 18));
           of_N (N.lor 0x80 (N.land (N.shiftr c 12) 0x3F));
           of_N (N.lor 0x80 (N.land (N.shiftr c 6) 0x3F));
           of_N (N.lor 0x80 (N.land c 0x3F))]
   else None)%N.

Fixpoint utf8_encode (s : pystr) : option (list byte) :=
  match s with
  | [] => Some []
  | c :: rest =>
      match utf8_char c, utf8_encode rest with
      | Some bs, Some more => Some (bs ++ more)
      | _, _ => None
      end
  end.

(** [struct.pack('=i', n)]: native byte order, standard size; a value that
    does not fit a signed 32-bit integer raises [struct.error]. *)
Definition struct_pack_i (bo : byteorder) (n : Z) : option (list byte) :=
  if (- 2 ^ 31 <=? n) && (n <=? 2 ^ 31 - 1) then
    Some (match bo with
          | LittleEndian => le_bytes32 n
          | BigEndian => rev (le_bytes32 n)
          end)
  else None.

(** Lookup in a [dict] with string keys. *)
Fixpoint dict_get {V} (d : list (string * V)) (key : string) : option V :=
  match d with
  | [] => None
  | (k, v) :: rest => if String.eqb k key then Some v else dict_get rest key
  end.

(** [str(n)] for an [int]. *)
Definition str_of_int (z : Z) : string := NilZero.string_of_int (Z.to_int z).

(** The code points that UTF-8 does not carry. *)
Definition is_surrogate (c : N) : bool := ((0xD800 <=? c) && (c <=? 0xDFFF))%N.

(** The first surrogate of a string: its position, the code point, and
    what follows it. *)
Fixpoint find_surrogate (s : pystr) (pos : nat) : option (nat * N * pystr) :=
  match s with
  | [] => None
  | c :: rest =>
      if is_surrogate c then Some (pos, c, rest)
      else find_surrogate rest (S pos)
  end.

(** How many surrogates a string starts with. *)
Fixpoint surrogate_run (s : pystr) : nat :=
  match s with
  | c :: rest => if is_surrogate c then S (surrogate_run rest) else O
  | [] => O
  end.

Definition hex_digit (n : N) : string :=
  String (nth (N.to_nat n)
            ["0"; "1"; "2"; "3"; "4"; "5"; "6"; "7"; "8"; "9";
             "a"; "b"; "c"; "d"; "e"; "f"]%char "0"%char) EmptyString.

(** [%04x] *)
Definition hex4 (c : N) : string :=
  (hex_digit ((c / 4096) mod 16) ++ hex_digit ((c / 256) mod 16)
   ++ hex_digit ((c / 16) mod 16) ++ hex_digit (c mod 16))%string.

(** [str(e)] for the [UnicodeEncodeError] of [bytes(s, 'UTF-8')]: the
    codec reports the first run of surrogates, by the character when the
    run has one and by the first and last position otherwise.  A code
    point beyond 0x10FFFF is not a character of a [str]; the last case
    only makes the function total. *)
Definition encode_error_text (s : pystr) : string :=
  match find_surrogate s 0 with
  | Some (pos, c, rest) =>
      match surrogate_run rest with
      | O =>
          ("'utf-8' codec can't encode character '\u" ++ hex4 c
           ++ "' in position " ++ str_of_int (Z.of_nat pos)
           ++ ": surrogates not allowed")%string
      | S more =>
          ("'utf-8' codec can't encode characters in position "
           ++ str_of_int (Z.of_nat pos) ++ "-"
           ++ str_of_int (Z.of_nat (pos + S more))
           ++ ": surrogates not allowed")%string
      end
  | None => "surrogates not allowed"%string
  end.

(** [time.sleep] turns its argument into a signed 64-bit number of
    nanoseconds: beyond 9223372036 seconds on either side the conversion
    overflows. *)
Definition sleep_overflows (seconds : Z) : bool :=
  (seconds <? -9223372036) || (9223372036 <? seconds).

(** [needle in hay] for two strings. *)
Fixpoint contains (needle hay : string) : bool :=
  String.prefix needle hay
  || match hay with
     | EmptyString => false
     | String _ rest => contains needle rest
     end.

(** The values that travel as [data_values] and as results. *)
Inductive pyval :=
| VNone
| VBool (b : bool)
| VInt (z : Z)
| VStr (s : string)
| VTuple (items : list pyval)
| VList (items : list pyval)
| VConn (id : nat)
| VCursor (id : nat).

(** Truth value testing, as in [if data_values:]. *)
Definition truthy (v : pyval) : bool :=
  match v with
  | VNone => false
  | VBool b => b
  | VInt z => negb (z =? 0)
  | VStr s => negb (String.eqb s EmptyString)
  | VTuple items | VList items =>
      match items with [] => false | _ => true end
  | VConn _ | VCursor _ => true
  end.

Definition isinstance_list (v : pyval) : bool :=
  match v with VList _ => true | _ => false end.

Definition isinstance_tuple (v : pyval) : bool :=
  match v with VTuple _ => true | _ => false end.

(** Iterating over a value that was tested to be a list. *)
Definition items_of (v : pyval) : list pyval :=
  match v with VList items | VTuple items => items | _ => [] end.

(** Exceptions below [Exception]; [str_of] is what [str(e)] gives. *)
Inductive exn_class :=
| OperationalError   (* pyodbc.OperationalError *)
| DatabaseError      (* any other pyodbc error *)
| TypeError
| AttributeError
| KeyError
| ValueError
| OverflowError
| ImportError
| StructError        (* struct.error *)
| UnicodeEncodeError
| OtherException.

Record exn := mk_exn { class_of : exn_class; str_of : string }.

Definition is_operational (e : exn) : bool :=
  match class_of e with OperationalError => true | _ => false end.

End Py.

(** ** Effects: the history of calls and the environment *)

Module Eff.
Import Bytes Py.
Local Open Scope Z_scope.
Local Open Scope string_scope.

(** Every call that leaves the process, and every log line, is an event.
    Connections and cursors are named by the rank of the call that opened
    them. *)
Inductive event :=
| EvMsalApp (client_id authority client_credential : string)
| EvAcquireToken (scopes : list string)
| EvConnect (conn : nat) (connString : string)
            (attrs_before : list (Z * list byte))
| EvCursor (conn cursor : nat)
| EvExecute (cursor : nat) (query : string) (params : option pyval)
| EvExecuteMany (cursor : nat) (query : string) (params : pyval)
| EvFetchall (cursor : nat)
| EvDescription (cursor : nat)
| EvCommit (conn : nat)
| EvRollback (conn : nat)
| EvCloseCursor (cursor : nat)
| EvCloseConn (conn : nat)
| EvSleep (seconds : Z)
| EvLogWarning (msg : string)
| EvLogError (msg : string)
| EvPrint (msg : string).

(** The history holds the most recent event first; [chron] reads it in
    the order of time. *)
Definition history := list event.
Definition chron (h : history) : list event := rev h.

(** The external calls that may raise. *)
Inductive prim :=
| PMsalApp | PToken | PConnect | PCursor | PExecute | PExecuteMany
| PFetchall | PDescription | PCommit | PRollback | PCloseCursor | PCloseConn.

Definition is_call (p : prim) (e : event) : bool :=
  match p, e with
  | PMsalApp, EvMsalApp _ _ _
  | PToken, EvAcquireToken _
  | PConnect, EvConnect _ _ _
  | PCursor, EvCursor _ _
  | PExecute, EvExecute _ _ _
  | PExecuteMany, EvExecuteMany _ _ _
  | PFetchall, EvFetchall _
  | PDescription, EvDescription _
  | PCommit, EvCommit _
  | PRollback, EvRollback _
  | PCloseCursor, EvCloseCursor _
  | PCloseConn, EvCloseConn _ => true
  | _, _ => false
  end.

(** How many times primitive [p] has been called so far. *)
Fixpoint ncalls (p : prim) (h : history) : nat :=
  match h with
  | [] => 0
  | e :: h' => if is_call p e then S (ncalls p h') else ncalls p h'
  end.

Definition is_sleep (e : event) : bool :=
  match e with EvSleep _ => true | _ => false end.

(** How many times the process has slept so far. *)
Fixpoint nsleeps (h : history) : nat :=
  match h with
  | [] => 0
  | e :: h' => if is_sleep e then S (nsleeps h') else nsleeps h'
  end.

(** The world outside: the module-level configuration, the byte order of
    the host, and for the k-th call of each primitive whether it raises
    ([fault]) and what it answers. *)
Record env := {
  CLIENT_ID : string;
  TENANT_ID : string;
  CLIENT_CREDENTIAL : string;
  byteorder_of : byteorder;
  fault : prim -> nat -> option exn;
  token_response : nat -> list (string * pystr);
  fetched : nat -> pyval;
  description : nat -> option (list (string * list pyval))
}.

Inductive outcome (A : Type) :=
| Ret (a : A)
| Raise (e : exn).
Arguments Ret {A} a.
Arguments Raise {A} e.

Definition M (A : Type) : Type := history -> outcome A * history.

Definition ret {A} (a : A) : M A := fun h => (Ret a, h).

Definition bind {A B} (m : M A) (k : A -> M B) : M B :=
  fun h =>
    match m h with
    | (Ret a, h1) => k a h1
    | (Raise e, h1) => (Raise e, h1)
    end.

Definition raise {A} (e : exn) : M A := fun h => (Raise e, h).

Definition emit (ev : event) : M unit := fun h => (Ret tt, ev :: h).

(** The k-th call of [p]: recorded, then it raises or answers as the
    environment says. *)
Definition call {A} (E : env) (p : prim) (ev : event) (answer : nat -> A)
  : M A :=
  fun h =>
    let k := ncalls p h in
    match fault E p k with
    | Some e => (Raise e, ev :: h)
    | None => (Ret (answer k), ev :: h)
    end.

(** [try: m  except Exception as e: handler e]. *)
Definition try_except {A} (m : M A) (handler : exn -> M A) : M A :=
  fun h =>
    match m h with
    | (Ret a, h1) => (Ret a, h1)
    | (Raise e, h1) => handler e h1
    end.

(** [finally]: the block runs on every exit; when it raises, its exception
    replaces the pending return value or exception. *)
Definition finally {A} (r : outcome A * history) (block : M unit)
  : outcome A * history :=
  match block (snd r) with
  | (Ret _, h2) => (fst r, h2)
  | (Raise e, h2) => (Raise e, h2)
  end.

(** The [try] block of a function whose first statement binds the local
    names [L] that the handler and the cleanup look at.  It gives the
    names as they are when control leaves the block, and how it leaves:
    with the value of a [return] or with an exception. *)
Definition try_block {L A} (l0 : L) (first : M L) (rest : L -> M A)
  : history -> L * outcome A * history :=
  fun h =>
    match first h with
    | (Raise e, h1) => (l0, Raise e, h1)
    | (Ret l1, h1) => let (r, h2) := rest l1 h1 in (l1, r, h2)
    end.

(** [except Exception as e: handler] then [finally: cleanup], after the
    [try] block left as [t]. *)
Definition except_finally {L A} (t : L * outcome A * history)
    (handler : L -> exn -> M A) (cleanup : L -> M unit)
  : outcome A * history :=
  let '(l, r, h1) := t in
  finally (match r with
           | Ret a => (Ret a, h1)
           | Raise e => handler l e h1
           end)
          (cleanup l).

Declare Scope eff_scope.
Delimit Scope eff_scope with eff.
Notation "x <- c1 ;; c2" := (bind c1 (fun x => c2))
  (at level 61, c1 at next level, right associativity) : eff_scope.
Notation "' pat <- c1 ;; c2" := (bind c1 (fun x => match x with pat => c2 end))
  (at level 61, pat pattern, c1 at next level, right associativity) : eff_scope.
Notation "c1 ;; c2" := (bind c1 (fun _ => c2))
  (at level 61, right associativity) : eff_scope.

End Eff.

(** ** The class [AzSql] *)

Module AzSql.
Import Bytes Py Eff.
Local Open Scope Z_scope.
Local Open Scope string_scope.
Local Open Scope eff_scope.

Record AzSql := { server : string; database : string }.

Section Methods.

Variable E : env.

(** *** The collaborators' calls *)

Definition ConfidentialClientApplication : M unit :=
  call E PMsalApp
    (EvMsalApp (CLIENT_ID E)
       ("https://login.microsoftonline.com/" ++ TENANT_ID E)
       (CLIENT_CREDENTIAL E))
    (fun _ => tt).

Definition acquire_token_for_client (scopes : list string)
  : M (list (string * pystr)) :=
  call E PToken (EvAcquireToken scopes) (token_response E).

(** [d[key]] on a [dict]. *)
Definition getitem (d : list (string * pystr)) (key : string) : M pystr :=
  match dict_get d key with
  | Some v => ret v
  | None => raise (mk_exn KeyError ("'" ++ key ++ "'"))
  end.

Definition bytes_utf8 (s : pystr) : M (list byte) :=
  match utf8_encode s with
  | Some bs => ret bs
  | None => raise (mk_exn UnicodeEncodeError (encode_error_text s))
  end.

Definition struct_pack (n : Z) : M (list byte) :=
  match struct_pack_i (byteorder_of E) n with
  | Some bs => ret bs
  | None =>
      raise (mk_exn StructError
               "'i' format requires -2147483648 <= number <= 2147483647")
  end.

Definition logger_error (msg : string) : M unit := emit (EvLogError msg).
Definition logger_warning (msg : string) : M unit := emit (EvLogWarning msg).
Definition print (msg : string) : M unit := emit (EvPrint msg).

(** [time.sleep(seconds)] with an [int]: the conversion is checked first,
    then the sign. *)
Definition time_sleep (seconds : Z) : M unit :=
  if sleep_overflows seconds then
    raise (mk_exn OverflowError
             "timestamp too large to convert to C _PyTime_t")
  else if (seconds <? 0)%Z then
    raise (mk_exn ValueError "sleep length must be non-negative")
  else emit (EvSleep seconds).

Definition pyodbc_connect (connString : string)
    (attrs_before : list (Z * list byte)) : M nat :=
  fun h =>
    call E PConnect (EvConnect (ncalls PConnect h) connString attrs_before)
      (fun k => k) h.

Definition conn_cursor (conn : nat) : M nat :=
  fun h => call E PCursor (EvCursor conn (ncalls PCursor h)) (fun k => k) h.

(** A method call on a name that holds [None] or an object. *)
Definition method {A} (name : string) (receiver : option nat)
    (f : nat -> M A) : M A :=
  match receiver with
  | Some o => f o
  | None =>
      raise (mk_exn AttributeError
               ("'NoneType' object has no attribute '" ++ name ++ "'"))
  end.

Definition cursor_execute (cursor : option nat) (query : string)
    (params : option pyval) : M unit :=
  method "execute" cursor
    (fun k => call E PExecute (EvExecute k query params) (fun _ => tt)).

Definition cursor_executemany (cursor : option nat) (query : string)
    (params : pyval) : M unit :=
  method "executemany" cursor
    (fun k => call E PExecuteMany (EvExecuteMany k query params) (fun _ => tt)).

Definition cursor_fetchall (cursor : option nat) : M pyval :=
  method "fetchall" cursor
    (fun k => call E PFetchall (EvFetchall k) (fetched E)).

(** [[column[0] for column in cursor.description]]; the attribute is
    [None] when the statement gave no result set. *)
Definition column_names_of (cursor : option nat) : M pyval :=
  method "description" cursor
    (fun k =>
       d <- call E PDescription (EvDescription k) (description E) ;;
       match d with
       | Some columns => ret (VList (map (fun column => VStr (fst column)) columns))
       | None => raise (mk_exn TypeError "'NoneType' object is not iterable")
       end).

Definition conn_commit (conn : option nat) : M unit :=
  method "commit" conn (fun c => call E PCommit (EvCommit c) (fun _ => tt)).

Definition conn_rollback (conn : option nat) : M unit :=
  method "rollback" conn (fun c => call E PRollback (EvRollback c) (fun _ => tt)).

Definition cursor_close (cursor : option nat) : M unit :=
  method "close" cursor
    (fun k => call E PCloseCursor (EvCloseCursor k) (fun _ => tt)).

Definition conn_close (conn : option nat) : M unit :=
  method "close" conn (fun c => call E PCloseConn (EvCloseConn c) (fun _ => tt)).

(** *** config_sql (lines 45-67) *)

Definition SQL_COPT_SS_ACCESS_TOKEN : Z := 1256.

Definition connString_of (self : AzSql) : string :=
  "DRIVER={ODBC Driver 18 for SQL Server};"
  ++ ("SERVER=" ++ server self ++ ";")
  ++ ("DATABASE=" ++ database self ++ ";")
  ++ "ENCRYPT=NO".

(** [b''.join(bytes({i}) + bytes(1) for i in tokenb)] *)
Definition exptoken_of (tokenb : list byte) : list byte :=
  flat_map (fun i => ([i] ++ [x00])%list) tokenb.

(** The function returns the triple, or [None] after the handler. *)
Definition config_sql (self : AzSql)
  : M (option (string * list byte * Z)) :=
  try_except
    (ConfidentialClientApplication ;;
     token <- acquire_token_for_client
                ["https://database.windows.net//.default"] ;;
     access_token <- getitem token "access_token" ;;
     tokenb <- bytes_utf8 access_token ;;
     let exptoken := exptoken_of tokenb in
     header <- struct_pack (Z.of_nat (List.length exptoken)) ;;
     let tokenstruct := (header ++ exptoken)%list in
     ret (Some (connString_of self, tokenstruct, SQL_COPT_SS_ACCESS_TOKEN)))
    (fun e =>
       logger_error ("Error configuring SQL connection: " ++ str_of e) ;;
       ret None).

(** *** create_cursor (lines 71-93) *)

Definition is_login_timeout (e : exn) : bool :=
  contains "Login timeout expired" (str_of e).

(** The [for attempt in range(max_retries)] loop with what follows it:
    [remaining] iterations are left and the next one is number
    [attempt]. *)
Fixpoint attempts (connString : string) (attrs_before : list (Z * list byte))
    (delay : Z) (remaining : nat) (attempt : Z) : M (nat * nat) :=
  match remaining with
  | O =>
      logger_error "Maximum retry attempts reached" ;;
      raise (mk_exn OperationalError "Maximum retry attempts reached")
  | S remaining' =>
      try_except
        (conn <- pyodbc_connect connString attrs_before ;;
         cursor <- conn_cursor conn ;;
         ret (conn, cursor))
        (fun e =>
           if is_operational e then
             if is_login_timeout e then
               logger_warning
                 ("Attempt " ++ str_of_int (attempt + 1)
                  ++ " failed, retrying in " ++ str_of_int delay
                  ++ " seconds...") ;;
               time_sleep delay ;;
               attempts connString attrs_before delay remaining' (attempt + 1)
             else
               logger_error ("Operational error: " ++ str_of e) ;;
               raise e
           else raise e)
  end.

(** Unpacking the value of [config_sql] into three names. *)
Definition unpack3 {A} (v : option A) : M A :=
  match v with
  | Some t => ret t
  | None =>
      raise (mk_exn TypeError "cannot unpack non-iterable NoneType object")
  end.

Definition create_cursor (self : AzSql) (max_retries delay : Z)
  : M (nat * nat) :=
  '(connString, tokenstruct, key) <- (cfg <- config_sql self ;; unpack3 cfg) ;;
  attempts connString [(key, tokenstruct)] delay (Z.to_nat max_retries) 0.

(** *** Local names *)

(** A local name is unbound, or bound to [None] or to an object. *)
Inductive binding :=
| Unbound
| Bound (v : option nat).

Record locals := { l_conn : binding; l_cursor : binding }.

(** ['name' in locals()] *)
Definition in_locals (b : binding) : bool :=
  match b with Unbound => false | Bound _ => true end.

(** [name is not None] *)
Definition is_not_none (b : binding) : bool :=
  match b with Bound (Some _) => true | _ => false end.

Definition value (b : binding) : option nat :=
  match b with Bound v => v | Unbound => None end.

Definition is_none (v : option nat) : bool :=
  match v with None => true | Some _ => false end.

Definition conn_object (v : option nat) : pyval :=
  match v with Some c => VConn c | None => VNone end.

Definition cursor_object (v : option nat) : pyval :=
  match v with Some k => VCursor k | None => VNone end.

(** *** The statement dispatch (lines 107-113 and, word for word, 153-159) *)

Definition execute_query (cursor : option nat) (query : string)
    (data_values : pyval) : M unit :=
  if truthy data_values then
    if isinstance_list data_values
       && forallb isinstance_tuple (items_of data_values)
    then cursor_executemany cursor query data_values
    else cursor_execute cursor query (Some data_values)
  else cursor_execute cursor query None.

(** *** perform_db_operation (lines 96-131) *)

(** The [try] block, lines 105-123. *)
Definition perform_db_operation_try (self : AzSql) (query : string)
    (data_values : pyval) (has_return needs_commit : bool)
  : history -> locals * outcome pyval * history :=
  try_block
    {| l_conn := Unbound; l_cursor := Unbound |}
    ('(conn, cursor) <- create_cursor self 3 5 ;;
     ret {| l_conn := Bound (Some conn); l_cursor := Bound (Some cursor) |})
    (fun l =>
       let conn := value (l_conn l) in
       let cursor := value (l_cursor l) in
       execute_query cursor query data_values ;;
       if has_return then
         result <- cursor_fetchall cursor ;;
         column_names <- column_names_of cursor ;;
         (if needs_commit then conn_commit conn else ret tt) ;;
         ret (VTuple [result; column_names])
       else
         conn_commit conn ;;
         ret (VTuple [VStr "Success"; VStr "Operation successful"])).

(** The [except] block, lines 124-126. *)
Definition perform_db_operation_except (l : locals) (e : exn) : M pyval :=
  logger_error ("Error performing query: " ++ str_of e) ;;
  ret (VTuple [VStr "Error"; VStr ("Error performing query: " ++ str_of e)]).

(** The [finally] block, lines 127-131. *)
Definition perform_db_operation_finally (l : locals) : M unit :=
  (if in_locals (l_cursor l) && is_not_none (l_cursor l)
   then cursor_close (value (l_cursor l)) else ret tt) ;;
  (if in_locals (l_conn l) && is_not_none (l_conn l)
   then conn_close (value (l_conn l)) else ret tt).

Definition perform_db_operation (self : AzSql) (query : string)
    (data_values : pyval) (has_return needs_commit : bool) : M pyval :=
  fun h =>
    except_finally
      (perform_db_operation_try self query data_values has_return
         needs_commit h)
      perform_db_operation_except
      perform_db_operation_finally.

(** *** perform_atomic_db_operation (lines 134-189) *)

(** The [try] block, lines 147-171; [conn] and [cursor] are parameters,
    bound from the start. *)
Definition perform_atomic_db_operation_try (self : AzSql) (query : string)
    (data_values : pyval) (has_return close_cursor close_conn : bool)
    (conn cursor : option nat)
  : history -> locals * outcome pyval * history :=
  try_block
    {| l_conn := Bound conn; l_cursor := Bound cursor |}
    (if is_none conn || is_none cursor then
       '(conn', cursor') <- create_cursor self 3 5 ;;
       ret {| l_conn := Bound (Some conn'); l_cursor := Bound (Some cursor') |}
     else ret {| l_conn := Bound conn; l_cursor := Bound cursor |})
    (fun l =>
       let conn := value (l_conn l) in
       let cursor := value (l_cursor l) in
       execute_query cursor query data_values ;;
       if has_return then
         result <- cursor_fetchall cursor ;;
         column_names <- column_names_of cursor ;;
         if negb close_cursor && negb close_conn then
           ret (VTuple [result; column_names;
                        conn_object conn; cursor_object cursor])
         else ret (VTuple [result; column_names])
       else
         if negb close_cursor && negb close_conn then
           ret (VTuple [VStr "Success"; conn_object conn; cursor_object cursor])
         else ret (VStr "Success")).

(** The [except] block, lines 173-177. *)
Definition perform_atomic_db_operation_except (l : locals) (e : exn)
  : M pyval :=
  conn_rollback (value (l_conn l)) ;;
  logger_error ("Error in atomic operation: " ++ str_of e) ;;
  raise e.

(** The [finally] block, lines 179-189. *)
Definition perform_atomic_db_operation_finally
    (close_cursor close_conn needs_commit : bool) (l : locals) : M unit :=
  (if needs_commit then
     print "Committing transaction" ;;
     conn_commit (value (l_conn l))
   else ret tt) ;;
  (if close_cursor && in_locals (l_cursor l) && is_not_none (l_cursor l)
   then cursor_close (value (l_cursor l)) else ret tt) ;;
  (if close_conn && in_locals (l_conn l) && is_not_none (l_conn l)
   then conn_close (value (l_conn l)) else ret tt).

Definition perform_atomic_db_operation (self : AzSql) (query : string)
    (data_values : pyval) (has_return close_cursor close_conn : bool)
    (conn cursor : option nat) (needs_commit : bool) : M pyval :=
  fun h =>
    except_finally
      (perform_atomic_db_operation_try self query data_values has_return
         close_cursor close_conn conn cursor h)
      perform_atomic_db_operation_except
      (perform_atomic_db_operation_finally close_cursor close_conn
         needs_commit).

End Methods.

End AzSql.

(** ** What the specification says, as predicates *)

Module Spec.
Import Bytes Py Eff AzSql.
Local Open Scope string_scope.

(** At history [h] the identity provider is reachable and its next answer
    carries the access token [token]. *)
Definition idp_issues (E : env) (h : history) (token : pystr) : Prop :=
  fault E PMsalApp (ncalls PMsalApp h) = None /\
  fault E PToken (ncalls PToken h) = None /\
  dict_get (token_response E (ncalls PToken h)) "access_token" = Some token.

(** The history after the two calls to the identity provider. *)
Definition after_idp (E : env) (h : history) : history :=
  EvAcquireToken ["https://database.windows.net//.default"]
  :: EvMsalApp (CLIENT_ID E)
       ("https://login.microsoftonline.com/" ++ TENANT_ID E)
       (CLIENT_CREDENTIAL E)
  :: h.

(** The layout of the encoded token buffer for a token of [N] characters:
    [4 + 2*N] bytes, a little-endian length prefix worth [2*N], then every
    byte of the UTF-8 encoding followed by a zero byte. *)
Definition token_layout (token : pystr) (buf : list byte) : Prop :=
  let N := List.length token in
  List.length buf = 4 + 2 * N /\
  le_decode (firstn 4 buf) = Z.of_nat (2 * N) /\
  exists tokenb,
    utf8_encode token = Some tokenb /\
    forall i, i < N ->
      exists b,
        nth_error tokenb i = Some b /\
        nth_error buf (4 + 2 * i) = Some b /\
        nth_error buf (4 + 2 * i + 1) = Some x00.

(** [config_sql] returns its triple and the buffer in it has the layout. *)
Definition encodes (E : env) (self : AzSql) (h : history) (token : pystr)
  : Prop :=
  exists buf h',
    config_sql E self h
    = (Ret (Some (connString_of self, buf, SQL_COPT_SS_ACCESS_TOKEN)), h') /\
    token_layout token buf.










(** The buffer that carries the token of the [n]-th answer of the
    identity provider, as the one attribute of a connection attempt. *)
Definition presents (E : env) (n : nat) (attrs_before : list (Z * list byte))
  : Prop :=
  exists token tokenb header,
    dict_get (token_response E n) "access_token" = Some token /\
    utf8_encode token = Some tokenb /\
    struct_pack_i (byteorder_of E)
      (Z.of_nat (List.length (exptoken_of tokenb))) = Some header /\
    attrs_before
    = [(SQL_COPT_SS_ACCESS_TOKEN, (header ++ exptoken_of tokenb)%list)].

(** The token requests of a call of [config_sql] that starts at [h]: one,
    unless the client application cannot be built. *)
Definition token_requests (E : env) (h : history) : nat :=
  match fault E PMsalApp (ncalls PMsalApp h) with
  | None => 1
  | Some _ => 0
  end.

(** The error that ends the loop. *)
Definition retries_exhausted : exn :=
  mk_exn OperationalError "Maximum retry attempts reached".

(** The events [config_sql] can leave. *)
Definition config_event (e : event) : Prop :=
  match e with
  | EvMsalApp _ _ _ | EvAcquireToken _ | EvLogError _ => True
  | _ => False
  end.

(** The events the retry loop can leave when it connects with
    [connString] and [attrs_before]. *)
Definition attempt_event (connString : string)
    (attrs_before : list (Z * list byte)) (e : event) : Prop :=
  match e with
  | EvConnect _ cs attrs => cs = connString /\ attrs = attrs_before
  | EvCursor _ _ | EvSleep _ | EvLogWarning _ | EvLogError _ => True
  | _ => False
  end.

(** C9 as stated: as many token requests as connection attempts during
    one call of [create_cursor]. *)
Definition token_per_attempt (E : env) (self : AzSql) (max_retries delay : Z)
    (h : history) : Prop :=
  let h' := snd (create_cursor E self max_retries delay h) in
  ncalls PToken h' - ncalls PToken h = ncalls PConnect h' - ncalls PConnect h.

(** The identity-provider call made at [h] raises [e]: building the client
    application, or requesting the token. *)
Definition idp_raises (E : env) (h : history) (e : exn) : Prop :=
  fault E PMsalApp (ncalls PMsalApp h) = Some e \/
  (fault E PMsalApp (ncalls PMsalApp h) = None /\
   fault E PToken (ncalls PToken h) = Some e).

(** The events [create_cursor] can leave. *)
Definition acquisition_event (e : event) : Prop :=
  match e with
  | EvMsalApp _ _ _ | EvAcquireToken _ | EvConnect _ _ _ | EvCursor _ _
  | EvSleep _ | EvLogWarning _ | EvLogError _ => True
  | _ => False
  end.

(** How a statement is executed. *)
Inductive mode := Batched | Single | NoParams.

(** C8 as stated: a sequence (a list or a tuple) of parameter tuples is
    batched, any other truthy value is a single row of parameters, an
    absent or empty value means no parameters. *)
Definition is_sequence (v : pyval) : bool :=
  match v with VList _ | VTuple _ => true | _ => false end.

Definition claimed_mode (data_values : pyval) : mode :=
  if truthy data_values then
    if is_sequence data_values
       && forallb isinstance_tuple (items_of data_values)
    then Batched else Single
  else NoParams.

(** C8 as amended: only a non-empty list whose items all are tuples is
    batched. *)
Definition dispatch_mode (data_values : pyval) : mode :=
  match data_values with
  | VNone | VList [] | VTuple [] => NoParams
  | VList items => if forallb isinstance_tuple items then Batched else Single
  | VTuple _ => Single
  | other => if truthy other then Single else NoParams
  end.

(** The driver call of each mode. *)
Definition dispatch_event (m : mode) (cursor : nat) (query : string)
    (data_values : pyval) : event :=
  match m with
  | Batched => EvExecuteMany cursor query data_values
  | Single => EvExecute cursor query (Some data_values)
  | NoParams => EvExecute cursor query None
  end.

(** The connection and the cursor a call of the transactional executor
    works on: the caller's, or the ones it acquires when either is
    missing. *)
Definition session_of (E : env) (self : AzSql) (conn cursor : option nat)
    (h : history) : option (nat * nat) :=
  match conn, cursor with
  | Some c, Some k => Some (c, k)
  | _, _ =>
      match fst (create_cursor E self 3 5 h) with
      | Ret ck => Some ck
      | Raise _ => None
      end
  end.

(** The history once that session is there: untouched when the caller
    passed both, after [create_cursor] otherwise. *)
Definition session_history (E : env) (self : AzSql)
    (conn cursor : option nat) (h : history) : history :=
  match conn, cursor with
  | Some _, Some _ => h
  | _, _ => snd (create_cursor E self 3 5 h)
  end.

(** What the driver hands to a call that starts at [h] and fetches once:
    the rows of its [fetchall], and the first item of every column of the
    [description] it reads then. *)
Definition rows_fetched (E : env) (h : history) : pyval :=
  fetched E (ncalls PFetchall h).

Definition names_fetched (E : env) (h : history) : option pyval :=
  match description E (ncalls PDescription h) with
  | Some columns => Some (VList (map (fun column => VStr (fst column)) columns))
  | None => None
  end.

(** The events of fetching on cursor [k], most recent first. *)
Definition fetch_events (has_return : bool) (k : nat) : list event :=
  if has_return then [EvDescription k; EvFetchall k] else [].

(** The four return shapes of the transactional executor. *)
Definition return_shape (has_return close_cursor close_conn : bool)
    (rows names : pyval) (c k : nat) : pyval :=
  if has_return then
    if close_cursor || close_conn then VTuple [rows; names]
    else VTuple [rows; names; VConn c; VCursor k]
  else
    if close_cursor || close_conn then VStr "Success"
    else VTuple [VStr "Success"; VConn c; VCursor k].

(** What the cleanup of the transactional executor adds when it completes
    on a session, most recent event first. *)
Definition cleanup_events (cc cn nc : bool) (c k : nat) : list event :=
  ((if cn then [EvCloseConn c] else [])
   ++ (if cc then [EvCloseCursor k] else [])
   ++ (if nc then [EvCommit c; EvPrint "Committing transaction"] else []))%list.

(** The two return markers of the single-step executor. *)
Definition success_marker : pyval :=
  VTuple [VStr "Success"; VStr "Operation successful"].

Definition error_marker (e : exn) : pyval :=
  VTuple [VStr "Error"; VStr ("Error performing query: " ++ str_of e)].

(** The driver never fails to close a cursor or a connection. *)
Definition closes_succeed (E : env) : Prop :=
  forall k, fault E PCloseCursor k = None /\ fault E PCloseConn k = None.

(** A computation only adds events to the history, all of a kind [P]. *)
Definition leaves (P : event -> Prop) {A} (m : M A) : Prop :=
  forall h, exists new, snd (m h) = (new ++ h)%list /\ Forall P new.

(** The events of the cleanup of the single-step executor. *)
Definition close_event (e : event) : Prop :=
  match e with
  | EvCloseCursor _ | EvCloseConn _ => True
  | _ => False
  end.

Definition any_event (e : event) : Prop := True.

(** The driver never fails to roll back, to commit or to close. *)
Definition cleanup_succeeds (E : env) : Prop :=
  forall n,
    fault E PRollback n = None /\ fault E PCommit n = None /\
    fault E PCloseCursor n = None /\ fault E PCloseConn n = None.

End Spec.

(** ** Concrete environments *)

Module Samples.
Import Bytes Py Eff AzSql.
Local Open Scope string_scope.

Definition me : AzSql := {| server := "srv"; database := "db" |}.

Definition no_fault : prim -> nat -> option exn := fun _ _ => None.

(** An environment described by its byte order, its faults and the token
    the identity provider hands out at each request. *)
Definition world (bo : byteorder) (f : prim -> nat -> option exn)
    (tokens : nat -> pystr) : env :=
  {| CLIENT_ID := "client";
     TENANT_ID := "tenant";
     CLIENT_CREDENTIAL := "secret";
     byteorder_of := bo;
     fault := f;
     token_response := fun k => [("access_token", tokens k)];
     fetched := fun _ => VList [VTuple [VInt 1; VStr "x"]];
     description := fun _ => Some [("id", []); ("name", [])] |}.

(** The token [AB]. *)
Definition token_AB : pystr := [65; 66]%N.

Definition calm : env := world LittleEndian no_fault (fun _ => token_AB).

(** A token of 2^30 characters [A]. *)
Definition huge_token : pystr := repeat 65%N (Z.to_nat (2 ^ 30)).

Definition huge_world : env :=
  world LittleEndian no_fault (fun _ => huge_token).

(** A big-endian host. *)
Definition big_endian_world : env :=
  world BigEndian no_fault (fun _ => [65%N]).

(** The server answers with a login timeout. *)
Definition timeout_error : exn :=
  mk_exn OperationalError
    "('HYT00', '[HYT00] [Microsoft][ODBC Driver 18 for SQL Server]Login timeout expired (0) (SQLDriverConnect)')".

(** The server cannot be found. *)
Definition unreachable_error : exn :=
  mk_exn OperationalError
    "('08001', '[08001] [Microsoft][ODBC Driver 18 for SQL Server]TCP Provider: Error code 0x2AF9 (11001) (SQLDriverConnect)')".

(** The first [n] connection attempts time out. *)
Definition timeouts (n : nat) : prim -> nat -> option exn :=
  fun p k =>
    match p with
    | PConnect => if Nat.ltb k n then Some timeout_error else None
    | _ => None
    end.

(** The identity provider hands out a different token at each request,
    and the first two connection attempts time out. *)
Definition flaky : env :=
  world LittleEndian (timeouts 2) (fun k => [N.of_nat (65 + k)]).




(** The identity provider refuses the request. *)
Definition idp_error : exn :=
  mk_exn OtherException "HTTPSConnectionPool: Max retries exceeded".

Definition no_idp : env :=
  world LittleEndian
    (fun p _ => match p with PToken => Some idp_error | _ => None end)
    (fun _ => token_AB).

(** The network drops while the statement runs: the statement fails and
    so does closing the cursor. *)
Definition link_failure : exn :=
  mk_exn OperationalError
    "('08S01', '[08S01] [Microsoft][ODBC Driver 18 for SQL Server]Communication link failure (0)')".

Definition link_drops : env :=
  world LittleEndian
    (fun p _ =>
       match p with
       | PExecute | PCloseCursor => Some link_failure
       | _ => None
       end)
    (fun _ => token_AB).

(** The statement is refused. *)
Definition syntax_error : exn :=
  mk_exn DatabaseError
    "('42000', '[42000] [Microsoft][ODBC Driver 18 for SQL Server][SQL Server]Incorrect syntax (102)')".

Definition bad_statement : env :=
  world LittleEndian
    (fun p _ => match p with PExecute => Some syntax_error | _ => None end)
    (fun _ => token_AB).

(** The connection opens but no statement handle can be allocated. *)
Definition no_handle : exn :=
  mk_exn DatabaseError
    "('HY000', '[HY000] [Microsoft][ODBC Driver 18 for SQL Server]Connection is busy (0) (SQLAllocHandle)')".

Definition no_statement_handle : env :=
  world LittleEndian
    (fun p _ => match p with PCursor => Some no_handle | _ => None end)
    (fun _ => token_AB).

(** The server cannot be found at all. *)
Definition unreachable : env :=
  world LittleEndian
    (fun p _ => match p with PConnect => Some unreachable_error | _ => None end)
    (fun _ => token_AB).

(** Two rows of parameters, as a tuple of tuples and as a list of
    tuples. *)
Definition rows_as_tuple : pyval :=
  VTuple [VTuple [VInt 1; VStr "a"]; VTuple [VInt 2; VStr "b"]].

Definition rows_as_list : pyval :=
  VList [VTuple [VInt 1; VStr "a"]; VTuple [VInt 2; VStr "b"]].

End Samples.

(** ** The module-level statements and the constructor *)

Module Startup.
Import Py.
Local Open Scope string_scope.

(** The five names bound at import time, lines 11-15. *)
Record globals := {
  SERVER : string;
  DATABASE : string;
  TENANT_ID : string;
  CLIENT_ID : string;
  CLIENT_CREDENTIAL : string
}.

(** [os.environ[key]]: a missing variable raises [KeyError]. *)
Definition environ_getitem (environ : list (string * string)) (key : string)
  : Eff.outcome string :=
  match dict_get environ key with
  | Some v => Eff.Ret v
  | None => Eff.Raise (mk_exn KeyError ("'" ++ key ++ "'"))
  end.

(** Sequencing of statements that may raise. *)
Definition and_then {A B} (r : Eff.outcome A) (k : A -> Eff.outcome B)
  : Eff.outcome B :=
  match r with
  | Eff.Ret a => k a
  | Eff.Raise e => Eff.Raise e
  end.

(** The statements of the module whose outcome depends on what is
    installed: the imports of lines 1-7, the two logging calls of lines
    18-19, and the class statement of line 23, which evaluates the
    annotation [pd.DataFrame] of line 192. *)
Inductive statement :=
| ImportMsal | ImportOs | ImportPyodbc | ImportStruct | ImportTime
| ImportLogging | ImportPandas
| BasicConfig | GetLogger | ClassAzSql.

(** For each of them, the installation says whether it raises: a package
    that is missing or that cannot load its libraries raises
    [ImportError]. *)
Definition installation := statement -> option exn.

Definition run (inst : installation) (s : statement) : Eff.outcome unit :=
  match inst s with
  | Some e => Eff.Raise e
  | None => Eff.Ret tt
  end.

(** Importing the module: the statements of the module from top to
    bottom. *)
Definition import_module (inst : installation)
    (environ : list (string * string)) : Eff.outcome globals :=
  and_then (run inst ImportMsal) (fun _ =>
  and_then (run inst ImportOs) (fun _ =>
  and_then (run inst ImportPyodbc) (fun _ =>
  and_then (run inst ImportStruct) (fun _ =>
  and_then (run inst ImportTime) (fun _ =>
  and_then (run inst ImportLogging) (fun _ =>
  and_then (run inst ImportPandas) (fun _ =>
  and_then (environ_getitem environ "SERVER") (fun server =>
  and_then (environ_getitem environ "DATABASE") (fun database =>
  and_then (environ_getitem environ "TENANT_ID") (fun tenant_id =>
  and_then (environ_getitem environ "NEXAIR_APP_CLIENT_ID") (fun client_id =>
  and_then (environ_getitem environ "NEXAIR_APP_CLIENT_SECRET")
    (fun client_credential =>
  and_then (run inst BasicConfig) (fun _ =>
  and_then (run inst GetLogger) (fun _ =>
  and_then (run inst ClassAzSql) (fun _ =>
  Eff.Ret {| SERVER := server;
             DATABASE := database;
             TENANT_ID := tenant_id;
             CLIENT_ID := client_id;
             CLIENT_CREDENTIAL := client_credential |}))))))))))))))).

(** The statements before and after the lookups, in the order of the
    source. *)
Definition imports : list statement :=
  [ImportMsal; ImportOs; ImportPyodbc; ImportStruct; ImportTime;
   ImportLogging; ImportPandas].

Definition setup : list statement := [BasicConfig; GetLogger; ClassAzSql].

(** The first statement of [l] that raises, raises [e]. *)
Definition first_failing (inst : installation) (l : list statement)
    (e : exn) : Prop :=
  exists before s after,
    l = (before ++ s :: after)%list /\
    inst s = Some e /\
    Forall (fun s' => inst s' = None) before.

(** No statement of [l] raises. *)
Definition all_run (inst : installation) (l : list statement) : Prop :=
  Forall (fun s => inst s = None) l.

(** The exception of the first statement of [l] that raises. *)
Fixpoint first_fault (inst : installation) (l : list statement)
  : option exn :=
  match l with
  | [] => None
  | s :: l' =>
      match inst s with
      | Some e => Some e
      | None => first_fault inst l'
      end
  end.

(** The first of [keys] that [environ] lacks. *)
Fixpoint first_unset (environ : list (string * string)) (keys : list string)
  : option string :=
  match keys with
  | [] => None
  | key :: keys' =>
      match dict_get environ key with
      | None => Some key
      | Some _ => first_unset environ keys'
      end
  end.

(** [AzSql.__init__], lines 33-41: an argument that is not passed takes the
    value the global had when the class was defined. *)
Definition __init__ (g : globals) (server database : option string)
  : AzSql.AzSql :=
  {| AzSql.server := match server with Some s => s | None => SERVER g end;
     AzSql.database :=
       match database with Some d => d | None => DATABASE g end |}.

(** The variables the import reads, in the order it reads them. *)
Definition required : list string :=
  ["SERVER"; "DATABASE"; "TENANT_ID"; "NEXAIR_APP_CLIENT_ID";
   "NEXAIR_APP_CLIENT_SECRET"].

(** [key] is the first required variable that [environ] lacks. *)
Definition first_missing (environ : list (string * string)) (key : string)
  : Prop :=
  exists before after,
    required = (before ++ key :: after)%list /\
    dict_get environ key = None /\
    Forall (fun k => dict_get environ k <> None) before.

(** Every required variable is set. *)
Definition all_set (environ : list (string * string)) : Prop :=
  Forall (fun key => dict_get environ key <> None) required.

(** The environment of the calls carries the globals of the import. *)
Definition configured (g : globals) (E : Eff.env) : Prop :=
  Eff.CLIENT_ID E = CLIENT_ID g /\
  Eff.TENANT_ID E = TENANT_ID g /\
  Eff.CLIENT_CREDENTIAL E = CLIENT_CREDENTIAL g.

End Startup.

(** ** Reading the encoded token back *)

Module Decode.
Import Bytes Py.
Local Open Scope Z_scope.

(** The bytes at the even positions. *)
Fixpoint every_other (bs : list byte) : list byte :=
  match bs with
  | b :: _ :: rest => b :: every_other rest
  | _ => []
  end.

(** What the driver reads from the attribute: a length prefix, then as
    many bytes, of which every other one carries the token. *)
Definition decode_tokenstruct (buf : list byte) : option (list byte) :=
  let body := skipn 4 buf in
  if Z.of_nat (List.length body) =? le_decode (firstn 4 buf)
  then Some (every_other body)
  else None.

End Decode.

(** ** Counting events *)

Module Budget.
Import Py Eff.

(** The total weight of a list of events. *)
Fixpoint weight (f : event -> nat) (l : list event) : nat :=
  match l with
  | [] => 0
  | e :: l' => f e + weight f l'
  end.

(** A computation only adds events, of a total weight of at most [b]. *)
Definition spends (f : event -> nat) (b : nat) {A} (m : M A) : Prop :=
  forall h, exists new, snd (m h) = (new ++ h)%list /\ weight f new <= b.

(** The calls of one primitive, as a weight. *)
Definition calls_of (p : prim) (e : event) : nat :=
  if is_call p e then 1 else 0.

(** The statements sent to the driver, [execute] and [executemany]. *)
Definition statements (e : event) : nat :=
  calls_of PExecute e + calls_of PExecuteMany e.

(** The calls that open a session. *)
Definition acquisitions (e : event) : nat :=
  calls_of PMsalApp e + calls_of PToken e + calls_of PConnect e
  + calls_of PCursor e.

End Budget.

(** ** More environments *)

Module MoreSamples.
Import Bytes Py Eff AzSql Samples.
Local Open Scope string_scope.

(** A complete environment of the process, and one without the client
    secret and the tenant. *)
Definition full_environ : list (string * string) :=
  [("PATH", "/usr/bin"); ("SERVER", "srv.database.windows.net");
   ("DATABASE", "sales"); ("TENANT_ID", "t-1");
   ("NEXAIR_APP_CLIENT_ID", "app-1"); ("NEXAIR_APP_CLIENT_SECRET", "s3")].

Definition partial_environ : list (string * string) :=
  [("SERVER", "srv.database.windows.net"); ("DATABASE", "sales");
   ("NEXAIR_APP_CLIENT_ID", "app-1")].

(** Everything is installed; and the ODBC driver manager is missing, so
    that [import pyodbc] fails. *)
Definition installed : Startup.installation := fun _ => None.

Definition no_libodbc : exn :=
  mk_exn ImportError
    "libodbc.so.2: cannot open shared object file: No such file or directory".

Definition without_odbc : Startup.installation :=
  fun s => match s with Startup.ImportPyodbc => Some no_libodbc | _ => None end.

(** The identity provider answers with an error document: msal returns it
    instead of raising. *)
Definition refused : env :=
  {| Eff.CLIENT_ID := "client";
     Eff.TENANT_ID := "tenant";
     Eff.CLIENT_CREDENTIAL := "wrong";
     byteorder_of := LittleEndian;
     fault := no_fault;
     token_response := fun _ =>
       [("error", [105; 110; 118]%N); ("error_description", [65]%N)];
     fetched := fun _ => VNone;
     description := fun _ => None |}.

(** The process started in [full_environ]. *)
Definition deployed : env :=
  {| Eff.CLIENT_ID := "app-1";
     Eff.TENANT_ID := "t-1";
     Eff.CLIENT_CREDENTIAL := "s3";
     byteorder_of := LittleEndian;
     fault := no_fault;
     token_response := fun _ => [("access_token", token_AB)];
     fetched := fun _ => VNone;
     description := fun _ => None |}.

(** The token [é], one character and two bytes. *)
Definition token_e_acute : pystr := [233%N].

Definition accented : env :=
  world LittleEndian no_fault (fun _ => token_e_acute).



(** The commit is refused. *)
Definition commit_error : exn :=
  mk_exn DatabaseError
    "('40001', '[40001] [Microsoft][ODBC Driver 18 for SQL Server][SQL Server]Transaction was deadlocked (1205)')".

Definition commit_refused : env :=
  world LittleEndian
    (fun p _ => match p with PCommit => Some commit_error | _ => None end)
    (fun _ => token_AB).

End MoreSamples.

(** ** Facts about bytes and the encoding *)

Module BytesFacts.
Import Bytes Py AzSql.
Local Open Scope Z_scope.

Lemma to_N_of_N (n : N) : Byte.to_N (of_N n) = (n mod 256)%N.
Proof.
  unfold of_N.
  destruct (Byte.of_N (n mod 256)%N) as [b|] eqn:E.
  - now apply Byte.to_of_N.
  - apply Byte.of_N_None_iff in E.
    assert (n mod 256 < 256)%N by (apply N.mod_lt; discriminate).
    lia.
Qed.

Lemma to_Z_of_N (n : N) : to_Z (of_N n) = Z.of_N n mod 256.
Proof.
  unfold to_Z. rewrite to_N_of_N, N2Z.inj_mod. reflexivity.
Qed.

Lemma le_decode_le_bytes32 (z : Z) :
  0 <= z < 2 ^ 32 -> le_decode (le_bytes32 z) = z.
Proof.
  intros Hz. unfold le_bytes32, le_decode.
  rewrite !to_Z_of_N, !N2Z.inj_div, Z2N.id by (apply Z.mod_pos_bound; lia).
  rewrite (Z.mod_small z) by lia.
  change (Z.of_N 256) with 256. change (Z.of_N 65536) with 65536.
  change (Z.of_N 16777216) with 16777216.
  change (2 ^ 32) with 4294967296 in Hz.
  Z.div_mod_to_equations. lia.
Qed.

Lemma struct_pack_i_little (n : Z) :
  0 <= n < 2 ^ 31 -> struct_pack_i LittleEndian n = Some (le_bytes32 n).
Proof.
  intros Hn. unfold struct_pack_i.
  replace (- 2 ^ 31 <=? n) with true by (symmetry; apply Z.leb_le; lia).
  replace (n <=? 2 ^ 31 - 1) with true by (symmetry; apply Z.leb_le; lia).
  reflexivity.
Qed.

Lemma struct_pack_i_overflow (bo : byteorder) (n : Z) :
  2 ^ 31 <= n -> struct_pack_i bo n = None.
Proof.
  intros Hn. unfold struct_pack_i.
  replace (n <=? 2 ^ 31 - 1) with false by (symmetry; apply Z.leb_gt; lia).
  now rewrite andb_false_r.
Qed.

Lemma utf8_encode_ascii (s : pystr) :
  is_ascii s -> utf8_encode s = Some (map of_N s).
Proof.
  induction 1 as [|c s Hc _ IH]; simpl.
  - reflexivity.
  - unfold utf8_char. apply N.ltb_lt in Hc. rewrite Hc, IH. reflexivity.
Qed.

Lemma exptoken_length (l : list byte) :
  List.length (exptoken_of l) = (2 * List.length l)%nat.
Proof.
  induction l as [|b l IH]; simpl; [reflexivity|]. rewrite IH. lia.
Qed.

Lemma exptoken_even (l : list byte) (i : nat) :
  nth_error (exptoken_of l) (2 * i) = nth_error l i.
Proof.
  revert i. induction l as [|b l IH]; intros [|i]; simpl; try reflexivity.
  replace (i + S (i + 0))%nat with (S (2 * i)) by lia. simpl.
  apply IH.
Qed.

Lemma exptoken_odd (l : list byte) (i : nat) :
  (i < List.length l)%nat -> nth_error (exptoken_of l) (2 * i + 1) = Some x00.
Proof.
  revert i. induction l as [|b l IH]; intros [|i] Hi; simpl in *; try lia.
  - reflexivity.
  - replace (i + S (i + 0) + 1)%nat with (S (2 * i + 1)) by lia. simpl.
    apply IH. lia.
Qed.

Lemma is_ascii_repeat (c : N) (n : nat) :
  (c < 128)%N -> is_ascii (repeat c n).
Proof.
  intros Hc. apply Forall_forall. intros x Hx.
  apply repeat_spec in Hx. now subst.
Qed.

End BytesFacts.

(** ** Facts about the runs of [config_sql] *)

Module ConfigFacts.
Import Bytes Py Eff AzSql Spec.
Local Open Scope string_scope.

(** With a token in hand, [config_sql] is the encoder: it fails only when
    the token cannot be encoded or the length does not fit the prefix. *)
Lemma config_sql_run (E : env) (self : AzSql) (h : history) (token : pystr) :
  idp_issues E h token ->
  config_sql E self h =
  match utf8_encode token with
  | None =>
      (Ret None,
       EvLogError
         ("Error configuring SQL connection: " ++ encode_error_text token)
       :: after_idp E h)
  | Some tokenb =>
      match struct_pack_i (byteorder_of E)
              (Z.of_nat (List.length (exptoken_of tokenb))) with
      | Some header =>
          (Ret (Some (connString_of self,
                      (header ++ exptoken_of tokenb)%list,
                      SQL_COPT_SS_ACCESS_TOKEN)),
           after_idp E h)
      | None =>
          (Ret None,
           EvLogError
             "Error configuring SQL connection: 'i' format requires -2147483648 <= number <= 2147483647"
           :: after_idp E h)
      end
  end.
Proof.
  intros (Happ & Htok & Hget).
  unfold config_sql, try_except, bind, ConfidentialClientApplication,
    acquire_token_for_client, call.
  rewrite Happ. simpl ncalls. rewrite Htok.
  unfold getitem. rewrite Hget. unfold ret at 1.
  unfold bytes_utf8.
  destruct (utf8_encode token) as [tokenb|]; [|reflexivity].
  unfold ret at 1. unfold struct_pack.
  destruct (struct_pack_i _ _); reflexivity.
Qed.

End ConfigFacts.

(** ** Facts about histories *)

Module HistoryFacts.
Import Py Eff Spec.

Lemma ncalls_app (p : prim) (a b : history) :
  ncalls p (a ++ b) = ncalls p a + ncalls p b.
Proof.
  induction a as [|e a IH]; simpl; [reflexivity|].
  destruct (is_call p e); simpl; now rewrite IH.
Qed.


Lemma nsleeps_app (a b : history) : nsleeps (a ++ b) = nsleeps a + nsleeps b.
Proof.
  induction a as [|e a IH]; simpl; [reflexivity|].
  destruct (is_sleep e); simpl; now rewrite IH.
Qed.


(** Events of a kind that never is a call of [p] do not count for [p]. *)
Lemma ncalls_none (p : prim) (P : event -> Prop) (l : list event) :
  (forall e, P e -> is_call p e = false) -> Forall P l -> ncalls p l = 0.
Proof.
  intros HP. induction 1 as [|e l He _ IH]; simpl; [reflexivity|].
  now rewrite (HP e He).
Qed.

(** Where [p] was never called, no event is a call of [p]. *)
Lemma ncalls_zero_In (p : prim) (l : list event) (e : event) :
  ncalls p l = 0 -> In e l -> is_call p e = false.
Proof.
  induction l as [|x l IH]; intros H0 Hin; [destruct Hin|].
  cbn [ncalls] in H0. destruct (is_call p x) eqn:Hx; [discriminate|].
  destruct Hin as [<-|Hin]; [exact Hx|now apply IH].
Qed.





End HistoryFacts.

(** ** Facts about the runs of [create_cursor] *)

Module AcquireFacts.
Import Bytes Py Eff AzSql Spec HistoryFacts.
Local Open Scope string_scope.

(** [create_cursor] is [config_sql], the unpacking of its value, and the
    retry loop. *)
Lemma create_cursor_unfold (E : env) (self : AzSql) (max_retries delay : Z)
    (h : history) :
  create_cursor E self max_retries delay h =
  match config_sql E self h with
  | (Ret (Some (cs, ts, key)), h1) =>
      attempts E cs [(key, ts)] delay (Z.to_nat max_retries) 0 h1
  | (Ret None, h1) =>
      (Raise (mk_exn TypeError "cannot unpack non-iterable NoneType object"),
       h1)
  | (Raise e, h1) => (Raise e, h1)
  end.
Proof.
  unfold create_cursor, bind.
  destruct (config_sql E self h) as [[[[[cs ts] key]|]|e] h1]; reflexivity.
Qed.









(** [config_sql] never raises, and leaves only events of its own, among
    them at most one token request. *)
Lemma config_sql_events (E : env) (self : AzSql) (h : history) :
  exists r cfg,
    config_sql E self h = (Ret r, (cfg ++ h)%list) /\
    Forall config_event cfg /\
    ncalls PToken cfg <= 1.
Proof.
  unfold config_sql, try_except, bind, ConfidentialClientApplication,
    acquire_token_for_client, call, logger_error, emit, ret.
  destruct (fault E PMsalApp _) as [e|].
  { eexists None, [EvLogError _; EvMsalApp _ _ _].
    split; [reflexivity|]. split; [repeat constructor|simpl; lia]. }
  cbn [ncalls is_call].
  destruct (fault E PToken _) as [e|].
  { eexists None, [EvLogError _; EvAcquireToken _; EvMsalApp _ _ _].
    split; [reflexivity|]. split; [repeat constructor|simpl; lia]. }
  unfold getitem, bytes_utf8, struct_pack, ret, raise.
  destruct (dict_get _ _) as [token|].
  2:{ eexists None, [EvLogError _; EvAcquireToken _; EvMsalApp _ _ _].
      split; [reflexivity|]. split; [repeat constructor|simpl; lia]. }
  destruct (utf8_encode token) as [tokenb|].
  2:{ eexists None, [EvLogError _; EvAcquireToken _; EvMsalApp _ _ _].
      split; [reflexivity|]. split; [repeat constructor|simpl; lia]. }
  destruct (struct_pack_i _ _) as [header|].
  2:{ eexists None, [EvLogError _; EvAcquireToken _; EvMsalApp _ _ _].
      split; [reflexivity|]. split; [repeat constructor|simpl; lia]. }
  eexists (Some _), [EvAcquireToken _; EvMsalApp _ _ _].
  split; [reflexivity|]. split; [repeat constructor|simpl; lia].
Qed.

(** The token requests of [config_sql], and what its triple carries: the
    connection string of the instance, the attribute key, and the encoding
    of the token that this request was answered with. *)
Lemma config_sql_token (E : env) (self : AzSql) (h : history) :
  exists r cfg,
    config_sql E self h = (Ret r, (cfg ++ h)%list) /\
    Forall config_event cfg /\
    ncalls PToken cfg = token_requests E h /\
    forall cs ts key,
      r = Some (cs, ts, key) ->
      cs = connString_of self /\ key = SQL_COPT_SS_ACCESS_TOKEN /\
      token_requests E h = 1 /\
      presents E (ncalls PToken h) [(key, ts)].
Proof.
  unfold config_sql, try_except, bind, ConfidentialClientApplication,
    acquire_token_for_client, call, logger_error, emit, ret, token_requests.
  destruct (fault E PMsalApp _) as [e|].
  { eexists None, [EvLogError _; EvMsalApp _ _ _].
    split; [reflexivity|]. split; [repeat constructor|].
    split; [reflexivity|]. intros cs ts key H. discriminate H. }
  cbn [ncalls is_call].
  destruct (fault E PToken _) as [e|].
  { eexists None, [EvLogError _; EvAcquireToken _; EvMsalApp _ _ _].
    split; [reflexivity|]. split; [repeat constructor|].
    split; [reflexivity|]. intros cs ts key H. discriminate H. }
  unfold getitem, bytes_utf8, struct_pack, ret, raise.
  destruct (dict_get _ _) as [token|] eqn:Hget.
  2:{ eexists None, [EvLogError _; EvAcquireToken _; EvMsalApp _ _ _].
      split; [reflexivity|]. split; [repeat constructor|].
      split; [reflexivity|]. intros cs ts key H. discriminate H. }
  destruct (utf8_encode token) as [tokenb|] eqn:Henc.
  2:{ eexists None, [EvLogError _; EvAcquireToken _; EvMsalApp _ _ _].
      split; [reflexivity|]. split; [repeat constructor|].
      split; [reflexivity|]. intros cs ts key H. discriminate H. }
  destruct (struct_pack_i _ _) as [header|] eqn:Hpack.
  2:{ eexists None, [EvLogError _; EvAcquireToken _; EvMsalApp _ _ _].
      split; [reflexivity|]. split; [repeat constructor|].
      split; [reflexivity|]. intros cs ts key H. discriminate H. }
  eexists (Some _), [EvAcquireToken _; EvMsalApp _ _ _].
  split; [reflexivity|]. split; [repeat constructor|].
  split; [reflexivity|]. intros cs ts key H. inversion H; subst.
  split; [reflexivity|]. split; [reflexivity|]. split; [reflexivity|].
  exists token, tokenb, header. repeat split; assumption.
Qed.

(** Whatever the environment does, the retry loop leaves only events of
    its own, and every connection attempt among them is made with the
    connection string and the attributes the loop was given. *)
Lemma attempts_events (E : env) cs attrs (d : Z) (n : nat) :
  forall (a : Z) (h : history),
  exists loop,
    snd (attempts E cs attrs d n a h) = (loop ++ h)%list /\
    Forall (attempt_event cs attrs) loop.
Proof.
  induction n as [|n IH]; intros a h.
  - exists [EvLogError "Maximum retry attempts reached"].
    split; [reflexivity|repeat constructor].
  - cbn [attempts].
    unfold try_except, bind, pyodbc_connect, conn_cursor, call,
      logger_warning, logger_error, time_sleep, emit, raise, ret.
    destruct (fault E PConnect _) as [e|];
      [|destruct (fault E PCursor _) as [e|]];
      try (destruct (is_operational e);
           [destruct (is_login_timeout e);
            [destruct (sleep_overflows d); [|destruct (d <? 0)%Z]|]|]);
      cbn [snd];
      try (match goal with
           | |- context [attempts E cs attrs d n ?a' ?h'] =>
               destruct (IH a' h') as (loop & Heq & HF);
               rewrite Heq;
               match h' with
               | (?e1 :: ?e2 :: ?e3 :: ?e4 :: h) =>
                   exists (loop ++ [e1; e2; e3; e4])%list
               | (?e1 :: ?e2 :: ?e3 :: h) =>
                   exists (loop ++ [e1; e2; e3])%list
               end;
               rewrite <- app_assoc;
               split; [reflexivity|];
               apply Forall_app; split; [exact HF|repeat constructor]
           end);
      try (match goal with
           | |- exists loop, (?e1 :: ?e2 :: ?e3 :: h) = _ /\ _ =>
               exists [e1; e2; e3]
           | |- exists loop, (?e1 :: ?e2 :: h) = _ /\ _ =>
               exists [e1; e2]
           | |- exists loop, (?e1 :: h) = _ /\ _ =>
               exists [e1]
           end;
           split; [reflexivity|repeat constructor]).
Qed.

(** One call of [create_cursor]: the events of [config_sql], with its
    token request, then those of the loop, with none; every connection
    attempt of the loop presents the token of that request. *)
Lemma create_cursor_token (E : env) (self : AzSql) (max_retries delay : Z)
    (h : history) :
  exists loop cfg,
    snd (create_cursor E self max_retries delay h) = (loop ++ cfg ++ h)%list /\
    snd (config_sql E self h) = (cfg ++ h)%list /\
    ncalls PToken cfg = token_requests E h /\
    ncalls PConnect cfg = 0 /\
    ncalls PToken loop = 0 /\
    forall c cs attrs,
      In (EvConnect c cs attrs) loop ->
      token_requests E h = 1 /\ cs = connString_of self /\
      presents E (ncalls PToken h) attrs.
Proof.
  rewrite create_cursor_unfold.
  destruct (config_sql_token E self h) as (r & cfg & Hrun & Hcfg & Htok & Hr).
  rewrite Hrun. cbn [snd].
  assert (Hnoconn : ncalls PConnect cfg = 0).
  { apply (ncalls_none PConnect (P := config_event)); [|exact Hcfg].
    intros [] He; try reflexivity; destruct He. }
  destruct r as [[[cs ts] key]|].
  - destruct (Hr cs ts key eq_refl) as (-> & -> & Hone & Hpres).
    destruct (attempts_events E (connString_of self)
                [(SQL_COPT_SS_ACCESS_TOKEN, ts)] delay
                (Z.to_nat max_retries) 0 (cfg ++ h)%list)
      as (loop & Heq & Hloop).
    exists loop, cfg. rewrite Heq.
    split; [reflexivity|]. split; [reflexivity|].
    split; [exact Htok|]. split; [exact Hnoconn|].
    split.
    + apply (ncalls_none PToken
               (P := attempt_event (connString_of self)
                       [(SQL_COPT_SS_ACCESS_TOKEN, ts)]));
        [|exact Hloop].
      intros [] He; try reflexivity; destruct He.
    + intros c cs' attrs Hin.
      rewrite Forall_forall in Hloop. destruct (Hloop _ Hin) as (-> & ->).
      split; [exact Hone|]. split; [reflexivity|exact Hpres].
  - exists [], cfg. cbn [snd app].
    split; [reflexivity|]. split; [reflexivity|].
    split; [exact Htok|]. split; [exact Hnoconn|].
    split; [reflexivity|]. intros c cs attrs [].
Qed.

End AcquireFacts.

(** ** Facts about what computations leave in the history *)

Module LeavesFacts.
Import Bytes Py Eff AzSql Spec HistoryFacts AcquireFacts.
Local Open Scope string_scope.

Section Leaves.

Variable E : env.
Variable P : event -> Prop.

Lemma leaves_ret {A} (a : A) : leaves P (ret a).
Proof. intros h. exists []. split; [reflexivity|constructor]. Qed.

Lemma leaves_raise {A} (e : exn) : leaves P (@raise A e).
Proof. intros h. exists []. split; [reflexivity|constructor]. Qed.

Lemma leaves_emit (ev : event) : P ev -> leaves P (emit ev).
Proof. intros Hev h. exists [ev]. split; [reflexivity|now constructor]. Qed.

Lemma leaves_call {A} (p : prim) (ev : event) (answer : nat -> A) :
  P ev -> leaves P (call E p ev answer).
Proof.
  intros Hev h. exists [ev]. unfold call.
  destruct (fault E p (ncalls p h)); (split; [reflexivity|now constructor]).
Qed.

Lemma leaves_bind {A B} (m : M A) (k : A -> M B) :
  leaves P m -> (forall a, leaves P (k a)) -> leaves P (bind m k).
Proof.
  intros Hm Hk h. unfold bind.
  destruct (Hm h) as (new1 & H1 & F1).
  destruct (m h) as [[a|e] h1]; cbn [snd] in H1; subst h1.
  - destruct (Hk a (new1 ++ h)%list) as (new2 & H2 & F2).
    exists (new2 ++ new1)%list. rewrite H2, app_assoc.
    split; [reflexivity|]. apply Forall_app. now split.
  - exists new1. now split.
Qed.

Lemma leaves_try_except {A} (m : M A) (handler : exn -> M A) :
  leaves P m -> (forall e, leaves P (handler e)) ->
  leaves P (try_except m handler).
Proof.
  intros Hm Hk h. unfold try_except.
  destruct (Hm h) as (new1 & H1 & F1).
  destruct (m h) as [[a|e] h1]; cbn [snd] in H1; subst h1.
  - exists new1. now split.
  - destruct (Hk e (new1 ++ h)%list) as (new2 & H2 & F2).
    exists (new2 ++ new1)%list. rewrite H2, app_assoc.
    split; [reflexivity|]. apply Forall_app. now split.
Qed.

Lemma leaves_method {A} (name : string) (receiver : option nat)
    (f : nat -> M A) :
  (forall o, leaves P (f o)) -> leaves P (method name receiver f).
Proof.
  intros Hf. destruct receiver as [o|]; [apply Hf|apply leaves_raise].
Qed.

End Leaves.

Lemma leaves_weaken (P Q : event -> Prop) {A} (m : M A) :
  (forall e, P e -> Q e) -> leaves P m -> leaves Q m.
Proof.
  intros HPQ Hm h. destruct (Hm h) as (new & H & F).
  exists new. split; [exact H|]. eapply Forall_impl; eauto.
Qed.

(** [create_cursor] leaves acquisition events only. *)
Lemma leaves_create_cursor (E : env) (self : AzSql) (max_retries delay : Z) :
  leaves acquisition_event (create_cursor E self max_retries delay).
Proof.
  intros h. rewrite create_cursor_unfold.
  destruct (config_sql_events E self h) as (r & cfg & Hrun & Hcfg & _).
  rewrite Hrun.
  assert (Hacq : Forall acquisition_event cfg).
  { eapply Forall_impl; [|exact Hcfg]. intros []; simpl; tauto. }
  destruct r as [[[cs ts] key]|].
  - destruct (attempts_events E cs [(key, ts)] delay (Z.to_nat max_retries)
                0 (cfg ++ h)%list) as (loop & Heq & Hloop).
    exists (loop ++ cfg)%list. rewrite Heq, app_assoc.
    split; [reflexivity|]. apply Forall_app. split; [|exact Hacq].
    eapply Forall_impl; [|exact Hloop]. intros []; simpl; tauto.
  - exists cfg. split; [reflexivity|exact Hacq].
Qed.

End LeavesFacts.

(** ** Facts about the runs of the two executors *)

Module ExecFacts.
Import Bytes Py Eff AzSql Spec HistoryFacts AcquireFacts LeavesFacts.
Local Open Scope string_scope.

Ltac break_faults :=
  repeat match goal with
         | H : context [match fault ?E ?p ?k with _ => _ end] |- _ =>
             destruct (fault E p k) eqn:?
         | H : context [match description ?E ?k with _ => _ end] |- _ =>
             destruct (description E k) eqn:?
         end.

(** The statement dispatch makes exactly one driver call, the one of the
    mode of [data_values]. *)
Lemma execute_query_event (E : env) (k : nat) (q : string) (dv : pyval)
    (h : history) :
  exists r,
    execute_query E (Some k) q dv h
    = (r, dispatch_event (dispatch_mode dv) k q dv :: h).
Proof.
  unfold execute_query, cursor_execute, cursor_executemany, method, call.
  destruct dv as [|b|z|s|items|items|c|c];
    cbn [truthy dispatch_mode isinstance_list items_of andb].
  all: try (destruct (fault E PExecute _); eexists; reflexivity).
  - destruct b; cbn [dispatch_event]; destruct (fault E PExecute _);
      eexists; reflexivity.
  - destruct (negb (z =? 0)%Z); cbn [dispatch_event];
      destruct (fault E PExecute _); eexists; reflexivity.
  - destruct (negb (s =? "")%string); cbn [dispatch_event];
      destruct (fault E PExecute _); eexists; reflexivity.
  - destruct items; cbn [dispatch_event]; destruct (fault E PExecute _);
      eexists; reflexivity.
  - destruct items as [|x items];
      [destruct (fault E PExecute _); eexists; reflexivity|].
    destruct (forallb isinstance_tuple (x :: items)); cbn [dispatch_event].
    + destruct (fault E PExecuteMany _); eexists; reflexivity.
    + destruct (fault E PExecute _); eexists; reflexivity.
Qed.

(** The success path of the [try] block of [perform_db_operation]. *)
Lemma db_try_success (E : env) self q dv hr nc h l v h2 :
  perform_db_operation_try E self q dv hr nc h = (l, Ret v, h2) ->
  exists c k h1,
    create_cursor E self 3 5 h = (Ret (c, k), h1) /\
    l = {| l_conn := Bound (Some c); l_cursor := Bound (Some k) |} /\
    let ev := dispatch_event (dispatch_mode dv) k q dv in
    if hr then
      exists cols,
        description E (ncalls PDescription h1) = Some cols /\
        v = VTuple [fetched E (ncalls PFetchall h1);
                    VList (map (fun col => VStr (fst col)) cols)] /\
        h2 = ((if nc then [EvCommit c] else [])
              ++ EvDescription k :: EvFetchall k :: ev :: h1)%list
    else
      v = success_marker /\ h2 = EvCommit c :: ev :: h1.
Proof.
  unfold perform_db_operation_try, try_block, bind at 1.
  destruct (create_cursor E self 3 5 h) as [[[c k]|e] h1]; [|discriminate].
  unfold ret at 1. cbn [value l_conn l_cursor].
  unfold bind at 1.
  destruct (execute_query_event E k q dv h1) as (r & Hr). rewrite Hr.
  intros H. exists c, k, h1. split; [reflexivity|].
  destruct r as [[]|e]; [|discriminate].
  unfold cursor_fetchall, column_names_of, conn_commit, method, bind, call,
    ret, raise in H.
  cbv zeta.
  destruct (dispatch_mode dv); cbn [dispatch_event ncalls is_call] in *;
    destruct hr, nc; break_faults; try discriminate;
    inversion H; subst; eauto.
Qed.

(** The locals and the history at the end of the [try] block of
    [perform_db_operation]: nothing is bound when the acquisition raised,
    both names are bound to what it returned otherwise. *)
Lemma db_try_locals (E : env) self q dv hr nc h :
  (exists e h1,
     create_cursor E self 3 5 h = (Raise e, h1) /\
     perform_db_operation_try E self q dv hr nc h
     = ({| l_conn := Unbound; l_cursor := Unbound |}, Raise e, h1))
  \/
  (exists c k h1 r h2,
     create_cursor E self 3 5 h = (Ret (c, k), h1) /\
     perform_db_operation_try E self q dv hr nc h
     = ({| l_conn := Bound (Some c); l_cursor := Bound (Some k) |}, r, h2) /\
     exists later,
       h2 = (later ++ dispatch_event (dispatch_mode dv) k q dv :: h1)%list /\
       ncalls PCloseCursor later = 0 /\ ncalls PCloseConn later = 0).
Proof.
  destruct (create_cursor E self 3 5 h) as [[[c k]|e] h1] eqn:Hacq.
  - right. unfold perform_db_operation_try, try_block, bind. rewrite Hacq.
    unfold ret at 1. cbn [value l_conn l_cursor].
    destruct (execute_query_event E k q dv h1) as (r & Hr). rewrite Hr.
    destruct r as [[]|e].
    + unfold cursor_fetchall, column_names_of, conn_commit, method, bind,
        call, ret, raise.
      destruct hr, nc; cbv beta;
        repeat match goal with
               | |- context [match fault ?E ?p ?k with _ => _ end] =>
                   destruct (fault E p k)
               | |- context [match description ?E ?k with _ => _ end] =>
                   destruct (description E k)
               end;
        eexists _, _, _, _, _; (split; [reflexivity|]);
        (split; [reflexivity|]);
        match goal with
        | |- exists later, ?e1 :: ?e2 :: ?e3 :: _ :: h1 = _ /\ _ =>
            exists [e1; e2; e3]
        | |- exists later, ?e1 :: ?e2 :: _ :: h1 = _ /\ _ => exists [e1; e2]
        | |- exists later, ?e1 :: _ :: h1 = _ /\ _ => exists [e1]
        | |- exists later, _ :: h1 = _ /\ _ => exists []
        end; repeat split.
    + eexists _, _, _, _, _. split; [reflexivity|]. split; [reflexivity|].
      exists []. repeat split.
  - left. unfold perform_db_operation_try, try_block, bind. rewrite Hacq.
    eexists _, _. split; reflexivity.
Qed.

(** Where the driver closes without fail, so does the cleanup of
    [perform_db_operation]. *)
Lemma db_finally_returns (E : env) (l : locals) (h : history) :
  closes_succeed E ->
  exists h', perform_db_operation_finally E l h = (Ret tt, h').
Proof.
  intros Hok. unfold perform_db_operation_finally, bind, cursor_close,
    conn_close, method, call, ret.
  destruct l as [[|[c|]] [|[k|]]]; cbn [in_locals is_not_none value andb
    l_conn l_cursor ncalls is_call];
    rewrite ?(proj1 (Hok _)), ?(proj2 (Hok _)); eexists; reflexivity.
Qed.

(** The cleanup of [perform_db_operation] only closes. *)
Lemma leaves_db_finally (E : env) (l : locals) :
  leaves close_event (perform_db_operation_finally E l).
Proof.
  unfold perform_db_operation_finally, cursor_close, conn_close.
  apply leaves_bind; [|intros _];
    match goal with
    | |- leaves _ (if ?b then _ else _) => destruct b
    end;
    try apply leaves_ret;
    apply leaves_method; intros o; apply leaves_call; exact I.
Qed.

(** [create_cursor] makes no call of a primitive that none of its events
    is a call of. *)
Lemma create_cursor_frame (E : env) (self : AzSql) (max_retries delay : Z)
    (h : history) (p : prim) :
  (forall e, acquisition_event e -> is_call p e = false) ->
  ncalls p (snd (create_cursor E self max_retries delay h)) = ncalls p h.
Proof.
  intros Hp.
  destruct (leaves_create_cursor E self max_retries delay h)
    as (new & Heq & Hnew).
  rewrite Heq, ncalls_app, (ncalls_none p Hp Hnew). reflexivity.
Qed.

(** The success path of the [try] block of
    [perform_atomic_db_operation]. *)
Lemma atomic_try_success (E : env) self q dv hr cc cn conn cursor h l v h2 :
  perform_atomic_db_operation_try E self q dv hr cc cn conn cursor h
  = (l, Ret v, h2) ->
  exists c k h1 acq,
    session_of E self conn cursor h = Some (c, k) /\
    l = {| l_conn := Bound (Some c); l_cursor := Bound (Some k) |} /\
    h1 = (acq ++ h)%list /\ Forall acquisition_event acq /\
    h1 = session_history E self conn cursor h /\
    let ev := dispatch_event (dispatch_mode dv) k q dv in
    if hr then
      exists cols,
        description E (ncalls PDescription h1) = Some cols /\
        v = return_shape true cc cn (fetched E (ncalls PFetchall h1))
              (VList (map (fun col => VStr (fst col)) cols)) c k /\
        h2 = EvDescription k :: EvFetchall k :: ev :: h1
    else
      v = return_shape false cc cn VNone VNone c k /\ h2 = ev :: h1.
Proof.
  intros H.
  assert (Hacq : exists c k h1 acq,
             session_of E self conn cursor h = Some (c, k) /\
             h1 = (acq ++ h)%list /\ Forall acquisition_event acq /\
             h1 = session_history E self conn cursor h /\
             try_block
               {| l_conn := Bound (Some c); l_cursor := Bound (Some k) |}
               (ret {| l_conn := Bound (Some c); l_cursor := Bound (Some k) |})
               (fun l =>
                  let conn := value (l_conn l) in
                  let cursor := value (l_cursor l) in
                  (execute_query E cursor q dv ;;
                   if hr then
                     result <- cursor_fetchall E cursor ;;
                     column_names <- column_names_of E cursor ;;
                     if negb cc && negb cn then
                       ret (VTuple [result; column_names;
                                    conn_object conn; cursor_object cursor])
                     else ret (VTuple [result; column_names])
                   else
                     if negb cc && negb cn then
                       ret (VTuple [VStr "Success"; conn_object conn;
                                    cursor_object cursor])
                     else ret (VStr "Success"))%eff)
               h1
             = (l, Ret v, h2)).
  { unfold perform_atomic_db_operation_try, session_of, session_history in *.
    destruct conn as [c0|], cursor as [k0|]; cbn [is_none orb] in H.
    1:{ exists c0, k0, h, []. repeat split; [constructor|exact H]. }
    all: unfold try_block, bind at 1 in H;
      destruct (leaves_create_cursor E self 3 5 h) as (acq & Heq & Hacq);
      destruct (create_cursor E self 3 5 h) as [[[c k]|e] h1];
        [|discriminate];
      cbn [snd fst] in *; exists c, k, h1, acq;
      repeat split; try assumption; exact H. }
  destruct Hacq as (c & k & h1 & acq & Hses & Hh1 & Hacq & Hsh & Hrun).
  exists c, k, h1, acq. split; [exact Hses|].
  unfold try_block, ret at 1 in Hrun. cbn [value l_conn l_cursor] in Hrun.
  unfold bind at 1 in Hrun.
  destruct (execute_query_event E k q dv h1) as (r & Hr). rewrite Hr in Hrun.
  destruct r as [[]|e]; [|discriminate].
  unfold cursor_fetchall, column_names_of, method, bind, call, ret, raise,
    conn_object, cursor_object in Hrun.
  cbv zeta.
  destruct (dispatch_mode dv); cbn [dispatch_event ncalls is_call] in *;
    destruct hr, cc, cn; cbn [negb andb] in Hrun;
    break_faults; try discriminate;
    inversion Hrun; subst l v h2; repeat split; eauto.
Qed.


(** Events of the acquisition are not calls of the primitives that the
    acquisition does not use. *)
Lemma acquisition_frame (p : prim) (acq : list event) (h : history) :
  (forall e, acquisition_event e -> is_call p e = false) ->
  Forall acquisition_event acq ->
  ncalls p (acq ++ h)%list = ncalls p h.
Proof.
  intros Hp Hacq. rewrite ncalls_app, (ncalls_none p Hp Hacq). reflexivity.
Qed.

(** On a session, and where the driver closes without fail, the cleanup of
    [perform_db_operation] closes the cursor, then the connection. *)
Lemma db_finally_closes (E : env) (c k : nat) (h : history) :
  closes_succeed E ->
  perform_db_operation_finally E
    {| l_conn := Bound (Some c); l_cursor := Bound (Some k) |} h
  = (Ret tt, EvCloseConn c :: EvCloseCursor k :: h).
Proof.
  intros Hok. unfold perform_db_operation_finally, bind, cursor_close,
    conn_close, method, call.
  cbn [in_locals is_not_none value andb l_conn l_cursor].
  rewrite (proj1 (Hok _)). cbn [ncalls is_call].
  rewrite (proj2 (Hok _)). reflexivity.
Qed.

(** The handler of [perform_atomic_db_operation] never returns. *)
Lemma atomic_except_raises (E : env) (l : locals) (e : exn) (h : history) :
  exists e' h', perform_atomic_db_operation_except E l e h = (Raise e', h').
Proof.
  unfold perform_atomic_db_operation_except, conn_rollback, method, bind,
    call, logger_error, emit, raise.
  destruct (value (l_conn l)) as [c|]; [|eexists _, _; reflexivity].
  destruct (fault E PRollback _); eexists _, _; reflexivity.
Qed.

(** The cleanup of [perform_atomic_db_operation] closes nothing when both
    flags are off. *)
Lemma leaves_atomic_finally (E : env) (cc cn nc : bool) (l : locals) :
  leaves (fun e => cc = false -> cn = false -> ~ close_event e)
    (perform_atomic_db_operation_finally E cc cn nc l).
Proof.
  unfold perform_atomic_db_operation_finally, conn_commit, cursor_close,
    conn_close, print.
  repeat (apply leaves_bind; [|intros _]);
    match goal with
    | |- leaves _ (if ?b then _ else _) => destruct b eqn:Hb
    end;
    try apply leaves_ret;
    try (apply leaves_bind; [apply leaves_emit|intros _]);
    try (apply leaves_method; intros o; apply leaves_call);
    try (intros _ _ H; exact H).
  - intros -> _ _. discriminate Hb.
  - intros _ -> _. discriminate Hb.
Qed.

(** What [finally] lets through. *)
Lemma finally_ret {A} (r : outcome A * history) (block : M unit) (v : A)
    (h' : history) :
  finally r block = (Ret v, h') ->
  fst r = Ret v /\ block (snd r) = (Ret tt, h').
Proof.
  unfold finally. destruct (block (snd r)) as [[[]|e] h2]; intros H;
    inversion H; auto.
Qed.

(** After the [try] block, the handler and the cleanup only add events. *)
Lemma except_finally_grows {L A} (l : L) (r : outcome A) (h2 : history)
    (handler : L -> exn -> M A) (cleanup : L -> M unit) :
  (forall l e, leaves any_event (handler l e)) ->
  (forall l, leaves any_event (cleanup l)) ->
  exists new,
    snd (except_finally (l, r, h2) handler cleanup) = (new ++ h2)%list.
Proof.
  intros Hh Hc. unfold except_finally, finally.
  destruct r as [a|e].
  - cbn [fst snd]. destruct (Hc l h2) as (new & Heq & _).
    exists new. destruct (cleanup l h2) as [[[]|e] h3]; exact Heq.
  - destruct (Hh l e h2) as (new1 & H1 & _).
    destruct (handler l e h2) as [r1 h3]. cbn [fst snd] in *. subst h3.
    destruct (Hc l (new1 ++ h2)%list) as (new2 & H2 & _).
    exists (new2 ++ new1)%list. rewrite <- app_assoc.
    destruct (cleanup l (new1 ++ h2)%list) as [[[]|e'] h4]; exact H2.
Qed.

Lemma leaves_db_except (l : locals) (e : exn) :
  leaves any_event (perform_db_operation_except l e).
Proof.
  unfold perform_db_operation_except, logger_error.
  apply leaves_bind; [apply leaves_emit; exact I|intros _; apply leaves_ret].
Qed.

Lemma leaves_atomic_except (E : env) (l : locals) (e : exn) :
  leaves any_event (perform_atomic_db_operation_except E l e).
Proof.
  unfold perform_atomic_db_operation_except, conn_rollback, logger_error.
  apply leaves_bind;
    [apply leaves_method; intros o; apply leaves_call; exact I|intros _].
  apply leaves_bind; [apply leaves_emit; exact I|intros _; apply leaves_raise].
Qed.

(** The body of either [try] block, once the session is bound: the
    statement dispatch comes first. *)
Lemma body_dispatch_first (E : env) (k : nat) (q : string) (dv : pyval)
    {A} (rest : M A) (h1 : history) :
  leaves any_event rest ->
  exists later,
    snd (bind (execute_query E (Some k) q dv) (fun _ => rest) h1)
    = (later ++ dispatch_event (dispatch_mode dv) k q dv :: h1)%list.
Proof.
  intros Hrest. unfold bind.
  destruct (execute_query_event E k q dv h1) as (r & Hr). rewrite Hr.
  destruct r as [[]|e].
  - destruct (Hrest (dispatch_event (dispatch_mode dv) k q dv :: h1))
      as (later & Heq & _).
    exists later. exact Heq.
  - exists []. reflexivity.
Qed.

Ltac leaves_tac :=
  repeat first
    [ apply leaves_ret
    | apply leaves_raise
    | apply leaves_emit; exact I
    | apply leaves_call; exact I
    | apply leaves_method; intros ?
    | apply leaves_bind; [|intros ?]
    | match goal with
      | |- leaves _ (if ?b then _ else _) => destruct b
      | |- leaves _ (match ?d with _ => _ end) => destruct d
      end ].

(** The [try] block of [perform_atomic_db_operation] on a session: the
    names are bound to the session, and the statement dispatch is the
    first event after the acquisition. *)
Lemma atomic_try_locals (E : env) self q dv hr cc cn conn cursor h c k :
  session_of E self conn cursor h = Some (c, k) ->
  exists r later acq,
    perform_atomic_db_operation_try E self q dv hr cc cn conn cursor h
    = ({| l_conn := Bound (Some c); l_cursor := Bound (Some k) |}, r,
       (later ++ dispatch_event (dispatch_mode dv) k q dv :: acq ++ h)%list)
    /\ Forall acquisition_event acq.
Proof.
  intros Hses.
  assert (Hfirst : exists acq,
             Forall acquisition_event acq /\
             (if is_none conn || is_none cursor then
                ('(conn', cursor') <- create_cursor E self 3 5 ;;
                 ret {| l_conn := Bound (Some conn');
                        l_cursor := Bound (Some cursor') |})%eff
              else ret {| l_conn := Bound conn; l_cursor := Bound cursor |}) h
             = (Ret {| l_conn := Bound (Some c); l_cursor := Bound (Some k) |},
                (acq ++ h)%list)).
  { unfold session_of in Hses.
    destruct conn as [c0|], cursor as [k0|]; cbn [is_none orb].
    1:{ inversion Hses; subst. exists []. split; [constructor|reflexivity]. }
    all: unfold bind;
      destruct (leaves_create_cursor E self 3 5 h) as (acq & Heq & Hacq);
      destruct (create_cursor E self 3 5 h) as [[[c' k']|e] h1];
      cbn [fst snd] in *; [|discriminate];
      inversion Hses; subst; exists acq; split; [exact Hacq|reflexivity]. }
  destruct Hfirst as (acq & Hacq & Hfirst).
  unfold perform_atomic_db_operation_try, try_block. rewrite Hfirst.
  cbn [value l_conn l_cursor].
  match goal with
  | |- context [bind (execute_query E (Some k) q dv) (fun _ => ?rest) ?h1] =>
      destruct (body_dispatch_first E k q dv (rest := rest) h1)
        as (later & Heq); [leaves_tac|];
      destruct (bind (execute_query E (Some k) q dv) (fun _ => rest) h1)
        as [r h2]
  end.
  cbn [snd] in Heq. subst h2.
  exists r, later, acq. split; [reflexivity|exact Hacq].
Qed.

(** Whenever [perform_atomic_db_operation] returns, its [try] block
    returned that value on a session, and the cleanup completed. *)
Lemma atomic_return_exact (E : env) (self : AzSql) (q : string) (dv : pyval)
    (hr cc cn : bool) (conn cursor : option nat) (nc : bool)
    (h h' : history) (v : pyval) :
  perform_atomic_db_operation E self q dv hr cc cn conn cursor nc h
  = (Ret v, h') ->
  exists c k h2,
    perform_atomic_db_operation_try E self q dv hr cc cn conn cursor h
    = ({| l_conn := Bound (Some c); l_cursor := Bound (Some k) |}, Ret v, h2)
    /\ h' = (cleanup_events cc cn nc c k ++ h2)%list.
Proof.
  intros H. unfold perform_atomic_db_operation, except_finally in H.
  destruct (perform_atomic_db_operation_try E self q dv hr cc cn conn cursor h)
    as [[l r] h2] eqn:Htry.
  destruct r as [v0|e].
  2:{ destruct (atomic_except_raises E l e h2) as (e' & h3 & He).
      rewrite He in H. apply finally_ret in H. destruct H as (H & _).
      discriminate H. }
  apply finally_ret in H. cbn [fst snd] in H. destruct H as (Hv & Hclean).
  inversion Hv; subst v0; clear Hv.
  destruct (atomic_try_success _ _ _ _ _ _ _ _ _ _ Htry)
    as (c & k & h1 & acq & _ & -> & _).
  exists c, k, h2. split; [reflexivity|].
  unfold perform_atomic_db_operation_finally, conn_commit, cursor_close,
    conn_close, print, method, bind, call, emit, ret in Hclean.
  unfold cleanup_events.
  cbn [value l_conn l_cursor in_locals is_not_none andb] in Hclean.
  destruct nc, cc, cn; cbn [andb app] in *;
    repeat match goal with
           | H : context [match fault ?E ?p ?n with _ => _ end] |- _ =>
               destruct (fault E p n)
           end;
    inversion Hclean; reflexivity.
Qed.

(** Whenever [perform_atomic_db_operation] returns: the session it worked
    on, every event it added after the session was there, and the value,
    made of what the driver answered to this call. *)
Lemma atomic_return_session (E : env) (self : AzSql) (q : string)
    (dv : pyval) (hr cc cn : bool) (conn cursor : option nat) (nc : bool)
    (h h' : history) (v : pyval) :
  perform_atomic_db_operation E self q dv hr cc cn conn cursor nc h
  = (Ret v, h') ->
  exists c k,
    session_of E self conn cursor h = Some (c, k) /\
    h' = (cleanup_events cc cn nc c k ++ fetch_events hr k
          ++ dispatch_event (dispatch_mode dv) k q dv
          :: session_history E self conn cursor h)%list /\
    if hr then
      exists names,
        names_fetched E h = Some names /\
        v = return_shape true cc cn (rows_fetched E h) names c k
    else v = return_shape false cc cn VNone VNone c k.
Proof.
  intros H. destruct (atomic_return_exact _ _ _ _ _ _ _ _ _ _ _ H)
    as (c & k & h2 & Htry & ->).
  destruct (atomic_try_success _ _ _ _ _ _ _ _ _ _ Htry)
    as (c' & k' & h1 & acq & Hses & Hl & Hh1 & Hacq & Hsh & Hshape).
  inversion Hl; subst c' k'; clear Hl.
  exists c, k. split; [exact Hses|].
  assert (Hf : ncalls PFetchall h1 = ncalls PFetchall h).
  { rewrite Hh1. apply acquisition_frame; [|exact Hacq].
    intros [] He; try reflexivity; destruct He. }
  assert (Hd : ncalls PDescription h1 = ncalls PDescription h).
  { rewrite Hh1. apply acquisition_frame; [|exact Hacq].
    intros [] He; try reflexivity; destruct He. }
  cbv zeta in Hshape. unfold rows_fetched, names_fetched, fetch_events.
  rewrite <- Hsh, <- Hf, <- Hd. destruct hr.
  - destruct Hshape as (cols & Hdesc & -> & ->). rewrite Hdesc.
    split; [reflexivity|]. eexists. split; reflexivity.
  - destruct Hshape as (-> & ->). split; reflexivity.
Qed.

End ExecFacts.

(** ** The token encoder *)

Module TokenEncoding.
Import Bytes Py Eff AzSql Spec Samples BytesFacts ConfigFacts.
Local Open Scope string_scope.

(** C1 (amended).  On a little-endian host, for every ASCII token of
    length N < 2^30 handed out by the identity provider, [config_sql]
    returns a buffer of length 4 + 2*N whose first four bytes decode
    (little-endian) to 2*N, whose byte 4+2*i is the i-th byte of the UTF-8
    encoding of the token and whose byte 4+2*i+1 is zero, for i in [0, N). *)
Theorem config_sql_layout (E : env) (self : AzSql) (h : history)
    (token : pystr) :
  idp_issues E h token ->
  is_ascii token ->
  byteorder_of E = LittleEndian ->
  (Z.of_nat (List.length token) < 2 ^ 30)%Z ->
  encodes E self h token.
Proof.
  intros Hidp Hascii Hbo Hlen.
  unfold encodes. rewrite (config_sql_run self Hidp).
  rewrite (utf8_encode_ascii Hascii), Hbo.
  rewrite exptoken_length, length_map.
  rewrite struct_pack_i_little by lia.
  eexists _, _. split; [reflexivity|].
  unfold token_layout. cbv zeta.
  split; [|split].
  - rewrite length_app, exptoken_length, length_map. reflexivity.
  - change (firstn 4 (le_bytes32 (Z.of_nat (2 * List.length token))
                      ++ exptoken_of (map of_N token))%list)
      with (le_bytes32 (Z.of_nat (2 * List.length token))).
    apply le_decode_le_bytes32. lia.
  - exists (map of_N token). split; [apply utf8_encode_ascii, Hascii|].
    intros i Hi.
    destruct (nth_error (map of_N token) i) as [b|] eqn:Hb.
    + exists b. split; [reflexivity|].
      change (4 + 2 * i) with (S (S (S (S (2 * i))))).
      change (S (S (S (S (2 * i)))) + 1) with (S (S (S (S (2 * i + 1))))).
      unfold le_bytes32. cbn [app nth_error].
      rewrite exptoken_even, exptoken_odd by (rewrite length_map; exact Hi).
      split; [exact Hb|reflexivity].
    + apply nth_error_None in Hb. rewrite length_map in Hb. lia.
Qed.

Lemma config_sql_layout_witness :
  idp_issues calm [] token_AB /\ is_ascii token_AB /\ encodes calm me [] token_AB.
Proof.
  assert (Hidp : idp_issues calm [] token_AB) by (repeat split).
  assert (Hascii : is_ascii token_AB)
    by (repeat (apply Forall_cons; [reflexivity|]); apply Forall_nil).
  split; [exact Hidp|]. split; [exact Hascii|].
  apply (config_sql_layout me Hidp Hascii); reflexivity.
Defined.

(** C1 as stated fails: a token of 2^30 characters makes the length prefix
    overflow, so no buffer is returned; and on a big-endian host the prefix
    is written most significant byte first. *)
Lemma config_sql_layout_fails :
  (idp_issues huge_world [] huge_token /\ is_ascii huge_token /\
   ~ encodes huge_world me [] huge_token)
  /\
  (idp_issues big_endian_world [] [65%N] /\ is_ascii [65%N] /\
   ~ encodes big_endian_world me [] [65%N]).
Proof.
  split.
  - assert (Hidp : idp_issues huge_world [] huge_token) by (repeat split).
    assert (Hascii : is_ascii huge_token)
      by (apply is_ascii_repeat; reflexivity).
    split; [exact Hidp|]. split; [exact Hascii|].
    intros (buf & h' & Hrun & _).
    rewrite (config_sql_run me Hidp) in Hrun.
    rewrite (utf8_encode_ascii Hascii) in Hrun.
    rewrite struct_pack_i_overflow in Hrun; [discriminate|].
    rewrite exptoken_length, length_map. unfold huge_token.
    rewrite repeat_length, Nat2Z.inj_mul, Z2Nat.id by (apply Z.pow_nonneg; lia).
    change (Z.of_nat 2) with 2%Z. apply Z.eq_le_incl. reflexivity.
  - assert (Hidp : idp_issues big_endian_world [] [65%N]) by (repeat split).
    assert (Hascii : is_ascii [65%N])
      by (apply Forall_cons; [reflexivity|apply Forall_nil]).
    split; [exact Hidp|]. split; [exact Hascii|].
    intros (buf & h' & Hrun & _ & Hdec & _).
    vm_compute in Hrun. injection Hrun as Hbuf _. subst buf.
    vm_compute in Hdec. discriminate.
Qed.

End TokenEncoding.

(** ** The authenticated connection acquirer *)

Module Acquisition.
Import Bytes Py Eff AzSql Spec Samples.
Import HistoryFacts ConfigFacts AcquireFacts LeavesFacts.
Local Open Scope string_scope.




(** C9 (amended).  The access token is requested at most once per call of
    [create_cursor], by the one call of [config_sql] before the retry
    loop: exactly once when the client application can be built, and not
    at all otherwise.  The events of a call are those of [config_sql],
    with that request and no connection attempt, followed by those of the
    loop, with no token request.  A call that makes any connection attempt
    has made its one request, and every connection attempt of the call
    presents the same buffer, the encoding of the token that this request
    was answered with.  The connection attempts of the next call present
    the token of the next request, which that call makes itself. *)
Theorem create_cursor_one_token (E : env) (self : AzSql)
    (max_retries delay : Z) (h : history) :
  exists loop cfg,
    snd (create_cursor E self max_retries delay h) = (loop ++ cfg ++ h)%list /\
    snd (config_sql E self h) = (cfg ++ h)%list /\
    ncalls PToken cfg = token_requests E h /\
    ncalls PConnect cfg = 0 /\
    ncalls PToken loop = 0 /\
    (forall c cs attrs,
       In (EvConnect c cs attrs) loop ->
       token_requests E h = 1 /\ cs = connString_of self /\
       presents E (ncalls PToken h) attrs) /\
    forall max_retries' delay' later c cs attrs,
      snd (create_cursor E self max_retries' delay' (loop ++ cfg ++ h)%list)
      = (later ++ loop ++ cfg ++ h)%list ->
      In (EvConnect c cs attrs) later ->
      ncalls PToken later = 1 /\
      presents E (ncalls PToken h + token_requests E h) attrs.
Proof.
  destruct (create_cursor_token E self max_retries delay h)
    as (loop & cfg & Heq & Hcfg & Htok & Hconn & Hloop & Hpres).
  exists loop, cfg.
  split; [exact Heq|]. split; [exact Hcfg|].
  split; [exact Htok|]. split; [exact Hconn|].
  split; [exact Hloop|]. split; [exact Hpres|].
  intros max_retries' delay' later c cs attrs Hnext Hin.
  destruct (create_cursor_token E self max_retries' delay'
              (loop ++ cfg ++ h)%list)
    as (loop' & cfg' & Heq' & _ & Htok' & Hconn' & Hloop' & Hpres').
  rewrite Hnext, (app_assoc loop' cfg') in Heq'.
  apply app_inv_tail in Heq'. subst later.
  apply in_app_or in Hin. destruct Hin as [Hin|Hin].
  2:{ apply (ncalls_zero_In PConnect _ _ Hconn') in Hin. discriminate Hin. }
  destruct (Hpres' _ _ _ Hin) as (Hone & _ & Hp).
  rewrite ncalls_app, Hloop', Htok', Hone. split; [reflexivity|].
  rewrite !ncalls_app, Hloop, Htok in Hp.
  replace (ncalls PToken h + token_requests E h)
    with (0 + (token_requests E h + ncalls PToken h)) by lia.
  exact Hp.
Qed.

Lemma create_cursor_one_token_witness :
  let h1 := snd (create_cursor flaky me 3 5 []) in
  let h2 := snd (create_cursor flaky me 3 5 h1) in
  (forall c cs attrs,
     In (EvConnect c cs attrs) h1 -> presents flaky 0 attrs) /\
  (forall c cs attrs,
     In (EvConnect c cs attrs) h2 -> ~ In (EvConnect c cs attrs) h1 ->
     presents flaky 1 attrs).
Proof.
  cbv zeta.
  destruct (create_cursor_one_token flaky me 3 5 [])
    as (loop & cfg & Heq & _ & _ & Hconn & _ & Hpres & Hnext).
  destruct (leaves_create_cursor flaky me 3 5
              (snd (create_cursor flaky me 3 5 []))) as (later & Hlater & _).
  rewrite Heq in *.
  split.
  - intros c cs attrs Hin.
    apply in_app_or in Hin. destruct Hin as [Hin|Hin].
    + exact (proj2 (proj2 (Hpres _ _ _ Hin))).
    + rewrite app_nil_r in Hin.
      apply (ncalls_zero_In PConnect _ _ Hconn) in Hin. discriminate Hin.
  - intros c cs attrs Hin Hnew. rewrite Hlater in Hin.
    apply in_app_or in Hin. destruct Hin as [Hin|Hin]; [|contradiction].
    exact (proj2 (Hnext 3%Z 5%Z later c cs attrs Hlater Hin)).
Defined.

(** C9 as stated fails: where the first two attempts time out, one call
    makes three connection attempts on one token request, and the second
    and third attempts present the token of the first although the
    identity provider would have issued another. *)
Lemma create_cursor_token_reused :
  ~ token_per_attempt flaky me 3 5 [] /\
  (let h' := snd (create_cursor flaky me 3 5 []) in
   ncalls PToken h' = 1 /\ ncalls PConnect h' = 3 /\
   forall c cs attrs,
     In (EvConnect c cs attrs) h' ->
     attrs = [(SQL_COPT_SS_ACCESS_TOKEN, [x02; x00; x00; x00; x41; x00])]).
Proof.
  split.
  - unfold token_per_attempt. vm_compute. discriminate.
  - vm_compute. split; [reflexivity|]. split; [reflexivity|].
    intros c cs attrs H.
    repeat (destruct H as [H|H]; [try discriminate; now inversion H|]).
    destruct H.
Qed.

(** C10.  When the identity-provider call inside [config_sql] raises, the
    exception is caught and logged there, [config_sql] returns [None]
    instead of its triple, and [create_cursor] raises the [TypeError] of
    the failed unpacking to its caller before any connection attempt. *)
Theorem idp_failure_propagates (E : env) (self : AzSql) (h : history)
    (e : exn) :
  idp_raises E h e ->
  exists h1,
    config_sql E self h
    = (Ret None,
       EvLogError ("Error configuring SQL connection: " ++ str_of e) :: h1) /\
    ncalls PConnect h1 = ncalls PConnect h /\
    forall max_retries delay,
      create_cursor E self max_retries delay h
      = (Raise (mk_exn TypeError "cannot unpack non-iterable NoneType object"),
         EvLogError ("Error configuring SQL connection: " ++ str_of e) :: h1).
Proof.
  intros Hidp.
  assert (Hcfg : exists h1,
             config_sql E self h
             = (Ret None,
                EvLogError ("Error configuring SQL connection: " ++ str_of e)
                :: h1) /\
             ncalls PConnect h1 = ncalls PConnect h).
  { unfold config_sql, try_except, bind, ConfidentialClientApplication,
      acquire_token_for_client, call.
    destruct Hidp as [Happ|(Happ & Htok)]; rewrite Happ.
    - eexists. split; reflexivity.
    - cbn [ncalls is_call]. rewrite Htok. eexists. split; reflexivity. }
  destruct Hcfg as (h1 & Hrun & Hconn).
  exists h1. split; [exact Hrun|]. split; [exact Hconn|].
  intros max_retries delay. rewrite create_cursor_unfold, Hrun. reflexivity.
Qed.

Lemma idp_failure_propagates_witness :
  idp_raises no_idp [] idp_error /\
  create_cursor no_idp me 3 5 []
  = (Raise (mk_exn TypeError "cannot unpack non-iterable NoneType object"),
     [EvLogError
        "Error configuring SQL connection: HTTPSConnectionPool: Max retries exceeded";
      EvAcquireToken ["https://database.windows.net//.default"];
      EvMsalApp "client" "https://login.microsoftonline.com/tenant" "secret"]).
Proof.
  assert (Hidp : idp_raises no_idp [] idp_error)
    by (right; split; reflexivity).
  split; [exact Hidp|].
  destruct (idp_failure_propagates me Hidp) as (h1 & Hcfg & _ & Hrun).
  rewrite (Hrun 3%Z 5%Z).
  injection Hcfg as <-. reflexivity.
Defined.

End Acquisition.

(** ** The single-step executor *)

Module SingleStep.
Import Bytes Py Eff AzSql Spec Samples.
Import HistoryFacts AcquireFacts LeavesFacts ExecFacts.
Local Open Scope string_scope.

(** C3 (amended).  Where closing the cursor and the connection does not
    itself raise, [perform_db_operation] never raises.  When its [try]
    block returns, it returns that value, and the call went through these
    steps on the session that [create_cursor] gave it: the statement, with
    [has_return] the fetch of the rows and the read of the description,
    the commit (C7), and the two closes.  With [has_return] the value is
    the pair of the rows that this fetch was answered with and of the
    column names of that description; without, it is the success marker
    pair.  When anything in the [try] block raises, it logs and returns
    the error marker pair that carries the message of the exception, and
    only closes. *)
Theorem perform_db_operation_returns (E : env) (self : AzSql) (q : string)
    (dv : pyval) (hr nc : bool) (h : history) :
  closes_succeed E ->
  exists v h',
    perform_db_operation E self q dv hr nc h = (Ret v, h') /\
    match snd (fst (perform_db_operation_try E self q dv hr nc h)) with
    | Ret v0 =>
        v = v0 /\
        exists c k h1,
          create_cursor E self 3 5 h = (Ret (c, k), h1) /\
          h' = (EvCloseConn c :: EvCloseCursor k
                :: (if hr then if nc then [EvCommit c] else []
                    else [EvCommit c])
                ++ fetch_events hr k
                ++ dispatch_event (dispatch_mode dv) k q dv :: h1)%list /\
          if hr then
            exists names,
              names_fetched E h = Some names /\
              v = VTuple [rows_fetched E h; names]
          else v = success_marker
    | Raise e =>
        v = error_marker e /\
        exists closing,
          h' = (closing
                ++ EvLogError ("Error performing query: " ++ str_of e)
                   :: snd (perform_db_operation_try E self q dv hr nc h))%list
          /\ Forall close_event closing
    end.
Proof.
  intros Hok. unfold perform_db_operation, except_finally.
  destruct (perform_db_operation_try E self q dv hr nc h) as [[l r] h2]
    eqn:Htry.
  cbn [fst snd]. destruct r as [v|e].
  - destruct (db_try_success _ _ _ _ _ _ _ Htry)
      as (c & k & h1 & Hacq & -> & Hv).
    unfold finally. cbn [fst snd]. rewrite (db_finally_closes c k h2 Hok).
    exists v, (EvCloseConn c :: EvCloseCursor k :: h2).
    split; [reflexivity|]. split; [reflexivity|].
    exists c, k, h1. split; [exact Hacq|].
    assert (Hf : ncalls PFetchall h1 = ncalls PFetchall h).
    { rewrite <- (create_cursor_frame E self 3 5 h PFetchall).
      - now rewrite Hacq.
      - intros [] He; try reflexivity; destruct He. }
    assert (Hd : ncalls PDescription h1 = ncalls PDescription h).
    { rewrite <- (create_cursor_frame E self 3 5 h PDescription).
      - now rewrite Hacq.
      - intros [] He; try reflexivity; destruct He. }
    cbv zeta in Hv. unfold rows_fetched, names_fetched, fetch_events.
    rewrite <- Hf, <- Hd. destruct hr.
    + destruct Hv as (cols & Hdesc & -> & ->). rewrite Hdesc.
      split; [|eexists; split; reflexivity].
      destruct nc; reflexivity.
    + destruct Hv as (-> & ->). split; reflexivity.
  - unfold perform_db_operation_except, bind, logger_error, emit, ret,
      finally. cbn [fst snd].
    destruct (db_finally_returns l
                (EvLogError ("Error performing query: " ++ str_of e) :: h2)
                Hok) as (h' & Hf).
    rewrite Hf. exists (error_marker e), h'.
    split; [reflexivity|]. split; [reflexivity|].
    destruct (leaves_db_finally E l
                (EvLogError ("Error performing query: " ++ str_of e) :: h2))
      as (closing & Heq & Hclosing).
    rewrite Hf in Heq. cbn [snd] in Heq. subst h'.
    exists closing. split; [reflexivity|exact Hclosing].
Qed.

Lemma perform_db_operation_returns_witness :
  closes_succeed bad_statement /\
  perform_db_operation bad_statement me "UPDATE t SET" VNone false false []
  = (Ret (error_marker syntax_error),
     snd (perform_db_operation bad_statement me "UPDATE t SET" VNone false
            false []))
  /\
  closes_succeed calm /\
  fst (perform_db_operation calm me "SELECT id, name FROM t" VNone true false
         [])
  = Ret (VTuple [VList [VTuple [VInt 1; VStr "x"]];
                 VList [VStr "id"; VStr "name"]]).
Proof.
  assert (Hok : closes_succeed bad_statement) by (intros k; split; reflexivity).
  assert (Hok' : closes_succeed calm) by (intros k; split; reflexivity).
  split; [exact Hok|]. split; [|split; [exact Hok'|]].
  - destruct (@perform_db_operation_returns bad_statement me "UPDATE t SET"
                VNone false false [] Hok) as (v & h' & Hrun & Hv).
    rewrite Hrun. cbn [snd]. f_equal. f_equal.
    vm_compute in Hv. apply Hv.
  - destruct (@perform_db_operation_returns calm me "SELECT id, name FROM t"
                VNone true false [] Hok') as (v & h' & Hrun & Hv).
    rewrite Hrun. cbn [fst]. f_equal.
    vm_compute in Hv.
    destruct Hv as (_ & c & k & h1 & _ & _ & names & Hn & ->).
    injection Hn as <-. reflexivity.
Defined.

(** C3 as stated fails: when the link drops, the statement fails and so
    does closing the cursor; the exception of the cleanup reaches the
    caller, and the connection is not closed. *)
Lemma perform_db_operation_raises :
  let run := perform_db_operation link_drops me "SELECT 1" VNone true false []
  in
  fst run = Raise link_failure /\
  ncalls PCloseCursor (snd run) = 1 /\
  ncalls PCloseConn (snd run) = 0.
Proof. vm_compute. repeat split. Qed.



(** The part of C6 that holds.  Once [create_cursor] has returned a
    session, and where closing does not fail, the cursor and then the
    connection are closed, once each, as the last two driver calls of
    [perform_db_operation], whatever happened in between. *)
Lemma session_released (E : env) (self : AzSql) (q : string) (dv : pyval)
    (hr nc : bool) (h h1 : history) (c k : nat) :
  closes_succeed E ->
  create_cursor E self 3 5 h = (Ret (c, k), h1) ->
  exists later,
    snd (perform_db_operation E self q dv hr nc h)
    = EvCloseConn c :: EvCloseCursor k :: (later ++ h1)%list /\
    ncalls PCloseCursor later = 0 /\ ncalls PCloseConn later = 0.
Proof.
  intros Hok Hacq.
  assert (Hclose : forall hx,
             perform_db_operation_finally E
               {| l_conn := Bound (Some c); l_cursor := Bound (Some k) |} hx
             = (Ret tt, EvCloseConn c :: EvCloseCursor k :: hx)).
  { intros hx. unfold perform_db_operation_finally, bind, cursor_close,
      conn_close, method, call.
    cbn [in_locals is_not_none value andb l_conn l_cursor].
    rewrite (proj1 (Hok _)). cbn [ncalls is_call].
    rewrite (proj2 (Hok _)). reflexivity. }
  destruct (db_try_locals E self q dv hr nc h)
    as [(e & h0 & Hraise & _)
       |(c' & k' & h1' & r & h2 & Hret & Htry & later & -> & Hk & Hc)].
  { rewrite Hacq in Hraise. discriminate. }
  rewrite Hacq in Hret. inversion Hret; subst c' k' h1'.
  unfold perform_db_operation, except_finally. rewrite Htry.
  destruct r as [v|e].
  - unfold finally. cbn [fst snd]. rewrite Hclose. cbn [snd].
    exists (later ++ [dispatch_event (dispatch_mode dv) k q dv])%list.
    rewrite <- app_assoc. split; [reflexivity|].
    rewrite !ncalls_app, Hk, Hc.
    destruct (dispatch_mode dv); split; reflexivity.
  - unfold perform_db_operation_except, bind, logger_error, emit, ret,
      finally. cbn [fst snd]. rewrite Hclose. cbn [snd].
    exists (EvLogError ("Error performing query: " ++ str_of e)
            :: later ++ [dispatch_event (dispatch_mode dv) k q dv])%list.
    cbn [app]. rewrite <- app_assoc. split; [reflexivity|].
    cbn [ncalls is_call]. rewrite !ncalls_app, Hk, Hc.
    destruct (dispatch_mode dv); split; reflexivity.
Qed.

(** When [create_cursor] raises, the names are unbound: the cleanup closes
    nothing and raises nothing, and the error is reported. *)
Lemma nothing_to_release (E : env) (self : AzSql) (q : string) (dv : pyval)
    (hr nc : bool) (h h1 : history) (e : exn) :
  create_cursor E self 3 5 h = (Raise e, h1) ->
  perform_db_operation E self q dv hr nc h
  = (Ret (error_marker e),
     EvLogError ("Error performing query: " ++ str_of e) :: h1).
Proof.
  intros Hacq.
  unfold perform_db_operation, perform_db_operation_try, try_block, bind.
  rewrite Hacq. reflexivity.
Qed.

(** C6, at the failing input: the connection opens, no cursor can be made
    for it; the call reports the error, and the connection it opened is
    never closed. *)
Theorem connection_leaks_without_cursor :
  let run :=
    perform_db_operation no_statement_handle me "SELECT 1" VNone true false []
  in
  fst run = Ret (error_marker no_handle) /\
  fault no_statement_handle PConnect 0 = None /\
  ncalls PConnect (snd run) = 1 /\
  ncalls PCloseConn (snd run) = 0.
Proof. vm_compute. repeat split. Qed.

End SingleStep.

(** ** The transactional executor *)

Module Transactional.
Import Bytes Py Eff AzSql Spec Samples.
Import HistoryFacts AcquireFacts LeavesFacts ExecFacts.
Local Open Scope string_scope.



(** The part of C2 that holds.  On a session passed in by the caller, and
    where rolling back, committing and closing do not fail, a statement
    that raises is followed by the rollback, the log line, the commit when
    [needs_commit] is set, and the closing of the cursor and of the
    connection as the flags say; then the exception reaches the caller. *)
Lemma statement_failure_rolls_back (E : env) (self : AzSql) (q : string)
    (dv : pyval) (hr cc cn nc : bool) (c k : nat) (h : history) (e : exn) :
  cleanup_succeeds E ->
  execute_query E (Some k) q dv h
  = (Raise e, dispatch_event (dispatch_mode dv) k q dv :: h) ->
  perform_atomic_db_operation E self q dv hr cc cn (Some c) (Some k) nc h
  = (Raise e,
     ((if cn then [EvCloseConn c] else [])
      ++ (if cc then [EvCloseCursor k] else [])
      ++ (if nc then [EvCommit c; EvPrint "Committing transaction"] else [])
      ++ EvLogError ("Error in atomic operation: " ++ str_of e)
         :: EvRollback c
         :: dispatch_event (dispatch_mode dv) k q dv :: h)%list).
Proof.
  intros Hok Hexec.
  unfold perform_atomic_db_operation, perform_atomic_db_operation_try,
    try_block, except_finally.
  cbn [is_none orb]. unfold ret at 1. cbn [value l_conn l_cursor].
  unfold bind at 1. rewrite Hexec.
  unfold perform_atomic_db_operation_except, conn_rollback, logger_error,
    perform_atomic_db_operation_finally, conn_commit, cursor_close,
    conn_close, print, method, bind, call, emit, raise, ret, finally.
  cbn [value l_conn l_cursor in_locals is_not_none andb fst snd].
  destruct (Hok (ncalls PRollback
                   (dispatch_event (dispatch_mode dv) k q dv :: h)))
    as (-> & _).
  cbn [fst snd].
  destruct nc, cc, cn; cbn [andb fst snd app];
    repeat match goal with
           | |- context [fault E ?p ?n] =>
               match p with
               | PCommit =>
                   rewrite (proj1 (proj2 (Hok n)))
               | PCloseCursor =>
                   rewrite (proj1 (proj2 (proj2 (Hok n))))
               | PCloseConn =>
                   rewrite (proj2 (proj2 (proj2 (Hok n))))
               end; cbn [fst snd]
           end;
    reflexivity.
Qed.

(** C2, at the failing input: no connection was passed in and none can be
    opened.  The handler calls [rollback] on [None]; its [AttributeError]
    replaces the error of the acquisition, which is neither logged by the
    handler nor re-raised; the cleanup then calls [commit] on [None]. *)
Theorem rollback_without_connection :
  let run needs_commit :=
    perform_atomic_db_operation unreachable me "UPDATE t SET x = 1" VNone
      false true true None None needs_commit [] in
  fst (create_cursor unreachable me 3 5 []) = Raise unreachable_error /\
  fst (run true)
  = Raise (mk_exn AttributeError "'NoneType' object has no attribute 'commit'")
  /\
  fst (run false)
  = Raise (mk_exn AttributeError
             "'NoneType' object has no attribute 'rollback'") /\
  ncalls PRollback (snd (run true)) = 0 /\
  ~ In (EvLogError
          ("Error in atomic operation: " ++ str_of unreachable_error))
       (snd (run true)).
Proof.
  vm_compute. repeat split.
  intros H. repeat (destruct H as [H|H]; [discriminate H|]). exact H.
Qed.

End Transactional.

(** ** The statement dispatch of both executors *)

Module Dispatch.
Import Bytes Py Eff AzSql Spec Samples.
Import HistoryFacts AcquireFacts LeavesFacts ExecFacts.
Local Open Scope string_scope.

(** C8 (amended).  In both executors the first driver call on the session
    is decided by [data_values]: a non-empty list whose items all are
    tuples goes to [executemany] with the query and the list; any other
    truthy value goes to [execute] with the query and the value; [None],
    an empty list or an empty tuple go to [execute] with the query
    alone. *)
Theorem dispatch_on_data_values (E : env) (self : AzSql) (q : string)
    (dv : pyval) (h : history) :
  (forall hr nc c k h1,
     create_cursor E self 3 5 h = (Ret (c, k), h1) ->
     exists later,
       snd (perform_db_operation E self q dv hr nc h)
       = (later ++ dispatch_event (dispatch_mode dv) k q dv :: h1)%list)
  /\
  (forall hr cc cn conn cursor nc c k,
     session_of E self conn cursor h = Some (c, k) ->
     exists later acq,
       snd (perform_atomic_db_operation E self q dv hr cc cn conn cursor nc h)
       = (later ++ dispatch_event (dispatch_mode dv) k q dv :: acq ++ h)%list
       /\ Forall acquisition_event acq).
Proof.
  split.
  - intros hr nc c k h1 Hacq.
    destruct (db_try_locals E self q dv hr nc h)
      as [(e & h0 & Hraise & _)
         |(c' & k' & h1' & r & h2 & Hret & Htry & later & -> & _)].
    { rewrite Hacq in Hraise. discriminate. }
    rewrite Hacq in Hret. inversion Hret; subst c' k' h1'.
    unfold perform_db_operation. rewrite Htry.
    destruct (except_finally_grows
                {| l_conn := Bound (Some c); l_cursor := Bound (Some k) |} r
                (later ++ dispatch_event (dispatch_mode dv) k q dv :: h1)%list
                perform_db_operation_except (perform_db_operation_finally E))
      as (new & Heq).
    + apply leaves_db_except.
    + intros l. apply (leaves_weaken (P := close_event)); [easy|].
      apply leaves_db_finally.
    + exists (new ++ later)%list. rewrite Heq, app_assoc. reflexivity.
  - intros hr cc cn conn cursor nc c k Hses.
    destruct (atomic_try_locals E self q dv hr cc cn conn cursor h Hses)
      as (r & later & acq & Htry & Hacq).
    unfold perform_atomic_db_operation. rewrite Htry.
    destruct (except_finally_grows
                {| l_conn := Bound (Some c); l_cursor := Bound (Some k) |} r
                (later ++ dispatch_event (dispatch_mode dv) k q dv
                 :: acq ++ h)%list
                (perform_atomic_db_operation_except E)
                (perform_atomic_db_operation_finally E cc cn nc))
      as (new & Heq).
    + apply leaves_atomic_except.
    + intros l.
      apply (leaves_weaken
               (P := fun e => cc = false -> cn = false -> ~ close_event e));
        [easy|].
      apply leaves_atomic_finally.
    + exists (new ++ later)%list, acq. split; [|exact Hacq].
      etransitivity; [exact Heq|]. now rewrite app_assoc.
Qed.

Lemma dispatch_on_data_values_witness :
  In (EvExecuteMany 0 "INSERT INTO t VALUES (?, ?)" rows_as_list)
     (snd (perform_db_operation calm me "INSERT INTO t VALUES (?, ?)"
             rows_as_list false false []))
  /\
  In (EvExecuteMany 7 "INSERT INTO t VALUES (?, ?)" rows_as_list)
     (snd (perform_atomic_db_operation calm me "INSERT INTO t VALUES (?, ?)"
             rows_as_list false true true (Some 3) (Some 7) true [])).
Proof.
  destruct (dispatch_on_data_values calm me "INSERT INTO t VALUES (?, ?)"
              rows_as_list []) as (Hdb & Hatomic).
  split.
  - destruct (Hdb false false 0 0 _ eq_refl) as (later & Heq).
    rewrite Heq. apply in_or_app. right. left. reflexivity.
  - destruct (Hatomic false true true (Some 3) (Some 7) true 3 7 eq_refl)
      as (later & acq & Heq & _).
    rewrite Heq. apply in_or_app. right. left. reflexivity.
Defined.

(** C8 as stated fails: a tuple of parameter tuples is a sequence of
    parameter tuples, and both executors pass it to [execute] as the
    parameters of a single row; [executemany] is not called. *)
Lemma tuple_of_tuples_not_batched :
  claimed_mode rows_as_tuple = Batched /\
  (let h' :=
     snd (perform_db_operation calm me "INSERT INTO t VALUES (?, ?)"
            rows_as_tuple false false []) in
   In (EvExecute 0 "INSERT INTO t VALUES (?, ?)" (Some rows_as_tuple)) h' /\
   ncalls PExecuteMany h' = 0)
  /\
  (let h' :=
     snd (perform_atomic_db_operation calm me "INSERT INTO t VALUES (?, ?)"
            rows_as_tuple false true true None None true []) in
   In (EvExecute 0 "INSERT INTO t VALUES (?, ?)" (Some rows_as_tuple)) h' /\
   ncalls PExecuteMany h' = 0).
Proof.
  vm_compute. repeat split; auto 10.
Qed.

End Dispatch.

(** ** Facts about the import *)

Module StartupFacts.
Import Py Eff Startup.
Local Open Scope string_scope.

Lemma first_fault_some (inst : installation) (l : list statement) (e : exn) :
  first_fault inst l = Some e <-> first_failing inst l e.
Proof.
  unfold first_failing. induction l as [|s l IH]; cbn [first_fault].
  - split; [discriminate|].
    intros (before & s & after & Heq & _). destruct before; discriminate Heq.
  - destruct (inst s) as [e'|] eqn:Hs.
    + split.
      * intros H. inversion H; subst e'.
        exists [], s, l. repeat split; [exact Hs|constructor].
      * intros (before & s' & after & Heq & Hs' & Hbefore).
        destruct before as [|b before]; inversion Heq; subst.
        -- congruence.
        -- inversion Hbefore; congruence.
    + rewrite IH. split.
      * intros (before & s' & after & -> & Hs' & Hbefore).
        exists (s :: before), s', after.
        repeat split; [exact Hs'|now constructor].
      * intros (before & s' & after & Heq & Hs' & Hbefore).
        destruct before as [|b before]; inversion Heq; subst.
        -- congruence.
        -- inversion Hbefore; subst. now exists before, s', after.
Qed.

Lemma first_fault_none (inst : installation) (l : list statement) :
  first_fault inst l = None <-> all_run inst l.
Proof.
  unfold all_run. induction l as [|s l IH]; cbn [first_fault].
  - split; [constructor|reflexivity].
  - destruct (inst s) as [e|] eqn:Hs.
    + split; [discriminate|]. intros H. inversion H; congruence.
    + rewrite IH. split.
      * intros H. now constructor.
      * intros H. now inversion H.
Qed.

Lemma first_unset_some (environ : list (string * string))
    (keys : list string) (key : string) :
  first_unset environ keys = Some key <->
  exists before after,
    keys = (before ++ key :: after)%list /\
    dict_get environ key = None /\
    Forall (fun k => dict_get environ k <> None) before.
Proof.
  induction keys as [|k keys IH]; cbn [first_unset].
  - split; [discriminate|].
    intros (before & after & Heq & _). destruct before; discriminate Heq.
  - destruct (dict_get environ k) as [v|] eqn:Hk.
    + rewrite IH. split.
      * intros (before & after & -> & Hkey & Hbefore).
        exists (k :: before), after.
        repeat split; [exact Hkey|]. constructor; [congruence|exact Hbefore].
      * intros (before & after & Heq & Hkey & Hbefore).
        destruct before as [|b before]; inversion Heq; subst.
        -- congruence.
        -- inversion Hbefore; subst. now exists before, after.
    + split.
      * intros H. inversion H; subst k.
        exists [], keys. repeat split; [exact Hk|constructor].
      * intros (before & after & Heq & Hkey & Hbefore).
        destruct before as [|b before]; inversion Heq; subst.
        -- reflexivity.
        -- inversion Hbefore; congruence.
Qed.

Lemma first_unset_none (environ : list (string * string))
    (keys : list string) :
  first_unset environ keys = None <->
  Forall (fun k => dict_get environ k <> None) keys.
Proof.
  induction keys as [|k keys IH]; cbn [first_unset].
  - split; [constructor|reflexivity].
  - destruct (dict_get environ k) as [v|] eqn:Hk.
    + rewrite IH. split.
      * intros H. constructor; [congruence|exact H].
      * intros H. now inversion H.
    + split; [discriminate|]. intros H. inversion H; congruence.
Qed.

(** What a successful import has run and read. *)
Lemma import_returns (inst : installation) (environ : list (string * string))
    (g : globals) :
  import_module inst environ = Ret g ->
  (forall s, inst s = None) /\
  dict_get environ "SERVER" = Some (SERVER g) /\
  dict_get environ "DATABASE" = Some (DATABASE g) /\
  dict_get environ "TENANT_ID" = Some (TENANT_ID g) /\
  dict_get environ "NEXAIR_APP_CLIENT_ID" = Some (CLIENT_ID g) /\
  dict_get environ "NEXAIR_APP_CLIENT_SECRET" = Some (CLIENT_CREDENTIAL g).
Proof.
  unfold import_module, and_then, run, environ_getitem.
  destruct (inst ImportMsal) eqn:?; [discriminate|].
  destruct (inst ImportOs) eqn:?; [discriminate|].
  destruct (inst ImportPyodbc) eqn:?; [discriminate|].
  destruct (inst ImportStruct) eqn:?; [discriminate|].
  destruct (inst ImportTime) eqn:?; [discriminate|].
  destruct (inst ImportLogging) eqn:?; [discriminate|].
  destruct (inst ImportPandas) eqn:?; [discriminate|].
  destruct (dict_get environ "SERVER"); [|discriminate].
  destruct (dict_get environ "DATABASE"); [|discriminate].
  destruct (dict_get environ "TENANT_ID"); [|discriminate].
  destruct (dict_get environ "NEXAIR_APP_CLIENT_ID"); [|discriminate].
  destruct (dict_get environ "NEXAIR_APP_CLIENT_SECRET"); [|discriminate].
  destruct (inst BasicConfig) eqn:?; [discriminate|].
  destruct (inst GetLogger) eqn:?; [discriminate|].
  destruct (inst ClassAzSql) eqn:?; [discriminate|].
  intros H. inversion H. split; [intros []; assumption|repeat split].
Qed.

Ltac outcome_leaf :=
  split;
  [ let H := fresh "H" in
    intros H; inversion H; subst; clear H;
    first [ left; reflexivity
          | right; left; split; [reflexivity|]; eexists; split; reflexivity
          | right; right; split; [reflexivity|]; split; reflexivity ]
  | let H := fresh "H" in
    let H1 := fresh "H" in
    let H2 := fresh "H" in
    let H3 := fresh "H" in
    let key := fresh "key" in
    intros [H|[(H1 & key & H2 & H3)|(H1 & H2 & H3)]];
    try discriminate;
    try (inversion H; reflexivity);
    try (inversion H2; subst; reflexivity);
    try (inversion H3; reflexivity) ].

(** The import raises the exception of the first statement that fails, in
    the order of the source. *)
Lemma import_raises (inst : installation) (environ : list (string * string))
    (e : exn) :
  import_module inst environ = Raise e <->
  first_fault inst imports = Some e \/
  (first_fault inst imports = None /\
   exists key,
     first_unset environ required = Some key /\
     e = mk_exn KeyError ("'" ++ key ++ "'")) \/
  (first_fault inst imports = None /\
   first_unset environ required = None /\
   first_fault inst setup = Some e).
Proof.
  unfold import_module, and_then, run, environ_getitem, imports, required,
    setup.
  cbn [first_fault first_unset].
  destruct (inst ImportMsal); [outcome_leaf|].
  destruct (inst ImportOs); [outcome_leaf|].
  destruct (inst ImportPyodbc); [outcome_leaf|].
  destruct (inst ImportStruct); [outcome_leaf|].
  destruct (inst ImportTime); [outcome_leaf|].
  destruct (inst ImportLogging); [outcome_leaf|].
  destruct (inst ImportPandas); [outcome_leaf|].
  destruct (dict_get environ "SERVER"); [|outcome_leaf].
  destruct (dict_get environ "DATABASE"); [|outcome_leaf].
  destruct (dict_get environ "TENANT_ID"); [|outcome_leaf].
  destruct (dict_get environ "NEXAIR_APP_CLIENT_ID"); [|outcome_leaf].
  destruct (dict_get environ "NEXAIR_APP_CLIENT_SECRET"); [|outcome_leaf].
  destruct (inst BasicConfig); [outcome_leaf|].
  destruct (inst GetLogger); [outcome_leaf|].
  destruct (inst ClassAzSql); outcome_leaf.
Qed.

End StartupFacts.

(** ** Beyond the claims: the import and the constructor *)

Module StartupProps.
Import Py Eff Startup MoreSamples StartupFacts.
Local Open Scope string_scope.

(** X1.  The import succeeds exactly when none of its statements that
    depend on the installation raises (the seven imports, the logging
    setup, the class statement) and the five variables are set; the
    globals then hold their values: the client id and the credential come
    from NEXAIR_APP_CLIENT_ID and NEXAIR_APP_CLIENT_SECRET. *)
Theorem import_succeeds_iff (inst : installation)
    (environ : list (string * string)) (g : globals) :
  import_module inst environ = Ret g <->
  (forall s, inst s = None) /\
  dict_get environ "SERVER" = Some (SERVER g) /\
  dict_get environ "DATABASE" = Some (DATABASE g) /\
  dict_get environ "TENANT_ID" = Some (TENANT_ID g) /\
  dict_get environ "NEXAIR_APP_CLIENT_ID" = Some (CLIENT_ID g) /\
  dict_get environ "NEXAIR_APP_CLIENT_SECRET" = Some (CLIENT_CREDENTIAL g).
Proof.
  split; [apply import_returns|].
  intros (Hall & H1 & H2 & H3 & H4 & H5).
  unfold import_module, and_then, run, environ_getitem.
  rewrite !Hall, H1, H2, H3, H4, H5. destruct g. reflexivity.
Qed.

Lemma import_succeeds_iff_witness :
  import_module installed full_environ
  = Ret {| SERVER := "srv.database.windows.net";
           DATABASE := "sales";
           TENANT_ID := "t-1";
           CLIENT_ID := "app-1";
           CLIENT_CREDENTIAL := "s3" |}
  /\
  forall g, import_module without_odbc full_environ <> Ret g.
Proof.
  split.
  - apply import_succeeds_iff. repeat split.
  - intros g H. apply import_succeeds_iff in H. destruct H as (Hall & _).
    discriminate (Hall ImportPyodbc).
Defined.

(** X2.  The import raises the exception of the first statement that
    fails, in the order of the source.  A failing import statement comes
    first, whatever the environment holds.  When the seven imports run,
    the import raises a [KeyError] exactly when a variable is missing, and
    the error names the first missing one in the order SERVER, DATABASE,
    TENANT_ID, NEXAIR_APP_CLIENT_ID, NEXAIR_APP_CLIENT_SECRET.  When the
    five are set as well, only the logging setup or the class statement
    can still fail. *)
Theorem import_fails_on_first_missing (inst : installation)
    (environ : list (string * string)) (e : exn) :
  import_module inst environ = Raise e <->
  first_failing inst imports e \/
  (all_run inst imports /\
   exists key,
     first_missing environ key /\ e = mk_exn KeyError ("'" ++ key ++ "'")) \/
  (all_run inst imports /\ all_set environ /\ first_failing inst setup e).
Proof.
  unfold first_missing, all_set.
  split.
  - intros H. apply import_raises in H.
    destruct H as [H|[(H1 & key & H2 & ->)|(H1 & H2 & H3)]].
    + left. now apply first_fault_some.
    + right. left. split; [now apply first_fault_none|].
      exists key. split; [now apply first_unset_some|reflexivity].
    + right. right. split; [now apply first_fault_none|].
      split; [now apply first_unset_none|now apply first_fault_some].
  - intros H. apply import_raises.
    destruct H as [H|[(H1 & key & H2 & ->)|(H1 & H2 & H3)]].
    + left. now apply first_fault_some.
    + right. left. split; [now apply first_fault_none|].
      exists key. split; [now apply first_unset_some|reflexivity].
    + right. right. split; [now apply first_fault_none|].
      split; [now apply first_unset_none|now apply first_fault_some].
Qed.

Lemma import_fails_on_first_missing_witness :
  import_module installed partial_environ
  = Raise (mk_exn KeyError "'TENANT_ID'")
  /\
  import_module without_odbc partial_environ = Raise no_libodbc.
Proof.
  split.
  - apply import_fails_on_first_missing. right. left.
    split; [repeat constructor|].
    exists "TENANT_ID". split; [|reflexivity].
    exists ["SERVER"; "DATABASE"],
      ["NEXAIR_APP_CLIENT_ID"; "NEXAIR_APP_CLIENT_SECRET"].
    split; [reflexivity|]. split; [reflexivity|].
    repeat constructor; discriminate.
  - apply import_fails_on_first_missing. left.
    exists [ImportMsal; ImportOs], ImportPyodbc,
      [ImportStruct; ImportTime; ImportLogging; ImportPandas].
    split; [reflexivity|]. split; [reflexivity|]. repeat constructor.
Defined.

End StartupProps.

(** ** Beyond the claims: the token configuration *)

Module ConfigProps.
Import Bytes Py Eff AzSql Spec Samples MoreSamples Decode.
Import BytesFacts ConfigFacts.
Local Open Scope string_scope.

Lemma every_other_exptoken (l : list byte) : every_other (exptoken_of l) = l.
Proof.
  unfold exptoken_of.
  induction l as [|b l IH]; [reflexivity|].
  simpl. f_equal. exact IH.
Qed.

(** X3.  On a little-endian host, for every token that encodes to UTF-8
    bytes whose doubled number fits in 31 bits, ASCII or not, the buffer
    of [config_sql] reads back: its prefix counts the bytes that follow,
    two for each byte of the encoding, and the bytes at the even positions
    are the encoding. *)
Theorem tokenstruct_reads_back (E : env) (self : AzSql) (h : history)
    (token : pystr) (tokenb : list byte) :
  idp_issues E h token ->
  utf8_encode token = Some tokenb ->
  byteorder_of E = LittleEndian ->
  (2 * Z.of_nat (List.length tokenb) < 2 ^ 31)%Z ->
  exists buf h',
    config_sql E self h
    = (Ret (Some (connString_of self, buf, SQL_COPT_SS_ACCESS_TOKEN)), h') /\
    List.length buf = 4 + 2 * List.length tokenb /\
    decode_tokenstruct buf = Some tokenb.
Proof.
  intros Hidp Henc Hbo Hlen.
  rewrite (config_sql_run self Hidp), Henc, Hbo, exptoken_length.
  rewrite struct_pack_i_little by lia.
  eexists _, _. split; [reflexivity|].
  split.
  - rewrite length_app, exptoken_length. reflexivity.
  - unfold decode_tokenstruct.
    change (skipn 4 (le_bytes32 (Z.of_nat (2 * List.length tokenb))
                     ++ exptoken_of tokenb)%list)
      with (exptoken_of tokenb).
    change (firstn 4 (le_bytes32 (Z.of_nat (2 * List.length tokenb))
                      ++ exptoken_of tokenb)%list)
      with (le_bytes32 (Z.of_nat (2 * List.length tokenb))).
    rewrite le_decode_le_bytes32 by lia.
    rewrite exptoken_length, Z.eqb_refl, every_other_exptoken. reflexivity.
Qed.

Lemma tokenstruct_reads_back_witness :
  exists h',
    config_sql accented me []
    = (Ret (Some (connString_of me,
                  [x04; x00; x00; x00; xc3; x00; xa9; x00],
                  SQL_COPT_SS_ACCESS_TOKEN)), h') /\
    decode_tokenstruct [x04; x00; x00; x00; xc3; x00; xa9; x00]
    = Some [xc3; xa9].
Proof.
  assert (Hidp : idp_issues accented [] token_e_acute) by (repeat split).
  destruct (@tokenstruct_reads_back accented me [] token_e_acute [xc3; xa9]
              Hidp eq_refl eq_refl eq_refl)
    as (buf & h' & Hrun & _ & Hdec).
  assert (Hbuf : buf = [x04; x00; x00; x00; xc3; x00; xa9; x00]).
  { vm_compute in Hrun. now inversion Hrun. }
  subst buf. exists h'. split; [exact Hrun|exact Hdec].
Defined.

(** X4.  [config_sql] never raises and never connects.  It returns either
    the triple, made of the connection string of the instance, a buffer
    and the attribute key 1256, after the two calls to the identity
    provider and with nothing logged; or [None], after one error line
    that starts with the fixed prefix. *)
Theorem config_sql_never_raises (E : env) (self : AzSql) (h : history) :
  exists r h',
    config_sql E self h = (Ret r, h') /\
    ncalls PConnect h' = ncalls PConnect h /\
    match r with
    | Some (cs, ts, key) =>
        cs = connString_of self /\ key = 1256%Z /\ h' = after_idp E h
    | None =>
        exists msg h'',
          h' = EvLogError ("Error configuring SQL connection: " ++ msg) :: h''
    end.
Proof.
  unfold config_sql, try_except, bind, ConfidentialClientApplication,
    acquire_token_for_client, call, logger_error, emit, ret.
  destruct (fault E PMsalApp _) as [e|].
  { eexists None, _. split; [reflexivity|]. split; [reflexivity|].
    eexists _, _. reflexivity. }
  cbn [ncalls is_call].
  destruct (fault E PToken _) as [e|].
  { eexists None, _. split; [reflexivity|]. split; [reflexivity|].
    eexists _, _. reflexivity. }
  unfold getitem, bytes_utf8, struct_pack, ret, raise.
  destruct (dict_get _ _) as [token|].
  2:{ eexists None, _. split; [reflexivity|]. split; [reflexivity|].
      eexists _, _. reflexivity. }
  destruct (utf8_encode token) as [tokenb|].
  2:{ eexists None, _. split; [reflexivity|]. split; [reflexivity|].
      eexists _, _. reflexivity. }
  destruct (struct_pack_i _ _) as [header|].
  2:{ eexists None, _. split; [reflexivity|]. split; [reflexivity|].
      eexists _, _. reflexivity. }
  eexists (Some _), _. split; [reflexivity|]. split; [reflexivity|].
  repeat split.
Qed.

Lemma string_append_assoc (a b c : string) : (a ++ b) ++ c = a ++ (b ++ c).
Proof.
  induction a as [|x a IH]; [reflexivity|]. cbn [append]. now rewrite IH.
Qed.

(** What [config_sql] did when it returned its triple. *)
Lemma config_sql_some (E : env) (self : AzSql) (h h1 : history)
    (cs : string) (ts : list byte) (key : Z) :
  config_sql E self h = (Ret (Some (cs, ts, key)), h1) ->
  cs = connString_of self /\ key = SQL_COPT_SS_ACCESS_TOKEN /\
  h1 = after_idp E h.
Proof.
  unfold config_sql, try_except, bind, ConfidentialClientApplication,
    acquire_token_for_client, call, getitem, bytes_utf8, struct_pack,
    logger_error, emit, ret, raise.
  repeat match goal with
         | |- context [match ?x with _ => _ end] =>
             match type of x with
             | option _ => destruct x
             end
         end; intros H; inversion H; auto.
Qed.

(** X23.  From the environment of the process to the calls.  After an
    import that succeeded, an instance built without arguments, and a
    token configuration that returned its triple: the connection string
    names the driver, the SERVER and the DATABASE of the environment and
    ENCRYPT=NO, in that order and without any escaping; and the client
    application was built with NEXAIR_APP_CLIENT_ID, the authority of
    TENANT_ID and NEXAIR_APP_CLIENT_SECRET before the one token request
    for the database scope. *)
Theorem environment_reaches_the_calls (inst : Startup.installation)
    (environ : list (string * string))
    (g : Startup.globals) (E : env) (h h1 : history) (cs : string)
    (ts : list byte) (key : Z) :
  Startup.import_module inst environ = Ret g ->
  Startup.configured g E ->
  config_sql E (Startup.__init__ g None None) h
  = (Ret (Some (cs, ts, key)), h1) ->
  exists srv db tenant client secret,
    dict_get environ "SERVER" = Some srv /\
    dict_get environ "DATABASE" = Some db /\
    dict_get environ "TENANT_ID" = Some tenant /\
    dict_get environ "NEXAIR_APP_CLIENT_ID" = Some client /\
    dict_get environ "NEXAIR_APP_CLIENT_SECRET" = Some secret /\
    cs = "DRIVER={ODBC Driver 18 for SQL Server};SERVER=" ++ srv
         ++ ";DATABASE=" ++ db ++ ";ENCRYPT=NO" /\
    h1 = EvAcquireToken ["https://database.windows.net//.default"]
         :: EvMsalApp client ("https://login.microsoftonline.com/" ++ tenant)
              secret
         :: h.
Proof.
  intros Himport (Hid & Hten & Hsec) Hcfg.
  apply config_sql_some in Hcfg. destruct Hcfg as (-> & _ & ->).
  apply StartupFacts.import_returns in Himport.
  destruct Himport as (_ & Hsrv & Hdb & Htenant & Hclient & Hsecret).
  exists (Startup.SERVER g), (Startup.DATABASE g), (Startup.TENANT_ID g),
    (Startup.CLIENT_ID g), (Startup.CLIENT_CREDENTIAL g).
  repeat (split; [assumption|]).
  unfold after_idp, connString_of, Startup.__init__.
  cbn [server database].
  rewrite Hid, Hten, Hsec.
  split; [|reflexivity].
  cbn [append]. rewrite !string_append_assoc. reflexivity.
Qed.

Lemma environment_reaches_the_calls_witness :
  exists ts h1,
    config_sql deployed
      (Startup.__init__
         {| Startup.SERVER := "srv.database.windows.net";
            Startup.DATABASE := "sales";
            Startup.TENANT_ID := "t-1";
            Startup.CLIENT_ID := "app-1";
            Startup.CLIENT_CREDENTIAL := "s3" |} None None) []
    = (Ret (Some
              ("DRIVER={ODBC Driver 18 for SQL Server};SERVER=srv.database.windows.net;DATABASE=sales;ENCRYPT=NO",
               ts, SQL_COPT_SS_ACCESS_TOKEN)), h1).
Proof.
  assert (Hrun : exists cs ts key h1,
             config_sql deployed
               (Startup.__init__
                  {| Startup.SERVER := "srv.database.windows.net";
                     Startup.DATABASE := "sales";
                     Startup.TENANT_ID := "t-1";
                     Startup.CLIENT_ID := "app-1";
                     Startup.CLIENT_CREDENTIAL := "s3" |} None None) []
             = (Ret (Some (cs, ts, key)), h1))
    by (vm_compute; eexists _, _, _, _; reflexivity).
  destruct Hrun as (cs & ts & key & h1 & Hrun).
  assert (Himport : Startup.import_module installed full_environ
                    = Ret {| Startup.SERVER := "srv.database.windows.net";
                             Startup.DATABASE := "sales";
                             Startup.TENANT_ID := "t-1";
                             Startup.CLIENT_ID := "app-1";
                             Startup.CLIENT_CREDENTIAL := "s3" |})
    by reflexivity.
  assert (Hconf : Startup.configured
                    {| Startup.SERVER := "srv.database.windows.net";
                       Startup.DATABASE := "sales";
                       Startup.TENANT_ID := "t-1";
                       Startup.CLIENT_ID := "app-1";
                       Startup.CLIENT_CREDENTIAL := "s3" |} deployed)
    by (repeat split).
  destruct (@environment_reaches_the_calls _ _ _ _ _ _ _ _ _ Himport Hconf
              Hrun)
    as (srv & db & tenant & client & secret & Hs & Hd & _ & _ & _ & Hcs & _).
  injection Hs as <-. injection Hd as <-.
  destruct (@config_sql_some _ _ _ _ _ _ _ Hrun) as (_ & -> & _).
  exists ts, h1. rewrite Hrun, Hcs. reflexivity.
Defined.

(** X5.  When the identity provider answers with a document that has no
    access_token, as msal does when the request is refused, [config_sql]
    logs the [KeyError] and returns [None], and [create_cursor] raises the
    [TypeError] of the unpacking without any connection attempt. *)
Theorem refused_token_request (E : env) (self : AzSql) (h : history) :
  fault E PMsalApp (ncalls PMsalApp h) = None ->
  fault E PToken (ncalls PToken h) = None ->
  dict_get (token_response E (ncalls PToken h)) "access_token" = None ->
  let h' :=
    EvLogError "Error configuring SQL connection: 'access_token'"
    :: after_idp E h in
  config_sql E self h = (Ret None, h') /\
  ncalls PConnect h' = ncalls PConnect h /\
  forall max_retries delay,
    create_cursor E self max_retries delay h
    = (Raise (mk_exn TypeError "cannot unpack non-iterable NoneType object"),
       h').
Proof.
  intros Happ Htok Hget. cbv zeta.
  assert (Hrun : config_sql E self h
                 = (Ret None,
                    EvLogError
                      "Error configuring SQL connection: 'access_token'"
                    :: after_idp E h)).
  { unfold config_sql, try_except, bind, ConfidentialClientApplication,
      acquire_token_for_client, call.
    rewrite Happ. cbn [ncalls is_call]. rewrite Htok.
    unfold getitem. rewrite Hget. reflexivity. }
  split; [exact Hrun|]. split; [reflexivity|].
  intros max_retries delay.
  unfold create_cursor, bind. rewrite Hrun. reflexivity.
Qed.

Lemma refused_token_request_witness :
  fst (create_cursor refused me 3 5 [])
  = Raise (mk_exn TypeError "cannot unpack non-iterable NoneType object") /\
  ncalls PConnect (snd (create_cursor refused me 3 5 [])) = 0.
Proof.
  destruct (@refused_token_request refused me [] eq_refl eq_refl eq_refl)
    as (_ & Hconn & Hrun).
  rewrite (Hrun 3%Z 5%Z). split; [reflexivity|exact Hconn].
Defined.

End ConfigProps.

(** ** Beyond the claims: the retry loop in every environment *)

Module AcquireProps.
Import Bytes Py Eff AzSql Spec Samples MoreSamples.
Import HistoryFacts ConfigFacts AcquireFacts LeavesFacts ExecFacts.
Local Open Scope string_scope.

Ltac sleeps_are d :=
  repeat (apply Forall_cons;
          [cbn [is_sleep];
           first [intros _; reflexivity | intros H; discriminate H]|]);
  try apply Forall_nil.

(** Whatever the environment does, [n] iterations make at most [n]
    connection attempts, sleep at most once per attempt and only for
    [d] seconds, and ask for at most one cursor per attempt. *)
Lemma attempts_bounded (E : env) cs attrs (d : Z) (n : nat) :
  forall (a : Z) (h : history),
  exists loop,
    snd (attempts E cs attrs d n a h) = (loop ++ h)%list /\
    ncalls PConnect loop <= n /\
    nsleeps loop <= ncalls PConnect loop /\
    ncalls PCursor loop <= ncalls PConnect loop /\
    Forall (fun e => is_sleep e = true -> e = EvSleep d) loop.
Proof.
  induction n as [|n IH]; intros a h.
  - exists [EvLogError "Maximum retry attempts reached"].
    split; [reflexivity|]. cbn. repeat split; try lia. sleeps_are d.
  - cbn [attempts].
    unfold try_except, bind, pyodbc_connect, conn_cursor, call,
      logger_warning, logger_error, time_sleep, emit, raise, ret.
    destruct (fault E PConnect _) as [e|];
      [|destruct (fault E PCursor _) as [e|]];
      try (destruct (is_operational e);
           [destruct (is_login_timeout e);
            [destruct (sleep_overflows d); [|destruct (d <? 0)%Z]|]|]);
      cbn [snd];
      try (match goal with
           | |- context [attempts E cs attrs d n ?a' ?h'] =>
               destruct (IH a' h') as (loop & Heq & Hc & Hs & Hk & HF);
               rewrite Heq;
               match h' with
               | (?e1 :: ?e2 :: ?e3 :: ?e4 :: h) =>
                   exists (loop ++ [e1; e2; e3; e4])%list
               | (?e1 :: ?e2 :: ?e3 :: h) =>
                   exists (loop ++ [e1; e2; e3])%list
               end;
               rewrite <- app_assoc;
               split; [reflexivity|];
               rewrite !ncalls_app, nsleeps_app;
               cbn [ncalls nsleeps is_call is_sleep];
               repeat split; try lia;
               apply Forall_app; split; [exact HF|sleeps_are d]
           end);
      try (match goal with
           | |- exists loop, (?e1 :: ?e2 :: ?e3 :: h) = _ /\ _ =>
               exists [e1; e2; e3]
           | |- exists loop, (?e1 :: ?e2 :: h) = _ /\ _ =>
               exists [e1; e2]
           | |- exists loop, (?e1 :: h) = _ /\ _ =>
               exists [e1]
           end;
           split; [reflexivity|];
           cbn [ncalls nsleeps is_call is_sleep];
           repeat split; try lia; sleeps_are d).
Qed.

(** X6.  In every environment one call of [create_cursor] makes at most
    [max_retries] connection attempts and at most one token request; it
    sleeps at most once per attempt, only for [delay] seconds, and asks
    for at most one cursor per attempt. *)
Theorem create_cursor_bounded (E : env) (self : AzSql)
    (max_retries delay : Z) (h : history) :
  exists new,
    snd (create_cursor E self max_retries delay h) = (new ++ h)%list /\
    ncalls PConnect new <= Z.to_nat max_retries /\
    ncalls PToken new <= 1 /\
    nsleeps new <= ncalls PConnect new /\
    ncalls PCursor new <= ncalls PConnect new /\
    forall s, In (EvSleep s) new -> s = delay.
Proof.
  rewrite create_cursor_unfold.
  destruct (config_sql_events E self h) as (r & cfg & Hrun & Hcfg & Htok).
  rewrite Hrun.
  assert (Hzero : ncalls PConnect cfg = 0 /\ ncalls PCursor cfg = 0 /\
                  nsleeps cfg = 0 /\
                  Forall (fun e => is_sleep e = true -> e = EvSleep delay)
                    cfg).
  { clear Hrun Htok. induction Hcfg as [|e cfg He _ IH].
    - repeat split; constructor.
    - destruct IH as (H1 & H2 & H3 & H4).
      destruct e; destruct He; cbn [ncalls nsleeps is_call is_sleep];
        repeat split; try assumption;
        (constructor; [intros H; discriminate H|assumption]). }
  destruct Hzero as (Hc0 & Hk0 & Hs0 & HF0).
  destruct r as [[[cs ts] key]|].
  - destruct (attempts_bounded E cs [(key, ts)] delay (Z.to_nat max_retries)
                0 (cfg ++ h)%list) as (loop & Heq & Hc & Hs & Hk & HF).
    exists (loop ++ cfg)%list. rewrite Heq, app_assoc.
    split; [reflexivity|].
    rewrite !ncalls_app, nsleeps_app, Hc0, Hk0, Hs0.
    assert (Hnotok : ncalls PToken loop = 0).
    { destruct (attempts_events E cs [(key, ts)] delay
                  (Z.to_nat max_retries) 0 (cfg ++ h)%list)
        as (loop' & Heq' & Hloop').
      rewrite Heq in Heq'. apply app_inv_tail in Heq'. subst loop'.
      apply (ncalls_none PToken (P := attempt_event cs [(key, ts)]));
        [|exact Hloop'].
      intros [] He; try reflexivity; destruct He. }
    rewrite Hnotok. repeat split; try lia.
    intros s Hin.
    assert (HFall : Forall (fun e => is_sleep e = true -> e = EvSleep delay)
                      (loop ++ cfg)%list)
      by (apply Forall_app; now split).
    rewrite Forall_forall in HFall.
    specialize (HFall _ Hin eq_refl). now inversion HFall.
  - exists cfg. cbn [snd]. split; [reflexivity|].
    rewrite Hc0, Hk0, Hs0. repeat split; try lia.
    intros s Hin. rewrite Forall_forall in HF0.
    specialize (HF0 _ Hin eq_refl). now inversion HF0.
Qed.

(** X7.  With [max_retries] zero or negative, and the token configured,
    [create_cursor] makes no connection attempt: it logs and raises the
    terminal operational error at once. *)
Theorem no_retries_no_attempt (E : env) (self : AzSql)
    (max_retries delay : Z) (h h1 : history)
    (cfg : string * list byte * Z) :
  config_sql E self h = (Ret (Some cfg), h1) ->
  (max_retries <= 0)%Z ->
  create_cursor E self max_retries delay h
  = (Raise retries_exhausted,
     EvLogError "Maximum retry attempts reached" :: h1).
Proof.
  intros Hcfg Hm. rewrite create_cursor_unfold, Hcfg.
  destruct cfg as [[cs ts] key].
  replace (Z.to_nat max_retries) with 0 by lia. reflexivity.
Qed.

Lemma no_retries_no_attempt_witness :
  fst (create_cursor calm me 0 5 []) = Raise retries_exhausted /\
  ncalls PConnect (snd (create_cursor calm me 0 5 [])) = 0.
Proof.
  assert (Hm : (0 <= 0)%Z) by lia.
  rewrite (@no_retries_no_attempt calm me 0 5 [] _ _ eq_refl Hm).
  split; reflexivity.
Defined.




(** Where the loop returns, it returns the connection of its last
    attempt and the cursor made on it. *)
Lemma attempts_return (E : env) cs attrs (d : Z) (n : nat) :
  forall (a : Z) (h h' : history) (c k : nat),
    attempts E cs attrs d n a h = (Ret (c, k), h') ->
    fault E PConnect c = None /\ fault E PCursor k = None /\
    exists rest,
      h' = EvCursor c k :: EvConnect c cs attrs :: rest /\
      c = ncalls PConnect rest /\ k = ncalls PCursor rest.
Proof.
  induction n as [|n IH]; intros a h h' c k.
  - cbn. discriminate.
  - cbn [attempts].
    unfold try_except, bind, pyodbc_connect, conn_cursor, call,
      logger_warning, logger_error, time_sleep, emit, raise, ret.
    destruct (fault E PConnect (ncalls PConnect h)) as [e|] eqn:Hc;
      [|cbn [ncalls is_call];
        destruct (fault E PCursor (ncalls PCursor h)) as [e|] eqn:Hk];
      try (destruct (is_operational e);
           [destruct (is_login_timeout e);
            [destruct (sleep_overflows d); [|destruct (d <? 0)%Z]|]|]);
      try discriminate;
      try (intros H; apply IH in H; exact H).
    intros H. inversion H; subst.
    split; [exact Hc|]. split; [exact Hk|].
    eexists. split; [reflexivity|]. split; reflexivity.
Qed.

(** X9.  Whenever [create_cursor] returns, in any environment, the
    connection it returns is the one of its last attempt, that attempt
    and the cursor request succeeded, and the cursor request on that
    connection is the last event: nothing was executed, committed or
    closed on the session. *)
Theorem create_cursor_returns_fresh_session (E : env) (self : AzSql)
    (max_retries delay : Z) (h h' : history) (c k : nat) :
  create_cursor E self max_retries delay h = (Ret (c, k), h') ->
  fault E PConnect c = None /\ fault E PCursor k = None /\
  exists cs attrs rest,
    h' = EvCursor c k :: EvConnect c cs attrs :: rest /\
    c = ncalls PConnect rest /\ k = ncalls PCursor rest.
Proof.
  rewrite create_cursor_unfold.
  destruct (config_sql E self h) as [[[[[cs ts] key]|]|e] h1];
    try discriminate.
  intros H. apply attempts_return in H.
  destruct H as (Hc & Hk & rest & Hh & Hcn & Hkn).
  split; [exact Hc|]. split; [exact Hk|].
  exists cs, [(key, ts)], rest. repeat split; assumption.
Qed.

Lemma create_cursor_returns_fresh_session_witness :
  exists h', create_cursor flaky me 3 5 [] = (Ret (2, 0), h') /\
             fault flaky PConnect 2 = None.
Proof.
  assert (Hrun : exists h', create_cursor flaky me 3 5 [] = (Ret (2, 0), h'))
    by (vm_compute; eexists; reflexivity).
  destruct Hrun as (h' & Hrun). exists h'. split; [exact Hrun|].
  exact (proj1 (create_cursor_returns_fresh_session _ _ _ _ _ Hrun)).
Defined.

(** X10.  In every environment, [create_cursor] executes, fetches,
    commits, rolls back and closes nothing: in particular a connection it
    opened and got no cursor for is left open. *)
Theorem create_cursor_closes_nothing (E : env) (self : AzSql)
    (max_retries delay : Z) (h : history) :
  let h' := snd (create_cursor E self max_retries delay h) in
  ncalls PCloseConn h' = ncalls PCloseConn h /\
  ncalls PCloseCursor h' = ncalls PCloseCursor h /\
  ncalls PCommit h' = ncalls PCommit h /\
  ncalls PRollback h' = ncalls PRollback h /\
  ncalls PExecute h' = ncalls PExecute h /\
  ncalls PExecuteMany h' = ncalls PExecuteMany h /\
  ncalls PFetchall h' = ncalls PFetchall h.
Proof.
  cbv zeta.
  repeat split; apply create_cursor_frame;
    intros [] He; try reflexivity; destruct He.
Qed.

End AcquireProps.

(** ** Budgets: how many events of a kind a computation can add *)

Module BudgetFacts.
Import Bytes Py Eff AzSql Spec Budget.
Import HistoryFacts AcquireFacts LeavesFacts ExecFacts.
Local Open Scope string_scope.

Lemma weight_app (f : event -> nat) (a b : list event) :
  weight f (a ++ b) = weight f a + weight f b.
Proof.
  induction a as [|e a IH]; simpl; [reflexivity|]. rewrite IH. lia.
Qed.

Lemma ncalls_weight (p : prim) (l : list event) :
  ncalls p l = weight (calls_of p) l.
Proof.
  induction l as [|e l IH]; simpl; [reflexivity|].
  unfold calls_of at 1. destruct (is_call p e); rewrite IH; reflexivity.
Qed.

Lemma weight_zero (f : event -> nat) (P : event -> Prop) (l : list event) :
  (forall e, P e -> f e = 0) -> Forall P l -> weight f l = 0.
Proof.
  intros Hf. induction 1 as [|e l He _ IH]; simpl; [reflexivity|].
  rewrite (Hf e He), IH. reflexivity.
Qed.

Section Spends.

Variable E : env.
Variable f : event -> nat.

Lemma spends_ret {A} (a : A) : spends f 0 (ret a).
Proof. intros h. exists []. split; [reflexivity|apply le_n]. Qed.

Lemma spends_raise {A} (e : exn) : spends f 0 (@raise A e).
Proof. intros h. exists []. split; [reflexivity|apply le_n]. Qed.

Lemma spends_emit (ev : event) (b : nat) : f ev <= b -> spends f b (emit ev).
Proof.
  intros Hb h. exists [ev]. split; [reflexivity|]. simpl. lia.
Qed.

Lemma spends_call {A} (p : prim) (ev : event) (answer : nat -> A) (b : nat) :
  f ev <= b -> spends f b (call E p ev answer).
Proof.
  intros Hb h. exists [ev]. unfold call.
  destruct (fault E p (ncalls p h)); (split; [reflexivity|simpl; lia]).
Qed.

Lemma spends_bind {A B} (m : M A) (k : A -> M B) (b1 b2 : nat) :
  spends f b1 m -> (forall a, spends f b2 (k a)) ->
  spends f (b1 + b2) (bind m k).
Proof.
  intros Hm Hk h. unfold bind.
  destruct (Hm h) as (new1 & H1 & F1).
  destruct (m h) as [[a|e] h1]; cbn [snd] in H1; subst h1.
  - destruct (Hk a (new1 ++ h)%list) as (new2 & H2 & F2).
    exists (new2 ++ new1)%list. rewrite H2, app_assoc, weight_app.
    split; [reflexivity|lia].
  - exists new1. split; [reflexivity|lia].
Qed.

Lemma spends_if {A} (c : bool) (m1 m2 : M A) (b1 b2 : nat) :
  spends f b1 m1 -> spends f b2 m2 ->
  spends f (Nat.max b1 b2) (if c then m1 else m2).
Proof.
  intros H1 H2 h. destruct c.
  - destruct (H1 h) as (new & Heq & Hw). exists new. split; [exact Heq|lia].
  - destruct (H2 h) as (new & Heq & Hw). exists new. split; [exact Heq|lia].
Qed.

Lemma spends_method {A} (name : string) (receiver : option nat)
    (g : nat -> M A) (b : nat) :
  (forall o, spends f b (g o)) -> spends f b (method name receiver g).
Proof.
  intros Hg. destruct receiver as [o|]; [apply Hg|].
  intros h. exists []. split; [reflexivity|simpl; lia].
Qed.

Lemma spends_weaken {A} (m : M A) (b b' : nat) :
  spends f b m -> b <= b' -> spends f b' m.
Proof.
  intros Hm Hb h. destruct (Hm h) as (new & Heq & Hw).
  exists new. split; [exact Heq|lia].
Qed.

Lemma spends_create_cursor (self : AzSql) (max_retries delay : Z) :
  (forall e, acquisition_event e -> f e = 0) ->
  spends f 0 (create_cursor E self max_retries delay).
Proof.
  intros Hf h.
  destruct (leaves_create_cursor E self max_retries delay h)
    as (new & Heq & Hnew).
  exists new. split; [exact Heq|]. rewrite (weight_zero f Hf Hnew). apply le_n.
Qed.

(** A whole function: its [try] block, its handler and its cleanup. *)
Lemma spends_function {L A} (l0 : L) (first : M L) (rest : L -> M A)
    (handler : L -> exn -> M A) (cleanup : L -> M unit)
    (b1 b2 b3 b4 : nat) :
  spends f b1 first ->
  (forall l, spends f b2 (rest l)) ->
  (forall l e, spends f b3 (handler l e)) ->
  (forall l, spends f b4 (cleanup l)) ->
  forall h,
  exists new,
    snd (except_finally (try_block l0 first rest h) handler cleanup)
    = (new ++ h)%list /\
    weight f new <= b1 + b2 + b3 + b4.
Proof.
  intros H1 H2 H3 H4 h. unfold try_block, except_finally, finally.
  destruct (H1 h) as (n1 & E1 & W1).
  destruct (first h) as [[l1|e] h1]; cbn [snd] in E1; subst h1.
  - destruct (H2 l1 (n1 ++ h)%list) as (n2 & E2 & W2).
    destruct (rest l1 (n1 ++ h)%list) as [[a|e] h2]; cbn [snd] in E2; subst h2.
    + cbn [fst snd].
      destruct (H4 l1 (n2 ++ n1 ++ h)%list) as (n4 & E4 & W4).
      exists (n4 ++ n2 ++ n1)%list.
      rewrite !weight_app, <- !app_assoc.
      split; [|lia].
      destruct (cleanup l1 (n2 ++ n1 ++ h)%list) as [[[]|e] h4]; exact E4.
    + destruct (H3 l1 e (n2 ++ n1 ++ h)%list) as (n3 & E3 & W3).
      destruct (handler l1 e (n2 ++ n1 ++ h)%list) as [r3 h3].
      cbn [fst snd] in *. subst h3.
      destruct (H4 l1 (n3 ++ n2 ++ n1 ++ h)%list) as (n4 & E4 & W4).
      exists (n4 ++ n3 ++ n2 ++ n1)%list.
      rewrite !weight_app, <- !app_assoc.
      split; [|lia].
      destruct (cleanup l1 (n3 ++ n2 ++ n1 ++ h)%list) as [[[]|e'] h4];
        exact E4.
  - destruct (H3 l0 e (n1 ++ h)%list) as (n3 & E3 & W3).
    destruct (handler l0 e (n1 ++ h)%list) as [r3 h3].
    cbn [fst snd] in *. subst h3.
    destruct (H4 l0 (n3 ++ n1 ++ h)%list) as (n4 & E4 & W4).
    exists (n4 ++ n3 ++ n1)%list.
    rewrite !weight_app, <- !app_assoc.
    split; [|lia].
    destruct (cleanup l0 (n3 ++ n1 ++ h)%list) as [[[]|e'] h4]; exact E4.
Qed.

End Spends.

(** Computing a budget along the structure of a computation. *)
Ltac spends_step :=
  first
    [ apply spends_ret
    | apply spends_raise
    | eapply spends_emit; cbn; apply le_n
    | eapply spends_call; cbn; apply le_n
    | eapply spends_method; intros ?
    | eapply spends_create_cursor;
      let e := fresh "e" in
      let He := fresh "He" in
      intros e He; destruct e; try reflexivity; destruct He
    | eapply spends_bind; [|intros ?]
    | eapply spends_if
    | match goal with
      | |- spends _ _ (match ?x with (_, _) => _ end) => destruct x
      | |- spends _ _ (match ?x with Some _ => _ | None => _ end) =>
          destruct x
      end ].

Ltac spends_tac :=
  intros;
  unfold execute_query, cursor_execute, cursor_executemany, cursor_fetchall,
    column_names_of, conn_commit, conn_rollback, cursor_close, conn_close,
    logger_error, logger_warning, print,
    perform_db_operation_except, perform_db_operation_finally,
    perform_atomic_db_operation_except, perform_atomic_db_operation_finally;
  cbv zeta; cbn [andb orb negb is_none];
  repeat spends_step.

Lemma budget_weaken (P : list event -> Prop) (f : event -> nat) (b b' : nat) :
  (exists new, P new /\ weight f new <= b) -> b <= b' ->
  exists new, P new /\ weight f new <= b'.
Proof. intros (new & HP & Hw) Hb. exists new. split; [exact HP|lia]. Qed.

(** The budget of a call of one of the two executors. *)
Ltac function_budget :=
  intros;
  unfold perform_db_operation, perform_db_operation_try,
    perform_atomic_db_operation, perform_atomic_db_operation_try;
  eapply budget_weaken;
  [eapply spends_function; spends_tac|vm_compute; lia].

Lemma weight_statements (l : list event) :
  weight statements l = ncalls PExecute l + ncalls PExecuteMany l.
Proof.
  induction l as [|e l IH]; [reflexivity|].
  cbn [weight ncalls]. rewrite IH. unfold statements, calls_of.
  destruct (is_call PExecute e), (is_call PExecuteMany e); lia.
Qed.

Lemma weight_acquisitions (l : list event) :
  weight acquisitions l
  = ncalls PMsalApp l + ncalls PToken l + ncalls PConnect l
    + ncalls PCursor l.
Proof.
  induction l as [|e l IH]; [reflexivity|].
  cbn [weight ncalls]. rewrite IH. unfold acquisitions, calls_of.
  destruct (is_call PMsalApp e), (is_call PToken e), (is_call PConnect e),
    (is_call PCursor e); lia.
Qed.

End BudgetFacts.

(** ** Beyond the claims: the single-step executor *)

Module SingleStepProps.
Import Bytes Py Eff AzSql Spec Samples MoreSamples Budget.
Import HistoryFacts AcquireFacts LeavesFacts ExecFacts BudgetFacts.
Local Open Scope string_scope.

(** X11.  The error marker is not ambiguous: whenever
    [perform_db_operation] returns, its value is a pair (Error, message)
    exactly when the [try] block raised, and then the message is the
    fixed prefix followed by the text of that exception.  A pair of rows
    and column names never has that form, whatever the rows are. *)
Theorem error_marker_iff_failure (E : env) (self : AzSql) (q : string)
    (dv : pyval) (hr nc : bool) (h h' : history) (v : pyval) :
  perform_db_operation E self q dv hr nc h = (Ret v, h') ->
  (exists msg, v = VTuple [VStr "Error"; VStr msg]) <->
  (exists e,
     snd (fst (perform_db_operation_try E self q dv hr nc h)) = Raise e /\
     v = error_marker e).
Proof.
  intros Hrun. unfold perform_db_operation, except_finally in Hrun.
  destruct (perform_db_operation_try E self q dv hr nc h) as [[l r] h2]
    eqn:Htry.
  cbn [fst snd]. destruct r as [v0|e].
  - apply finally_ret in Hrun. cbn [fst] in Hrun. destruct Hrun as (Hv & _).
    inversion Hv; subst v0; clear Hv.
    destruct (db_try_success _ _ _ _ _ _ _ Htry) as (c & k & h1 & _ & _ & Hs).
    cbv zeta in Hs. split.
    + intros (msg & ->). destruct hr.
      * destruct Hs as (cols & _ & Hv & _). discriminate Hv.
      * destruct Hs as (Hv & _). discriminate Hv.
    + intros (e & He & _). discriminate He.
  - unfold perform_db_operation_except, bind, logger_error, emit, ret in Hrun.
    apply finally_ret in Hrun. cbn [fst] in Hrun. destruct Hrun as (Hv & _).
    inversion Hv; subst v; clear Hv. split.
    + intros _. exists e. split; reflexivity.
    + intros _. eexists. reflexivity.
Qed.

Lemma error_marker_iff_failure_witness :
  exists msg,
    fst (perform_db_operation bad_statement me "UPDATE t SET" VNone false
           false [])
    = Ret (VTuple [VStr "Error"; VStr msg]).
Proof.
  assert (Hrun : exists v h',
             perform_db_operation bad_statement me "UPDATE t SET" VNone false
               false [] = (Ret v, h'))
    by (vm_compute; eexists _, _; reflexivity).
  destruct Hrun as (v & h' & Hrun).
  destruct (proj2 (error_marker_iff_failure _ _ _ _ _ _ _ Hrun))
    as (msg & Hv).
  - exists syntax_error. vm_compute in Hrun. inversion Hrun.
    split; reflexivity.
  - exists msg. rewrite Hrun. cbn [fst]. now rewrite Hv.
Defined.

(** X12.  In every environment one call of [perform_db_operation] never
    rolls back, sends at most one statement to the driver, fetches at most
    once, commits at most once, and closes at most one cursor and one
    connection. *)
Theorem single_step_budget (E : env) (self : AzSql) (q : string)
    (dv : pyval) (hr nc : bool) (h : history) :
  exists new,
    snd (perform_db_operation E self q dv hr nc h) = (new ++ h)%list /\
    ncalls PRollback new = 0 /\
    ncalls PExecute new + ncalls PExecuteMany new <= 1 /\
    ncalls PFetchall new <= 1 /\
    ncalls PCommit new <= 1 /\
    ncalls PCloseCursor new <= 1 /\
    ncalls PCloseConn new <= 1.
Proof.
  assert (H1 : exists new,
             snd (perform_db_operation E self q dv hr nc h) = (new ++ h)%list
             /\ weight (calls_of PRollback) new <= 0) by function_budget.
  assert (H2 : exists new,
             snd (perform_db_operation E self q dv hr nc h) = (new ++ h)%list
             /\ weight statements new <= 1) by function_budget.
  assert (H3 : exists new,
             snd (perform_db_operation E self q dv hr nc h) = (new ++ h)%list
             /\ weight (calls_of PFetchall) new <= 1) by function_budget.
  assert (H4 : exists new,
             snd (perform_db_operation E self q dv hr nc h) = (new ++ h)%list
             /\ weight (calls_of PCommit) new <= 1) by function_budget.
  assert (H5 : exists new,
             snd (perform_db_operation E self q dv hr nc h) = (new ++ h)%list
             /\ weight (calls_of PCloseCursor) new <= 1) by function_budget.
  assert (H6 : exists new,
             snd (perform_db_operation E self q dv hr nc h) = (new ++ h)%list
             /\ weight (calls_of PCloseConn) new <= 1) by function_budget.
  destruct H1 as (new & Heq & W1).
  destruct H2 as (n2 & E2 & W2). destruct H3 as (n3 & E3 & W3).
  destruct H4 as (n4 & E4 & W4). destruct H5 as (n5 & E5 & W5).
  destruct H6 as (n6 & E6 & W6).
  rewrite Heq in E2, E3, E4, E5, E6.
  apply app_inv_tail in E2, E3, E4, E5, E6. subst n2 n3 n4 n5 n6.
  rewrite <- ncalls_weight in W1, W3, W4, W5, W6.
  rewrite weight_statements in W2.
  exists new. split; [exact Heq|]. repeat split; lia.
Qed.

(** X15.  A statement that fails is never committed by
    [perform_db_operation]: where closing succeeds, the call logs the
    error, closes the cursor and the connection without commit or
    rollback, and returns the error marker. *)
Theorem failed_statement_not_committed (E : env) (self : AzSql) (q : string)
    (dv : pyval) (hr nc : bool) (h h1 : history) (c k : nat) (e : exn) :
  closes_succeed E ->
  create_cursor E self 3 5 h = (Ret (c, k), h1) ->
  fst (execute_query E (Some k) q dv h1) = Raise e ->
  perform_db_operation E self q dv hr nc h
  = (Ret (error_marker e),
     EvCloseConn c :: EvCloseCursor k
     :: EvLogError ("Error performing query: " ++ str_of e)
     :: dispatch_event (dispatch_mode dv) k q dv :: h1).
Proof.
  intros Hok Hacq Hexec.
  destruct (execute_query_event E k q dv h1) as (r & Hr).
  rewrite Hr in Hexec. cbn [fst] in Hexec. subst r.
  unfold perform_db_operation, perform_db_operation_try, try_block,
    except_finally.
  unfold bind at 1. rewrite Hacq. unfold ret at 1.
  cbn [value l_conn l_cursor]. unfold bind at 1. rewrite Hr.
  unfold perform_db_operation_except, perform_db_operation_finally,
    cursor_close, conn_close, method, bind, call, logger_error, emit, ret,
    finally.
  cbn [in_locals is_not_none value andb l_conn l_cursor fst snd].
  rewrite (proj1 (Hok _)). cbn [fst snd ncalls is_call].
  rewrite (proj2 (Hok _)). reflexivity.
Qed.

Lemma failed_statement_not_committed_witness :
  ncalls PCommit
    (snd (perform_db_operation bad_statement me "UPDATE t SET" VNone false
            true [])) = 0 /\
  ncalls PCloseConn
    (snd (perform_db_operation bad_statement me "UPDATE t SET" VNone false
            true [])) = 1.
Proof.
  assert (Hok : closes_succeed bad_statement)
    by (intros n; split; reflexivity).
  rewrite (@failed_statement_not_committed bad_statement me "UPDATE t SET"
             VNone false true [] _ 0 0 syntax_error Hok eq_refl eq_refl).
  split; reflexivity.
Defined.

(** X13.  Once [create_cursor] has returned a session, and where closing
    does not fail, [perform_db_operation] closes the cursor and then the
    connection as its last two driver calls, once each, whether the
    statement went through or not. *)
Theorem session_closed_once (E : env) (self : AzSql) (q : string)
    (dv : pyval) (hr nc : bool) (h h1 : history) (c k : nat) :
  closes_succeed E ->
  create_cursor E self 3 5 h = (Ret (c, k), h1) ->
  exists later,
    snd (perform_db_operation E self q dv hr nc h)
    = EvCloseConn c :: EvCloseCursor k :: (later ++ h1)%list /\
    ncalls PCloseCursor later = 0 /\ ncalls PCloseConn later = 0.
Proof.
  intros Hok Hacq. now apply SingleStep.session_released.
Qed.

Lemma session_closed_once_witness :
  exists later,
    snd (perform_db_operation calm me "SELECT 1" VNone true false [])
    = EvCloseConn 0 :: EvCloseCursor 0 :: later.
Proof.
  assert (Hok : closes_succeed calm) by (intros n; split; reflexivity).
  destruct (@session_closed_once calm me "SELECT 1" VNone true false
              [] _ 0 0 Hok eq_refl) as (later & Heq & _).
  rewrite Heq. eexists. reflexivity.
Defined.

(** X14.  When [create_cursor] raises inside [perform_db_operation],
    neither local name is bound: the call logs the error and returns the
    error marker of that exception; it closes nothing and raises
    nothing. *)
Theorem unbound_session_closes_nothing (E : env) (self : AzSql) (q : string)
    (dv : pyval) (hr nc : bool) (h h1 : history) (e : exn) :
  create_cursor E self 3 5 h = (Raise e, h1) ->
  perform_db_operation E self q dv hr nc h
  = (Ret (error_marker e),
     EvLogError ("Error performing query: " ++ str_of e) :: h1).
Proof.
  intros Hacq. now apply SingleStep.nothing_to_release.
Qed.

Lemma unbound_session_closes_nothing_witness :
  perform_db_operation unreachable me "SELECT 1" VNone true false []
  = (Ret (error_marker unreachable_error),
     snd (perform_db_operation unreachable me "SELECT 1" VNone true false []))
  /\
  ncalls PCloseConn
    (snd (perform_db_operation unreachable me "SELECT 1" VNone true false []))
  = 0.
Proof.
  rewrite (@unbound_session_closes_nothing unreachable me "SELECT 1" VNone
             true false [] _ unreachable_error eq_refl).
  split; reflexivity.
Defined.

End SingleStepProps.

(** ** Beyond the claims: the transactional executor *)

Module TransactionalProps.
Import Bytes Py Eff AzSql Spec Samples MoreSamples Budget.
Import HistoryFacts AcquireFacts LeavesFacts ExecFacts BudgetFacts.
Local Open Scope string_scope.

(** On a session passed in by the caller, the statement dispatch is the
    first event of the call. *)
Lemma atomic_supplied_dispatch (E : env) (self : AzSql) (q : string)
    (dv : pyval) (hr cc cn nc : bool) (c k : nat) (h : history) :
  exists later,
    snd (perform_atomic_db_operation E self q dv hr cc cn (Some c) (Some k)
           nc h)
    = (later ++ dispatch_event (dispatch_mode dv) k q dv :: h)%list.
Proof.
  unfold perform_atomic_db_operation, perform_atomic_db_operation_try,
    try_block.
  cbn [is_none orb]. unfold ret at 1. cbn [value l_conn l_cursor].
  match goal with
  | |- context [bind (execute_query E (Some k) q dv) (fun _ => ?rest) h] =>
      destruct (body_dispatch_first E k q dv (rest := rest) h)
        as (later & Heq); [leaves_tac|];
      destruct (bind (execute_query E (Some k) q dv) (fun _ => rest) h)
        as [r h2]
  end.
  cbn [snd] in Heq. subst h2.
  destruct (except_finally_grows
              {| l_conn := Bound (Some c); l_cursor := Bound (Some k) |} r
              (later ++ dispatch_event (dispatch_mode dv) k q dv :: h)%list
              (perform_atomic_db_operation_except E)
              (perform_atomic_db_operation_finally E cc cn nc))
    as (new & Hnew).
  - apply leaves_atomic_except.
  - intros l.
    apply (leaves_weaken
             (P := fun e => cc = false -> cn = false -> ~ close_event e));
      [easy|].
    apply leaves_atomic_finally.
  - exists (new ++ later)%list.
    etransitivity; [exact Hnew|]. now rewrite app_assoc.
Qed.

(** X20.  Whenever [perform_atomic_db_operation] returns, the cleanup ran
    in this order after the [try] block: the commit, if [needs_commit];
    then the closing of the cursor, if [close_cursor]; then the closing of
    the connection, if [close_conn]; each once, on the session of the
    statement, and nothing else. *)
Theorem success_commits_then_closes (E : env) (self : AzSql) (q : string)
    (dv : pyval) (hr cc cn : bool) (conn cursor : option nat) (nc : bool)
    (h h' : history) (v : pyval) :
  perform_atomic_db_operation E self q dv hr cc cn conn cursor nc h
  = (Ret v, h') ->
  exists c k,
    session_of E self conn cursor h = Some (c, k) /\
    chron h'
    = (chron (snd (perform_atomic_db_operation_try E self q dv hr cc cn conn
                     cursor h))
       ++ (if nc then [EvPrint "Committing transaction"; EvCommit c] else [])
       ++ (if cc then [EvCloseCursor k] else [])
       ++ (if cn then [EvCloseConn c] else []))%list.
Proof.
  intros H. destruct (atomic_return_exact _ _ _ _ _ _ _ _ _ _ _ H)
    as (c & k & h2 & Htry & ->).
  destruct (atomic_try_success _ _ _ _ _ _ _ _ _ _ Htry)
    as (c' & k' & h1 & acq & Hses & Hl & _).
  inversion Hl; subst c' k'.
  exists c, k. split; [exact Hses|].
  rewrite Htry. cbn [snd]. unfold chron, cleanup_events.
  rewrite rev_app_distr.
  destruct nc, cc, cn; reflexivity.
Qed.

Lemma success_commits_then_closes_witness :
  exists h2,
    chron (snd (perform_atomic_db_operation calm me "DELETE FROM t" VNone
                  false true true None None true []))
    = (h2 ++ [EvPrint "Committing transaction"; EvCommit 0; EvCloseCursor 0;
              EvCloseConn 0])%list.
Proof.
  assert (Hrun : exists v h',
             perform_atomic_db_operation calm me "DELETE FROM t" VNone false
               true true None None true [] = (Ret v, h'))
    by (vm_compute; eexists _, _; reflexivity).
  destruct Hrun as (v & h' & Hrun).
  destruct (success_commits_then_closes _ _ _ _ _ _ _ _ _ _ _ Hrun)
    as (c & k & Hses & Hh').
  vm_compute in Hses. injection Hses as <- <-.
  rewrite Hrun. cbn [snd]. rewrite Hh'. eexists. reflexivity.
Defined.

(** X19.  Handing a session from one call to the next.  When a call
    without a session and with both close flags off returns, the
    connection and the cursor at the end of its value are the ones that
    [create_cursor] returned to this call, on which its statement was
    executed; neither was closed, and the statement was already committed
    if [needs_commit] was set.  A next call that is given the two executes
    its statement on that cursor and requests no token, connection or
    cursor. *)
Theorem session_handoff (E : env) (self : AzSql) (q1 : string)
    (dv1 : pyval) (hr1 nc1 : bool) (h h1 : history) (v1 : pyval) :
  perform_atomic_db_operation E self q1 dv1 hr1 false false None None nc1 h
  = (Ret v1, h1) ->
  exists c k h0,
    create_cursor E self 3 5 h = (Ret (c, k), h0) /\
    h1 = ((if nc1 then [EvCommit c; EvPrint "Committing transaction"] else [])
          ++ fetch_events hr1 k
          ++ dispatch_event (dispatch_mode dv1) k q1 dv1 :: h0)%list /\
    (if hr1 then
       exists names,
         names_fetched E h = Some names /\
         v1 = VTuple [rows_fetched E h; names; VConn c; VCursor k]
     else v1 = VTuple [VStr "Success"; VConn c; VCursor k]) /\
    ncalls PCloseCursor h1 = ncalls PCloseCursor h /\
    ncalls PCloseConn h1 = ncalls PCloseConn h /\
    ncalls PCommit h1 = ncalls PCommit h + (if nc1 then 1 else 0) /\
    forall q2 dv2 hr2 cc2 cn2 nc2,
    exists later,
      snd (perform_atomic_db_operation E self q2 dv2 hr2 cc2 cn2 (Some c)
             (Some k) nc2 h1)
      = (later ++ dispatch_event (dispatch_mode dv2) k q2 dv2 :: h1)%list /\
      ncalls PToken later = 0 /\ ncalls PConnect later = 0 /\
      ncalls PCursor later = 0.
Proof.
  intros H. destruct (atomic_return_session _ _ _ _ _ _ _ _ _ _ _ H)
    as (c & k & Hses & Hh1 & Hv).
  unfold session_of in Hses. unfold session_history in Hh1.
  destruct (leaves_create_cursor E self 3 5 h) as (acq & Heq & Hacq).
  destruct (create_cursor E self 3 5 h) as [[[c' k']|e] h0] eqn:Hcc;
    cbn [fst snd] in *; [|discriminate].
  inversion Hses; subst c' k' h0; clear Hses.
  assert (Hframe : forall p,
             (forall e, acquisition_event e -> is_call p e = false) ->
             ncalls p (acq ++ h)%list = ncalls p h)
    by (intros p Hp; now apply acquisition_frame).
  assert (Hk : ncalls PCloseCursor (acq ++ h)%list = ncalls PCloseCursor h)
    by (apply Hframe; intros [] He; try reflexivity; destruct He).
  assert (Hn : ncalls PCloseConn (acq ++ h)%list = ncalls PCloseConn h)
    by (apply Hframe; intros [] He; try reflexivity; destruct He).
  assert (Hm : ncalls PCommit (acq ++ h)%list = ncalls PCommit h)
    by (apply Hframe; intros [] He; try reflexivity; destruct He).
  unfold cleanup_events in Hh1. cbn [app] in Hh1.
  exists c, k, (acq ++ h)%list.
  split; [reflexivity|]. split; [exact Hh1|].
  split; [|split; [|split; [|split]]].
  - destruct hr1; exact Hv.
  - rewrite Hh1. unfold fetch_events.
    destruct nc1, hr1, (dispatch_mode dv1);
      cbn [app ncalls is_call dispatch_event]; exact Hk.
  - rewrite Hh1. unfold fetch_events.
    destruct nc1, hr1, (dispatch_mode dv1);
      cbn [app ncalls is_call dispatch_event]; exact Hn.
  - rewrite Hh1. unfold fetch_events.
    destruct nc1, hr1, (dispatch_mode dv1);
      cbn [app ncalls is_call dispatch_event]; rewrite Hm; lia.
  - intros q2 dv2 hr2 cc2 cn2 nc2.
    destruct (atomic_supplied_dispatch E self q2 dv2 hr2 cc2 cn2 nc2 c k h1)
      as (later & Hlater).
    assert (Hbudget : exists new,
               snd (perform_atomic_db_operation E self q2 dv2 hr2 cc2 cn2
                      (Some c) (Some k) nc2 h1) = (new ++ h1)%list /\
               weight acquisitions new <= 0) by function_budget.
    destruct Hbudget as (new & Hnew & Hw).
    rewrite weight_acquisitions in Hw.
    exists later. split; [exact Hlater|].
    rewrite Hlater in Hnew.
    change (later ++ dispatch_event (dispatch_mode dv2) k q2 dv2 :: h1)%list
      with (later ++ [dispatch_event (dispatch_mode dv2) k q2 dv2] ++ h1)%list
      in Hnew.
    rewrite app_assoc in Hnew. apply app_inv_tail in Hnew. subst new.
    rewrite !ncalls_app in Hw. lia.
Qed.

Lemma session_handoff_witness :
  exists h1 later,
    perform_atomic_db_operation calm me "INSERT INTO t VALUES (1)" VNone
      false false false None None false []
    = (Ret (VTuple [VStr "Success"; VConn 0; VCursor 0]), h1) /\
    fst (create_cursor calm me 3 5 []) = Ret (0, 0) /\
    snd (perform_atomic_db_operation calm me "INSERT INTO u VALUES (2)" VNone
           false true true (Some 0) (Some 0) true h1)
    = (later ++ EvExecute 0 "INSERT INTO u VALUES (2)" None :: h1)%list /\
    ncalls PConnect later = 0.
Proof.
  assert (Hrun : exists v1 h1,
             perform_atomic_db_operation calm me "INSERT INTO t VALUES (1)"
               VNone false false false None None false [] = (Ret v1, h1))
    by (vm_compute; eexists _, _; reflexivity).
  destruct Hrun as (v1 & h1 & Hrun).
  destruct (session_handoff _ _ _ _ _ _ _ Hrun)
    as (c & k & h0 & Hacq & _ & Hv & _ & _ & _ & Hnext).
  assert (Hck : fst (create_cursor calm me 3 5 []) = Ret (0, 0))
    by reflexivity.
  rewrite Hacq in Hck. cbn [fst] in Hck. injection Hck as -> ->.
  cbv iota in Hv. subst v1.
  destruct (Hnext "INSERT INTO u VALUES (2)" VNone false true true true)
    as (later & Heq & _ & Hc & _).
  exists h1, later. split; [exact Hrun|].
  split; [reflexivity|]. split; [exact Heq|exact Hc].
Defined.

(** X17.  In every environment one call of [perform_atomic_db_operation]
    sends at most one statement, fetches at most once and rolls back at
    most once; it commits at most once and never when [needs_commit] is
    off; it closes at most one cursor and one connection, and none when
    the matching flag is off. *)
Theorem atomic_budget (E : env) (self : AzSql) (q : string) (dv : pyval)
    (hr cc cn : bool) (conn cursor : option nat) (nc : bool) (h : history) :
  exists new,
    snd (perform_atomic_db_operation E self q dv hr cc cn conn cursor nc h)
    = (new ++ h)%list /\
    ncalls PExecute new + ncalls PExecuteMany new <= 1 /\
    ncalls PFetchall new <= 1 /\
    ncalls PRollback new <= 1 /\
    ncalls PCommit new <= (if nc then 1 else 0) /\
    ncalls PCloseCursor new <= (if cc then 1 else 0) /\
    ncalls PCloseConn new <= (if cn then 1 else 0).
Proof.
  assert (H1 : exists new,
             snd (perform_atomic_db_operation E self q dv hr cc cn conn cursor
                    nc h) = (new ++ h)%list
             /\ weight statements new <= 1) by function_budget.
  assert (H2 : exists new,
             snd (perform_atomic_db_operation E self q dv hr cc cn conn cursor
                    nc h) = (new ++ h)%list
             /\ weight (calls_of PFetchall) new <= 1) by function_budget.
  assert (H3 : exists new,
             snd (perform_atomic_db_operation E self q dv hr cc cn conn cursor
                    nc h) = (new ++ h)%list
             /\ weight (calls_of PRollback) new <= 1) by function_budget.
  assert (H4 : exists new,
             snd (perform_atomic_db_operation E self q dv hr cc cn conn cursor
                    nc h) = (new ++ h)%list
             /\ weight (calls_of PCommit) new <= (if nc then 1 else 0))
    by (destruct nc; function_budget).
  assert (H5 : exists new,
             snd (perform_atomic_db_operation E self q dv hr cc cn conn cursor
                    nc h) = (new ++ h)%list
             /\ weight (calls_of PCloseCursor) new <= (if cc then 1 else 0))
    by (destruct cc; function_budget).
  assert (H6 : exists new,
             snd (perform_atomic_db_operation E self q dv hr cc cn conn cursor
                    nc h) = (new ++ h)%list
             /\ weight (calls_of PCloseConn) new <= (if cn then 1 else 0))
    by (destruct cn; function_budget).
  destruct H1 as (new & Heq & W1).
  destruct H2 as (n2 & E2 & W2). destruct H3 as (n3 & E3 & W3).
  destruct H4 as (n4 & E4 & W4). destruct H5 as (n5 & E5 & W5).
  destruct H6 as (n6 & E6 & W6).
  rewrite Heq in E2, E3, E4, E5, E6.
  apply app_inv_tail in E2, E3, E4, E5, E6. subst n2 n3 n4 n5 n6.
  rewrite <- ncalls_weight in W2, W3, W4, W5, W6.
  rewrite weight_statements in W1.
  exists new. split; [exact Heq|]. repeat split; assumption.
Qed.

(** X18.  When the commit of the cleanup raises, nothing is closed, even
    with both close flags set: the exception of the commit replaces the
    value the [try] block had returned, and the cursor and the connection
    stay open. *)
Theorem commit_failure_skips_closing (E : env) (self : AzSql) (q : string)
    (dv : pyval) (hr cc cn : bool) (conn cursor : option nat)
    (h h2 : history) (c k : nat) (v : pyval) (e : exn) :
  perform_atomic_db_operation_try E self q dv hr cc cn conn cursor h
  = ({| l_conn := Bound (Some c); l_cursor := Bound (Some k) |}, Ret v, h2) ->
  fault E PCommit (ncalls PCommit h2) = Some e ->
  perform_atomic_db_operation E self q dv hr cc cn conn cursor true h
  = (Raise e, EvCommit c :: EvPrint "Committing transaction" :: h2).
Proof.
  intros Htry Hcommit.
  unfold perform_atomic_db_operation, except_finally. rewrite Htry.
  unfold perform_atomic_db_operation_finally, conn_commit, print, method,
    bind, call, emit, finally.
  cbn [value l_conn l_cursor fst snd ncalls is_call].
  rewrite Hcommit. reflexivity.
Qed.

Lemma commit_failure_skips_closing_witness :
  let run :=
    perform_atomic_db_operation commit_refused me "DELETE FROM t" VNone false
      true true None None true [] in
  fst run = Raise commit_error /\
  ncalls PCloseCursor (snd run) = 0 /\ ncalls PCloseConn (snd run) = 0.
Proof.
  cbv zeta.
  assert (Htry : exists v h2,
             perform_atomic_db_operation_try commit_refused me "DELETE FROM t"
               VNone false true true None None []
             = ({| l_conn := Bound (Some 0); l_cursor := Bound (Some 0) |},
                Ret v, h2) /\
             ncalls PCommit h2 = 0 /\ ncalls PCloseCursor h2 = 0 /\
             ncalls PCloseConn h2 = 0)
    by (vm_compute; eexists _, _; repeat split).
  destruct Htry as (v & h2 & Htry & Hc & Hk & Hn).
  rewrite (@commit_failure_skips_closing commit_refused me "DELETE FROM t"
             VNone false true true None None [] h2 0 0 v commit_error Htry).
  - cbn [fst snd ncalls is_call]. repeat split; assumption.
  - rewrite Hc. reflexivity.
Defined.

(** X21.  A connection passed without its cursor, or a cursor without its
    connection, is set aside: when a session can be acquired, the call
    behaves in every respect as if nothing had been passed, and what was
    passed is not used, committed or closed. *)
Theorem partial_session_is_replaced (E : env) (self : AzSql) (q : string)
    (dv : pyval) (hr cc cn : bool) (conn cursor : option nat) (nc : bool)
    (h h1 : history) (c k : nat) :
  create_cursor E self 3 5 h = (Ret (c, k), h1) ->
  is_none conn || is_none cursor = true ->
  perform_atomic_db_operation E self q dv hr cc cn conn cursor nc h
  = perform_atomic_db_operation E self q dv hr cc cn None None nc h.
Proof.
  intros Hacq Hnone.
  unfold perform_atomic_db_operation, perform_atomic_db_operation_try,
    try_block.
  rewrite Hnone. cbn [is_none orb]. unfold bind. rewrite Hacq.
  reflexivity.
Qed.

Lemma partial_session_is_replaced_witness :
  perform_atomic_db_operation calm me "SELECT 1" VNone true true true
    (Some 41) None true []
  = perform_atomic_db_operation calm me "SELECT 1" VNone true true true
      None None true [].
Proof.
  apply (@partial_session_is_replaced calm me "SELECT 1" VNone true true true
           (Some 41) None true [] _ 0 0 eq_refl eq_refl).
Defined.

(** X22.  When only a connection is passed and no session can be
    acquired, the handler and the cleanup work on the connection of the
    caller: where they do not fail, it is rolled back, then committed if
    [needs_commit], then closed if [close_conn], and the error of the
    acquisition reaches the caller; no cursor is closed. *)
Theorem failed_acquisition_uses_callers_connection (E : env) (self : AzSql)
    (q : string) (dv : pyval) (hr cc cn nc : bool) (c0 : nat)
    (h h1 : history) (e : exn) :
  cleanup_succeeds E ->
  create_cursor E self 3 5 h = (Raise e, h1) ->
  perform_atomic_db_operation E self q dv hr cc cn (Some c0) None nc h
  = (Raise e,
     ((if cn then [EvCloseConn c0] else [])
      ++ (if nc then [EvCommit c0; EvPrint "Committing transaction"] else [])
      ++ EvLogError ("Error in atomic operation: " ++ str_of e)
         :: EvRollback c0 :: h1)%list).
Proof.
  intros Hok Hacq.
  unfold perform_atomic_db_operation, perform_atomic_db_operation_try,
    try_block, except_finally.
  cbn [is_none orb]. unfold bind at 1. rewrite Hacq.
  unfold perform_atomic_db_operation_except, conn_rollback, logger_error,
    perform_atomic_db_operation_finally, conn_commit, cursor_close,
    conn_close, print, method, bind, call, emit, raise, ret, finally.
  cbn [value l_conn l_cursor in_locals is_not_none andb fst snd].
  destruct (Hok (ncalls PRollback h1)) as (-> & _).
  cbn [fst snd].
  destruct nc, cc, cn; cbn [andb fst snd app];
    repeat match goal with
           | |- context [fault E ?p ?n] =>
               match p with
               | PCommit =>
                   rewrite (proj1 (proj2 (Hok n)))
               | PCloseCursor =>
                   rewrite (proj1 (proj2 (proj2 (Hok n))))
               | PCloseConn =>
                   rewrite (proj2 (proj2 (proj2 (Hok n))))
               end; cbn [fst snd]
           end;
    reflexivity.
Qed.

Lemma failed_acquisition_uses_callers_connection_witness :
  let run :=
    perform_atomic_db_operation unreachable me "DELETE FROM t" VNone false
      true true (Some 41) None true [] in
  fst run = Raise unreachable_error /\
  In (EvRollback 41) (snd run) /\ In (EvCommit 41) (snd run) /\
  In (EvCloseConn 41) (snd run).
Proof.
  cbv zeta.
  assert (Hok : cleanup_succeeds unreachable)
    by (intros n; repeat split).
  rewrite (@failed_acquisition_uses_callers_connection unreachable me
             "DELETE FROM t" VNone false true true true 41 [] _
             unreachable_error Hok eq_refl).
  cbn [fst snd app]. split; [reflexivity|]. repeat split; simpl; tauto.
Defined.

(** X16.  On a session passed in by the caller, and where rolling back,
    committing and closing do not fail, a statement that raises is
    followed by the rollback, the log line, the commit if [needs_commit],
    the closing of the cursor and of the connection as the flags say, in
    that order; then the same exception reaches the caller. *)
Theorem failed_statement_rolled_back (E : env) (self : AzSql) (q : string)
    (dv : pyval) (hr cc cn nc : bool) (c k : nat) (h : history) (e : exn) :
  cleanup_succeeds E ->
  execute_query E (Some k) q dv h
  = (Raise e, dispatch_event (dispatch_mode dv) k q dv :: h) ->
  perform_atomic_db_operation E self q dv hr cc cn (Some c) (Some k) nc h
  = (Raise e,
     (cleanup_events cc cn nc c k
      ++ EvLogError ("Error in atomic operation: " ++ str_of e)
         :: EvRollback c
         :: dispatch_event (dispatch_mode dv) k q dv :: h)%list).
Proof.
  intros Hok Hexec.
  erewrite Transactional.statement_failure_rolls_back;
    [|eassumption|eassumption].
  unfold cleanup_events. now rewrite <- !app_assoc.
Qed.

Lemma failed_statement_rolled_back_witness :
  let run :=
    perform_atomic_db_operation bad_statement me "UPDATE t SET" VNone false
      true true (Some 3) (Some 7) true [] in
  fst run = Raise syntax_error /\
  chron (snd run)
  = [EvExecute 7 "UPDATE t SET" None; EvRollback 3;
     EvLogError
       ("Error in atomic operation: " ++ str_of syntax_error);
     EvPrint "Committing transaction"; EvCommit 3; EvCloseCursor 7;
     EvCloseConn 3].
Proof.
  cbv zeta.
  assert (Hok : cleanup_succeeds bad_statement)
    by (intros n; repeat split).
  rewrite (@failed_statement_rolled_back bad_statement me
             "UPDATE t SET" VNone false true true true 3 7 [] syntax_error
             Hok eq_refl).
  split; reflexivity.
Defined.

End TransactionalProps.
